(** * tablestore-typeorm: query planning, filters, transactions, cursors

    A shallow embedding of the TypeScript sources

      - [query-builder.ts]   (module [QueryBuilder])
      - [entity-manager.ts]  (modules [EntityManager], [EntityManagerOps])
      - [filter-factory.ts]  (module [FilterFactory])
      - [transaction.ts]     (modules [Transaction], [TransactionManager])
      - [pagination.ts]      (module [PaginationUtils])
      - [repository.ts]      (module [Repository])
      - [decorators/metadata-storage.ts]  (module [MetadataStorage])

    Objects used as dictionaries are finite maps, arrays are lists, a
    thrown exception is the [Throw] branch of [Result], and every call
    that reaches the Tablestore client is recorded in a request log. *)

From Stdlib Require Import ZArith List String Ascii Bool Lia.
From stdpp Require Import gmap strings list.

Import ListNotations.
Local Open Scope string_scope.
Local Open Scope list_scope.
Local Open Scope Z_scope.

(** ** JavaScript values *)

Module Js.

(** A JavaScript number.  [NInt z] is a number for which
    [Number.isInteger] holds (so [+0] and [-0] are both [NInt 0]);
    [NDouble bits] is any other non-NaN double (non-integral, or an
    infinity), named by its bit pattern; [NNaN] is NaN. *)
Inductive JsNumber :=
| NInt (z : Z)
| NDouble (bits : Z)
| NNaN.

(** Values an application hands to the library.  Objects carry the
    reference they are compared by. *)
Inductive JsValue :=
| VUndefined
| VNull
| VBool (b : bool)
| VNumber (n : JsNumber)
| VString (s : string)
| VDate (ref : nat) (time : JsNumber)
| VObject (ref : nat).

#[global] Instance JsNumber_eq_dec : EqDecision JsNumber.
Proof. solve_decision. Defined.

#[global] Instance JsValue_eq_dec : EqDecision JsValue.
Proof. solve_decision. Defined.

(** [Number.isInteger(n)] *)
Definition isInteger (n : JsNumber) : bool :=
  match n with NInt _ => true | _ => false end.

(** Truthiness of a number: [0], [-0] and [NaN] are falsy. *)
Definition truthyNumber (n : JsNumber) : bool :=
  match n with
  | NInt z => negb (z =? 0)
  | NDouble _ => true
  | NNaN => false
  end.

(** [a === b] on numbers: NaN equals nothing. *)
Definition numberStrictEq (a b : JsNumber) : bool :=
  match a, b with
  | NInt x, NInt y => x =? y
  | NDouble x, NDouble y => x =? y
  | _, _ => false
  end.

(** [a === b]: primitives by value, objects by reference. *)
Definition strictEq (a b : JsValue) : bool :=
  match a, b with
  | VUndefined, VUndefined => true
  | VNull, VNull => true
  | VBool x, VBool y => Bool.eqb x y
  | VNumber x, VNumber y => numberStrictEq x y
  | VString x, VString y => bool_decide (x = y)
  | VDate r _, VDate r' _ => Nat.eqb r r'
  | VObject r, VObject r' => Nat.eqb r r'
  | VDate r _, VObject r' => Nat.eqb r r'
  | VObject r, VDate r' _ => Nat.eqb r r'
  | _, _ => false
  end.

(** [value !== undefined && value !== null] *)
Definition isBound (v : JsValue) : bool :=
  match v with
  | VUndefined | VNull => false
  | _ => true
  end.

(** Property read [o[name]]: a missing property reads as [undefined]. *)
Definition get (o : gmap string JsValue) (name : string) : JsValue :=
  default VUndefined (o !! name).

(** [Object.keys(o).includes(name)] *)
Definition hasKey (o : gmap string JsValue) (name : string) : bool :=
  bool_decide (is_Some (o !! name)).

(** What the code throws.  [Error m] is [new Error(...)] raised by the
    library itself, one constructor per message template;
    [StoreFailure] is a rejection coming back from the client. *)
Inductive ErrorMessage :=
| FieldNotInEntity (fieldName : string)
| ValueNullOrUndefined (fieldName : string)
| AndNeedsCondition
| OrNeedsCondition
| TransactionTimedOut
| TransactionEnded
| NoPrimaryColumn
| PartitionKeyMismatch (entityValue txValue : JsValue)
| BatchNotSameTable
| PrimaryKeyEmpty (propertyName : string)
| EntityNotDecorated (entityName : string)
| EncodeCursorFailed
| DecodeCursorFailed.

Inductive Exn :=
| Error (m : ErrorMessage)
| StoreFailure (code message : string).

Inductive Result (A : Type) :=
| Ok (a : A)
| Throw (e : Exn).
Arguments Ok {A} a.
Arguments Throw {A} e.

Definition bind {A B} (r : Result A) (k : A -> Result B) : Result B :=
  match r with
  | Ok a => k a
  | Throw e => Throw e
  end.

End Js.

Import Js.

Notation "'try!' x ':=' r 'in' k" := (Js.bind r (fun x => k))
  (at level 10, x pattern, r at level 100, k at level 200).

(** ** Entity metadata ([decorators/metadata-storage.ts]) *)

Module Metadata.

(** The fields of [ColumnMetadata] and [EntityMetadata] that the
    modelled code reads. *)
Record ColumnMetadata := {
  propertyName : string;
  isPrimary : bool
}.

Record EntityMetadata := {
  tableName : string;
  columns : list ColumnMetadata;
  primaryColumns : list ColumnMetadata
}.

End Metadata.

Import Metadata.

(** ** The Tablestore client boundary *)

Module Tablestore.

(** A cell handed to the SDK: [Long.fromNumber(z)], one of the two
    range sentinels, or an application value passed through as is. *)
Inductive CellValue :=
| LongFromNumber (z : Z)
| INF_MIN
| INF_MAX
| Plain (v : JsValue).

(** [PrimaryKeyInput]: an array of one-property objects
    [{ [name]: value }]. *)
Abbreviation PrimaryKeyInput := (list (string * CellValue)).

Inductive ComparatorType :=
| EQUAL | NOT_EQUAL | GREATER_THAN | GREATER_EQUAL | LESS_THAN | LESS_EQUAL.

Inductive LogicalOperator := AND | OR | NOT.

#[warnings="-register-all"]
Inductive ColumnCondition :=
| SingleColumnCondition (columnName : string) (columnValue : CellValue)
    (comparator : ComparatorType) (passIfMissing latestVersionOnly : bool)
| CompositeCondition (combinator : LogicalOperator)
    (subConditions : list ColumnCondition).

Inductive Direction := FORWARD | BACKWARD.

Record Row := {
  primaryKey : option (list (string * CellValue));
  attributes : option (list (string * CellValue))
}.

Record GetRowParams := {
  getRow_tableName : string;
  getRow_primaryKey : PrimaryKeyInput;
  getRow_columnsToGet : option (list string);
  getRow_columnFilter : option ColumnCondition;
  getRow_transactionId : option string
}.

Record GetRangeParams := {
  getRange_tableName : string;
  inclusiveStartPrimaryKey : PrimaryKeyInput;
  exclusiveEndPrimaryKey : PrimaryKeyInput;
  getRange_limit : JsNumber;
  getRange_direction : Direction;
  getRange_columnsToGet : option (list string);
  getRange_columnFilter : option ColumnCondition
}.

Record GetRowResponse := { row : option Row }.

Record GetRangeResponse := {
  rows : list Row;
  nextStartPrimaryKey : option (list (string * CellValue))
}.

(** One row change of a [batchWriteRow] call ([request: any] in
    [BatchWriteOperation]): its kind and the row it addresses. *)
Record RowChange := {
  changeType : string;
  change_primaryKey : PrimaryKeyInput
}.

(** The requests the modelled code sends.  A write request keeps its
    table, the row key and the transaction id. *)
Inductive Request :=
| GetRow (p : GetRowParams)
| GetRange (p : GetRangeParams)
| PutRow (tableName : string) (pk : PrimaryKeyInput)
    (transactionId : option string)
| UpdateRow (tableName : string) (pk : PrimaryKeyInput)
    (transactionId : option string)
| DeleteRow (tableName : string) (pk : PrimaryKeyInput)
    (transactionId : option string)
| BatchWriteRow (tableName : string) (requests : list RowChange)
    (transactionId : string)
| CommitTransaction (transactionId : string)
| AbortTransaction (transactionId : string).

(** The client, as far as this code can observe it: what each call
    resolves to or rejects with. *)
Record Client := {
  getRow : GetRowParams -> Result GetRowResponse;
  getRange : GetRangeParams -> Result GetRangeResponse;
  write : Request -> Result unit
}.

End Tablestore.

Import Tablestore.

(** ** [entity-manager.ts]: primary-key conversion *)

Module EntityManager.

(** [isRowNotFoundError(error)]:
    [error?.code === 'OTSRowNotExist' || error?.message?.includes('not exist')].
    Inside the [try] blocks that use it only client rejections arise. *)
Fixpoint includes (needle haystack : string) : bool :=
  String.prefix needle haystack
  || match haystack with
     | EmptyString => false
     | String _ rest => includes needle rest
     end.

Definition isRowNotFoundError (e : Exn) : bool :=
  match e with
  | StoreFailure code message =>
      bool_decide (code = "OTSRowNotExist") || includes "not exist" message
  | Error _ => false
  end.

Section Codec.

(** [convertValueToTablestore(value, column)]: the value codec
    (transformers, column types) is a collaborator of this part. *)
Variable convertValueToTablestore : JsValue -> ColumnMetadata -> CellValue.

(** The loop of [convertPrimaryKeysToTablestore]: a bound column is
    pushed; an unbound one throws, or with [allowPartial] breaks. *)
Fixpoint convertPrimaryKeysLoop (cols : list ColumnMetadata)
    (primaryKeys : gmap string JsValue) (allowPartial : bool)
    (tablestorePrimaryKey : PrimaryKeyInput) : Result PrimaryKeyInput :=
  match cols with
  | [] => Ok tablestorePrimaryKey
  | column :: rest =>
      let value := get primaryKeys (propertyName column) in
      if isBound value then
        convertPrimaryKeysLoop rest primaryKeys allowPartial
          (tablestorePrimaryKey
             ++ [(propertyName column, convertValueToTablestore value column)])
      else if negb allowPartial then
        Throw (Error (PrimaryKeyEmpty (propertyName column)))
      else Ok tablestorePrimaryKey
  end.

Definition convertPrimaryKeysToTablestore (primaryKeys : gmap string JsValue)
    (md : EntityMetadata) (allowPartial : bool) : Result PrimaryKeyInput :=
  convertPrimaryKeysLoop (primaryColumns md) primaryKeys allowPartial [].

Definition isCompletePrimaryKey (primaryKeys : gmap string JsValue)
    (md : EntityMetadata) : bool :=
  forallb (fun column => isBound (get primaryKeys (propertyName column)))
    (primaryColumns md).

(** One turn of the loop of [autoCompletePartialPrimaryKey]. *)
Definition autoCompleteStep (partialKeys : gmap string JsValue)
    (isStart : bool) (tablestorePrimaryKey : PrimaryKeyInput)
    (column : ColumnMetadata) : PrimaryKeyInput :=
  let value := get partialKeys (propertyName column) in
  if isBound value then
    tablestorePrimaryKey
      ++ [(propertyName column, convertValueToTablestore value column)]
  else if isStart then
    tablestorePrimaryKey ++ [(propertyName column, INF_MIN)]
  else
    tablestorePrimaryKey ++ [(propertyName column, INF_MAX)].

Definition autoCompletePartialPrimaryKey (partialKeys : gmap string JsValue)
    (md : EntityMetadata) (isStart : bool) : PrimaryKeyInput :=
  fold_left (autoCompleteStep partialKeys isStart) (primaryColumns md) [].

End Codec.

End EntityManager.

(** ** [query-builder.ts] *)

Module QueryBuilder.

Inductive OrderDirection := ASC | DESC.

Abbreviation Entity := (gmap string JsValue).

Record QueryResult := {
  entities : list Entity;
  result_nextStartPrimaryKey : option (list (string * CellValue))
}.

Record t := {
  metadata : EntityMetadata;
  _select : list string;
  _where : gmap string JsValue;
  _orderBy : list (string * OrderDirection);
  _limit : option JsNumber;
  _startPrimaryKey : option PrimaryKeyInput;
  _endPrimaryKey : option PrimaryKeyInput;
  _columnCondition : option ColumnCondition
}.

(** The state the constructor leaves. *)
Definition create (md : EntityMetadata) : t :=
  {| metadata := md; _select := []; _where := ∅;
     _orderBy := []; _limit := None; _startPrimaryKey := None;
     _endPrimaryKey := None; _columnCondition := None |}.

(** Assignments to the fields. *)
Definition setSelect (columns : list string) (qb : t) : t :=
  {| metadata := metadata qb; _select := columns; _where := _where qb;
     _orderBy := _orderBy qb; _limit := _limit qb;
     _startPrimaryKey := _startPrimaryKey qb;
     _endPrimaryKey := _endPrimaryKey qb;
     _columnCondition := _columnCondition qb |}.

Definition setOrderBy (order : list (string * OrderDirection)) (qb : t) : t :=
  {| metadata := metadata qb; _select := _select qb; _where := _where qb;
     _orderBy := order; _limit := _limit qb;
     _startPrimaryKey := _startPrimaryKey qb;
     _endPrimaryKey := _endPrimaryKey qb;
     _columnCondition := _columnCondition qb |}.

Definition setStart (pk : PrimaryKeyInput) (qb : t) : t :=
  {| metadata := metadata qb; _select := _select qb; _where := _where qb;
     _orderBy := _orderBy qb; _limit := _limit qb;
     _startPrimaryKey := Some pk;
     _endPrimaryKey := _endPrimaryKey qb;
     _columnCondition := _columnCondition qb |}.

Definition setEnd (pk : PrimaryKeyInput) (qb : t) : t :=
  {| metadata := metadata qb; _select := _select qb; _where := _where qb;
     _orderBy := _orderBy qb; _limit := _limit qb;
     _startPrimaryKey := _startPrimaryKey qb;
     _endPrimaryKey := Some pk;
     _columnCondition := _columnCondition qb |}.

(** [select(columns)] *)
Definition select (columns : list string) (qb : t) : t := setSelect columns qb.

(** [where(condition)] with an object; [andWhere] and [orWhere] are the
    same assignment. *)
Definition where_ (condition : gmap string JsValue) (qb : t) : t :=
  {| metadata := metadata qb; _select := _select qb;
     _where := condition;
     _orderBy := _orderBy qb; _limit := _limit qb;
     _startPrimaryKey := _startPrimaryKey qb;
     _endPrimaryKey := _endPrimaryKey qb;
     _columnCondition := _columnCondition qb |}.

Definition andWhere := where_.
Definition orWhere := where_.

(** [where(condition, parameters)] with a string: the object
    [{ condition, parameters }] is stored. *)
Definition whereString (condition : string) (parameters : JsValue) (qb : t) : t :=
  where_ {[ "condition" := VString condition; "parameters" := parameters ]} qb.

(** [limit(n)]; [take] is the same method. *)
Definition limit (n : JsNumber) (qb : t) : t :=
  {| metadata := metadata qb; _select := _select qb; _where := _where qb;
     _orderBy := _orderBy qb; _limit := Some n;
     _startPrimaryKey := _startPrimaryKey qb;
     _endPrimaryKey := _endPrimaryKey qb;
     _columnCondition := _columnCondition qb |}.

Definition take := limit.

(** [orderBy(direction)]: the direction goes on the first primary
    column; without one [_orderBy] is left alone. *)
Definition orderBy (direction : OrderDirection) (qb : t) : t :=
  match primaryColumns (metadata qb) with
  | firstPrimaryColumn :: _ =>
      setOrderBy [(propertyName firstPrimaryColumn, direction)] qb
  | [] => qb
  end.

(** [orderBy(column, direction)], for a column not named [ASC] or
    [DESC]: [direction || 'ASC']. *)
Definition orderByColumn (column : string) (direction : option OrderDirection)
    (qb : t) : t :=
  setOrderBy [(column, default ASC direction)] qb.

(** The order in which [Object.keys] lists the keys of [_orderBy]:
    the keys that are array indices first, in ascending order, then the
    other keys in the order in which they were added.  An array index is
    the canonical decimal numeral of an integer from 0 to 2^32 - 2. *)
Definition digit (a : ascii) : option Z :=
  let n := Z.of_nat (nat_of_ascii a) in
  if (48 <=? n) && (n <=? 57) then Some (n - 48) else None.

Fixpoint numeral (s : string) (acc : Z) : option Z :=
  match s with
  | EmptyString => Some acc
  | String a rest =>
      match digit a with
      | Some d => numeral rest (acc * 10 + d)
      | None => None
      end
  end.

Definition arrayIndex (key : string) : option Z :=
  match key with
  | EmptyString => None
  | String a rest =>
      match numeral key 0 with
      | Some v =>
          if bool_decide (a = "0"%char) && negb (bool_decide (rest = EmptyString))
          then None
          else if v <=? 4294967294 then Some v else None
      | None => None
      end
  end.

(** A key already there keeps its place and takes the new value. *)
Fixpoint overwrite (column : string) (direction : OrderDirection)
    (order : list (string * OrderDirection)) : list (string * OrderDirection) :=
  match order with
  | [] => []
  | (key, d) :: rest =>
      if bool_decide (key = column) then (key, direction) :: rest
      else (key, d) :: overwrite column direction rest
  end.

(** A new key goes to the end, unless it is an array index: then it
    goes before the first key that is a larger index or no index. *)
Fixpoint place (column : string) (direction : OrderDirection)
    (index : option Z) (order : list (string * OrderDirection))
  : list (string * OrderDirection) :=
  match order with
  | [] => [(column, direction)]
  | (key, d) :: rest =>
      let before :=
        match index, arrayIndex key with
        | Some v, Some v' => v <? v'
        | Some _, None => true
        | None, _ => false
        end in
      if before then (column, direction) :: (key, d) :: rest
      else (key, d) :: place column direction index rest
  end.

(** [this._orderBy[column] = direction].  Without an own key
    [__proto__], the assignment to [__proto__] reaches the setter of
    [Object.prototype], which ignores a string and adds no key. *)
Definition assign (column : string) (direction : OrderDirection)
    (order : list (string * OrderDirection)) : list (string * OrderDirection) :=
  if existsb (fun entry => bool_decide (fst entry = column)) order
  then overwrite column direction order
  else if bool_decide (column = "__proto__") then order
  else place column direction (arrayIndex column) order.

Definition addOrderBy (column : string) (direction : OrderDirection) (qb : t) : t :=
  setOrderBy (assign column direction (_orderBy qb)) qb.

(** [filter(callback)] with the condition the callback returned. *)
Definition filter (condition : ColumnCondition) (qb : t) : t :=
  {| metadata := metadata qb; _select := _select qb; _where := _where qb;
     _orderBy := _orderBy qb; _limit := _limit qb;
     _startPrimaryKey := _startPrimaryKey qb;
     _endPrimaryKey := _endPrimaryKey qb;
     _columnCondition := Some condition |}.

(** [getDirection] and [getOrderDirection] look at the first key of
    [_orderBy]: [firstOrderKey && this._orderBy[firstOrderKey] === 'DESC'],
    where an empty key is falsy. *)
Definition firstIsDesc (qb : t) : bool :=
  match _orderBy qb with
  | (firstOrderKey, DESC) :: _ => negb (bool_decide (firstOrderKey = ""))
  | _ => false
  end.

Definition getDirection (qb : t) : Direction :=
  if firstIsDesc qb then BACKWARD else FORWARD.

Definition getOrderDirection (qb : t) : OrderDirection :=
  if firstIsDesc qb then DESC else ASC.

(** [convertValueToTablestore(value, column)]: the column is unused. *)
Definition convertValueToTablestore (value : JsValue) (column : ColumnMetadata)
  : CellValue :=
  match value with
  | VNumber (NInt z) => LongFromNumber z
  | _ => Plain value
  end.

(** [convertPrimaryKeysToTablestore]: unbound columns are skipped. *)
Definition convertPrimaryKeysToTablestore (md : EntityMetadata)
    (primaryKeys : gmap string JsValue) : PrimaryKeyInput :=
  fold_left
    (fun tablestorePrimaryKey column =>
       let value := get primaryKeys (propertyName column) in
       if isBound value
       then tablestorePrimaryKey
              ++ [(propertyName column, convertValueToTablestore value column)]
       else tablestorePrimaryKey)
    (primaryColumns md) [].

(** The cell pushed for a column without a value. *)
Definition missingCell (isStart : bool) (direction : OrderDirection) : CellValue :=
  if isStart then
    match direction with ASC => INF_MIN | DESC => INF_MAX end
  else
    match direction with ASC => INF_MAX | DESC => INF_MIN end.

(** One turn of the loop of [autoCompletePartialPrimaryKey]; the state
    is the array built so far and the flag [foundPartialKey]. *)
Definition autoCompleteStep (partialKeys : gmap string JsValue)
    (isStart : bool) (direction : OrderDirection)
    (st : PrimaryKeyInput * bool) (column : ColumnMetadata)
  : PrimaryKeyInput * bool :=
  let '(tablestorePrimaryKey, foundPartialKey) := st in
  let value := get partialKeys (propertyName column) in
  if isBound value then
    (tablestorePrimaryKey
       ++ [(propertyName column, convertValueToTablestore value column)],
     foundPartialKey)
  else
    (tablestorePrimaryKey
       ++ [(propertyName column, missingCell isStart direction)],
     true).

Definition autoCompletePartialPrimaryKey (md : EntityMetadata)
    (partialKeys : gmap string JsValue) (isStart : bool)
    (direction : OrderDirection) : PrimaryKeyInput :=
  fst (fold_left (autoCompleteStep partialKeys isStart direction)
         (primaryColumns md) ([], false)).

Definition buildMinPrimaryKey (md : EntityMetadata) : PrimaryKeyInput :=
  map (fun column => (propertyName column, INF_MIN)) (primaryColumns md).

Definition buildMaxPrimaryKey (md : EntityMetadata) : PrimaryKeyInput :=
  map (fun column => (propertyName column, INF_MAX)) (primaryColumns md).

Definition startWith (primaryKeys : gmap string JsValue) (qb : t) : t :=
  let orderDirection := getOrderDirection qb in
  setStart (autoCompletePartialPrimaryKey (metadata qb) primaryKeys true
              orderDirection) qb.

Definition endWith (primaryKeys : gmap string JsValue) (qb : t) : t :=
  let orderDirection := getOrderDirection qb in
  setEnd (autoCompletePartialPrimaryKey (metadata qb) primaryKeys false
            orderDirection) qb.

(** [_where] always holds an object ([where] stores its object
    argument, or wraps a string condition into one), so the guard
    [typeof this._where !== 'object' || !this._where] of the next three
    methods never fires and is left out. *)
Definition isExactPrimaryKeyQuery (qb : t) : bool :=
  let primaryKeyNames := map propertyName (primaryColumns (metadata qb)) in
  forallb (fun pkName => hasKey (_where qb) pkName) primaryKeyNames.

(** [whereKeys.some(key => primaryKeyNames.includes(key))]: the two
    name lists meet, tested from the primary-key side. *)
Definition isPartialPrimaryKeyQuery (qb : t) : bool :=
  let primaryKeyNames := map propertyName (primaryColumns (metadata qb)) in
  existsb (fun pkName => hasKey (_where qb) pkName) primaryKeyNames
  && negb (forallb (fun pkName => hasKey (_where qb) pkName) primaryKeyNames).

(** An array, even an empty one, is truthy: [!this._startPrimaryKey]
    holds only while the field is unset. *)
Definition convertPartialPrimaryKeyToRange (qb : t) : t :=
  let orderDirection := getOrderDirection qb in
  let qb1 :=
    match _startPrimaryKey qb with
    | None => setStart (autoCompletePartialPrimaryKey (metadata qb)
                          (_where qb) true orderDirection) qb
    | Some _ => qb
    end in
  let qb2 :=
    match _endPrimaryKey qb1 with
    | None => setEnd (autoCompletePartialPrimaryKey (metadata qb1)
                        (_where qb1) false orderDirection) qb1
    | Some _ => qb1
    end in
  where_ ∅ qb2.

(** [this._select.length > 0 ? this._select : undefined] *)
Definition columnsToGet (qb : t) : option (list string) :=
  match _select qb with
  | [] => None
  | _ => Some (_select qb)
  end.

(** The [params] object of [executeGetRowQuery]. *)
Definition getRowParams (qb : t) : GetRowParams :=
  let primaryKey := convertPrimaryKeysToTablestore (metadata qb) (_where qb) in
  {| getRow_tableName := tableName (metadata qb);
     getRow_primaryKey := primaryKey;
     getRow_columnsToGet := columnsToGet qb;
     getRow_columnFilter := None;
     getRow_transactionId := None |}.

(** The [params] object of [executeGetRangeQuery]; [x || y] on an
    optional array takes [y] only when [x] is unset, and
    [this._limit || 100] takes 100 for an unset or falsy limit. *)
Definition getRangeParams (qb : t) : GetRangeParams :=
  let direction := getDirection qb in
  let '(inclusiveStart, exclusiveEnd) :=
    match direction with
    | BACKWARD =>
        (default (buildMaxPrimaryKey (metadata qb)) (_startPrimaryKey qb),
         default (buildMinPrimaryKey (metadata qb)) (_endPrimaryKey qb))
    | FORWARD =>
        (default (buildMinPrimaryKey (metadata qb)) (_startPrimaryKey qb),
         default (buildMaxPrimaryKey (metadata qb)) (_endPrimaryKey qb))
    end in
  {| getRange_tableName := tableName (metadata qb);
     inclusiveStartPrimaryKey := inclusiveStart;
     exclusiveEndPrimaryKey := exclusiveEnd;
     getRange_limit :=
       match _limit qb with
       | Some n => if truthyNumber n then n else NInt 100
       | None => NInt 100
       end;
     getRange_direction := direction;
     getRange_columnsToGet := columnsToGet qb;
     getRange_columnFilter := _columnCondition qb |}.

Section Execute.

Variable client : Client.
(** [entityManager.convertTablestoreToEntity(row, entityClass, metadata)] *)
Variable convertTablestoreToEntity : Row -> EntityMetadata -> Entity.

(** Each [execute...] returns the requests sent, in order, and what
    the promise settles to. *)
Definition executeGetRowQuery (qb : t) : list Request * Result QueryResult :=
  let params := getRowParams qb in
  ([GetRow params],
   match getRow client params with
   | Ok response =>
       match row response with
       | Some r =>
           match Tablestore.primaryKey r with
           | Some _ =>
               Ok {| entities := [convertTablestoreToEntity r (metadata qb)];
                     result_nextStartPrimaryKey := None |}
           | None => Ok {| entities := []; result_nextStartPrimaryKey := None |}
           end
       | None => Ok {| entities := []; result_nextStartPrimaryKey := None |}
       end
   | Throw error =>
       if EntityManager.isRowNotFoundError error
       then Ok {| entities := []; result_nextStartPrimaryKey := None |}
       else Throw error
   end).

Definition executeGetRangeQuery (qb : t) : list Request * Result QueryResult :=
  let params := getRangeParams qb in
  ([GetRange params],
   try! response := getRange client params in
   Ok {| entities :=
           map (fun r => convertTablestoreToEntity r (metadata qb))
             (rows response);
         result_nextStartPrimaryKey := nextStartPrimaryKey response |}).

(** [executeQuery] also returns the builder as the call leaves it. *)
Definition executeQuery (qb : t) : t * (list Request * Result QueryResult) :=
  if isExactPrimaryKeyQuery qb then (qb, executeGetRowQuery qb)
  else
    let qb' :=
      if isPartialPrimaryKeyQuery qb
      then convertPartialPrimaryKeyToRange qb
      else qb in
    (qb', executeGetRangeQuery qb').

Definition getRawAndEntities := executeQuery.

Definition getMany (qb : t) : t * (list Request * Result (list Entity)) :=
  let '(qb', (log, result)) := executeQuery qb in
  (qb', (log, try! r := result in Ok (entities r))).

Definition getOne (qb : t) : t * (list Request * Result (option Entity)) :=
  let '(qb', (log, result)) := executeQuery (limit (NInt 1) qb) in
  (qb', (log, try! r := result in Ok (head (entities r)))).

Definition getCount (qb : t) : t * (list Request * Result nat) :=
  let '(qb', (log, result)) := executeQuery qb in
  (qb', (log, try! r := result in Ok (length (entities r)))).

End Execute.

(** *** Notions used to state the properties of the planner *)

(** The cell [autoCompletePartialPrimaryKey] pushes for one column. *)
Definition boundaryCell (partialKeys : gmap string JsValue) (isStart : bool)
    (direction : OrderDirection) (column : ColumnMetadata) : string * CellValue :=
  let value := get partialKeys (propertyName column) in
  (propertyName column,
   if isBound value then convertValueToTablestore value column
   else missingCell isStart direction).

(** The builder the range path ends up with. *)
Definition rangeBuilder (qb : t) : t :=
  if isPartialPrimaryKeyQuery qb then convertPartialPrimaryKeyToRange qb else qb.

End QueryBuilder.

(** ** [filter-factory.ts] *)

Module FilterFactory.

Record ColumnFilterOptions := {
  passIfMissing : option bool;
  latestVersionOnly : option bool
}.

Definition findColumnMetadata (md : EntityMetadata) (fieldName : string)
  : option ColumnMetadata :=
  find (fun col => bool_decide (propertyName col = fieldName)) (columns md).

Definition convertValueToTablestore (value : JsValue) (column : ColumnMetadata)
  : CellValue :=
  match value with
  | VNumber (NInt z) => LongFromNumber z
  | VDate _ time => Plain (VNumber time)
  | _ => Plain value
  end.

(** [columnValue === null || columnValue === undefined] *)
Definition isNullish (c : CellValue) : bool :=
  match c with
  | Plain VNull | Plain VUndefined => true
  | _ => false
  end.

Definition createSingleCondition (md : EntityMetadata) (field : string)
    (value : JsValue) (comparator : ComparatorType)
    (options : option ColumnFilterOptions) : Result ColumnCondition :=
  let fieldName := field in
  match findColumnMetadata md fieldName with
  | None => Throw (Error (FieldNotInEntity fieldName))
  | Some columnMetadata =>
      let columnValue := convertValueToTablestore value columnMetadata in
      if isNullish columnValue then
        Throw (Error (ValueNullOrUndefined fieldName))
      else
        Ok (SingleColumnCondition fieldName columnValue comparator
              (default true (o ← options; passIfMissing o))
              (default true (o ← options; latestVersionOnly o)))
  end.

Definition equals md field value options :=
  createSingleCondition md field value EQUAL options.
Definition notEqual md field value options :=
  createSingleCondition md field value NOT_EQUAL options.
Definition greaterThan md field value options :=
  createSingleCondition md field value GREATER_THAN options.
Definition greaterThanOrEqual md field value options :=
  createSingleCondition md field value GREATER_EQUAL options.
Definition lessThan md field value options :=
  createSingleCondition md field value LESS_THAN options.
Definition lessThanOrEqual md field value options :=
  createSingleCondition md field value LESS_EQUAL options.

(** [addSubCondition] appends to the composite's list. *)
Definition addSubCondition (composite : LogicalOperator * list ColumnCondition)
    (cond : ColumnCondition) : LogicalOperator * list ColumnCondition :=
  (fst composite, snd composite ++ [cond]).

Definition build (composite : LogicalOperator * list ColumnCondition)
  : ColumnCondition :=
  CompositeCondition (fst composite) (snd composite).

Definition and (conditions : list ColumnCondition) : Result ColumnCondition :=
  if Nat.eqb (length conditions) 0 then Throw (Error AndNeedsCondition)
  else Ok (build (fold_left addSubCondition conditions (AND, []))).

Definition or (conditions : list ColumnCondition) : Result ColumnCondition :=
  if Nat.eqb (length conditions) 0 then Throw (Error OrNeedsCondition)
  else Ok (build (fold_left addSubCondition conditions (OR, []))).

Definition not (condition : ColumnCondition) : ColumnCondition :=
  build (addSubCondition (NOT, []) condition).

End FilterFactory.

(** ** [transaction.ts] *)

Module Transaction.

Inductive TransactionStatus := ACTIVE | COMMITTED | ABORTED | TIMEOUT.

#[global] Instance TransactionStatus_eq_dec : EqDecision TransactionStatus.
Proof. solve_decision. Defined.

(** The mutable part of a [Transaction] is [status]; times are in
    milliseconds. *)
Record t := {
  tableName : string;
  partitionKey : list (string * JsValue);
  transactionId : string;
  startTime : Z;
  timeout : Z;
  status : TransactionStatus
}.

Record TransactionOptions := { options_timeout : option Z }.

Record BatchWriteOperation := {
  op_tableName : string;
  request : RowChange
}.

(** The constructor; [now] is what [Date.now()] returns.
    [options?.timeout || 60000]: an absent or zero timeout is 60000. *)
Definition new (now : Z) (tableName : string)
    (partitionKey : list (string * JsValue)) (transactionId : string)
    (options : option TransactionOptions) : t :=
  {| tableName := tableName;
     partitionKey := partitionKey;
     transactionId := transactionId;
     startTime := now;
     timeout :=
       match options ≫= options_timeout with
       | Some ms => if ms =? 0 then 60000 else ms
       | None => 60000
       end;
     status := ACTIVE |}.

Definition withStatus (s : TransactionStatus) (tx : t) : t :=
  {| tableName := tableName tx;
     partitionKey := partitionKey tx;
     transactionId := transactionId tx;
     startTime := startTime tx;
     timeout := timeout tx;
     status := s |}.

Definition getTransactionId (tx : t) : string := transactionId tx.
Definition getStatus (tx : t) : TransactionStatus := status tx.

(** [isActive()], with [now] the reading of [Date.now()]. *)
Definition isActive (now : Z) (tx : t) : t * bool :=
  if negb (bool_decide (status tx = ACTIVE)) then (tx, false)
  else if now - startTime tx >? timeout tx then (withStatus TIMEOUT tx, false)
  else (tx, true).

(** A method body: from the transaction it starts on to the
    transaction it leaves, the requests it sent and how it settles. *)
Definition M (A : Type) : Type := t -> t * (list Request * Result A).

Definition ret {A} (a : A) : M A := fun tx => (tx, ([], Ok a)).
Definition throw {A} (e : Exn) : M A := fun tx => (tx, ([], Throw e)).
Definition lift {A} (r : Result A) : M A := fun tx => (tx, ([], r)).

Definition bindM {A B} (m : M A) (k : A -> M B) : M B :=
  fun tx =>
    let '(tx1, (log1, r)) := m tx in
    match r with
    | Ok a => let '(tx2, (log2, r2)) := k a tx1 in (tx2, (log1 ++ log2, r2))
    | Throw e => (tx1, (log1, Throw e))
    end.

(** [try { body } catch (error) { handler }] *)
Definition tryCatch {A} (body : M A) (handler : Exn -> M A) : M A :=
  fun tx =>
    let '(tx1, (log1, r)) := body tx in
    match r with
    | Ok a => (tx1, (log1, Ok a))
    | Throw e => let '(tx2, (log2, r2)) := handler e tx1 in (tx2, (log1 ++ log2, r2))
    end.

(** [try { body } finally { cleanup }], for a cleanup that cannot throw. *)
Definition tryFinally {A} (body : M A) (cleanup : t -> t) : M A :=
  fun tx => let '(tx1, out) := body tx in (cleanup tx1, out).

Definition setStatus (s : TransactionStatus) : M unit :=
  fun tx => (withStatus s tx, ([], Ok tt)).

Notation "'do!' x ':=' m 'in' k" := (bindM m (fun x => k))
  (at level 10, x pattern, m at level 100, k at level 200).

(** [ensureActive()] *)
Definition ensureActive (now : Z) : M unit :=
  fun tx =>
    let '(tx1, active) := isActive now tx in
    if negb active then
      (tx1, ([], Throw (Error (if bool_decide (status tx1 = TIMEOUT)
                               then TransactionTimedOut
                               else TransactionEnded))))
    else (tx1, ([], Ok tt)).

(** [validatePartitionKey(entity, metadata)];
    [this.partitionKey[0]?.[name]] reads the one property of the first
    element of the partition key. *)
Definition validatePartitionKey (entity : gmap string JsValue)
    (md : EntityMetadata) : M unit :=
  fun tx =>
    match primaryColumns md with
    | [] => throw (Error NoPrimaryColumn) tx
    | firstPrimaryColumn :: _ =>
        let entityPartitionValue := get entity (propertyName firstPrimaryColumn) in
        let transactionPartitionValue :=
          match partitionKey tx with
          | [] => VUndefined
          | (key, value) :: _ =>
              if bool_decide (key = propertyName firstPrimaryColumn)
              then value else VUndefined
          end in
        if negb (strictEq entityPartitionValue transactionPartitionValue) then
          throw (Error (PartitionKeyMismatch entityPartitionValue
                          transactionPartitionValue)) tx
        else ret tt tx
    end.

Section Operations.

Variable client : Client.

(** The entity manager, reached through [this.entityManager as any]:
    the metadata lookup (by class name), the value codec, the
    special-column passes and the row decoder. *)
Variable getEntityMetadata : string -> Result EntityMetadata.
Variable convertValueToTablestore : JsValue -> ColumnMetadata -> CellValue.
Variable processSpecialColumnsOnInsert :
  gmap string JsValue -> EntityMetadata -> gmap string JsValue.
(** [processSpecialColumnsOnUpdate] reads the current row when there is
    a version column; these are the requests it sends. *)
Variable processSpecialColumnsOnUpdate :
  gmap string JsValue -> EntityMetadata -> gmap string JsValue -> list Request.
Variable convertTablestoreToEntity : Row -> EntityMetadata -> gmap string JsValue.

Definition send (req : Request) : M unit :=
  fun tx => (tx, ([req], write client req)).

Definition sendGetRow (params : GetRowParams) : M GetRowResponse :=
  fun tx => (tx, ([GetRow params], getRow client params)).

Definition sent (reqs : list Request) : M unit :=
  fun tx => (tx, (reqs, Ok tt)).

(** The primary key [convertEntityToTablestore] builds: bound
    primary columns only. *)
Definition convertEntityPrimaryKey (entity : gmap string JsValue)
    (md : EntityMetadata) : PrimaryKeyInput :=
  fold_left
    (fun primaryKey column =>
       let value := get entity (propertyName column) in
       if isBound value
       then primaryKey
              ++ [(propertyName column, convertValueToTablestore value column)]
       else primaryKey)
    (primaryColumns md) [].

(** [save(entity, options)]; [entityClass] is [entity.constructor]. *)
Definition save (now : Z) (entityClass : string)
    (entity : gmap string JsValue) : M (gmap string JsValue) :=
  do! _ := ensureActive now in
  do! md := lift (getEntityMetadata entityClass) in
  do! _ := validatePartitionKey entity md in
  let entity' := processSpecialColumnsOnInsert entity md in
  let primaryKey := convertEntityPrimaryKey entity' md in
  do! _ := (fun tx =>
              send (PutRow (Metadata.tableName md) primaryKey
                      (Some (transactionId tx))) tx) in
  ret entity'.

Definition update (now : Z) (entityClass : string)
    (primaryKeys partialEntity : gmap string JsValue) : M unit :=
  do! _ := ensureActive now in
  do! md := lift (getEntityMetadata entityClass) in
  do! _ := validatePartitionKey primaryKeys md in
  do! _ := sent (processSpecialColumnsOnUpdate partialEntity md primaryKeys) in
  do! tablestorePrimaryKey :=
    lift (EntityManager.convertPrimaryKeysToTablestore
            convertValueToTablestore primaryKeys md false) in
  fun tx =>
    send (UpdateRow (Metadata.tableName md) tablestorePrimaryKey
            (Some (transactionId tx))) tx.

Definition delete (now : Z) (entityClass : string)
    (primaryKeys : gmap string JsValue) : M unit :=
  do! _ := ensureActive now in
  do! md := lift (getEntityMetadata entityClass) in
  do! _ := validatePartitionKey primaryKeys md in
  do! tablestorePrimaryKey :=
    lift (EntityManager.convertPrimaryKeysToTablestore
            convertValueToTablestore primaryKeys md false) in
  fun tx =>
    send (DeleteRow (Metadata.tableName md) tablestorePrimaryKey
            (Some (transactionId tx))) tx.

Definition findOne (now : Z) (entityClass : string)
    (primaryKeys : gmap string JsValue) : M (option (gmap string JsValue)) :=
  do! _ := ensureActive now in
  do! md := lift (getEntityMetadata entityClass) in
  do! tablestorePrimaryKey :=
    lift (EntityManager.convertPrimaryKeysToTablestore
            convertValueToTablestore primaryKeys md false) in
  tryCatch
    (do! response :=
       (fun tx =>
          sendGetRow {| getRow_tableName := Metadata.tableName md;
                        getRow_primaryKey := tablestorePrimaryKey;
                        getRow_columnsToGet := None;
                        getRow_columnFilter := None;
                        getRow_transactionId := Some (transactionId tx) |} tx) in
     match row response with
     | Some r =>
         match Tablestore.primaryKey r with
         | Some _ => ret (Some (convertTablestoreToEntity r md))
         | None => ret None
         end
     | None => ret None
     end)
    (fun error =>
       if EntityManager.isRowNotFoundError error then ret None else throw error).

Definition batchWrite (now : Z) (operations : list BatchWriteOperation)
  : M unit :=
  do! _ := ensureActive now in
  match operations with
  | [] => ret tt
  | firstOp :: _ =>
      let tableName := op_tableName firstOp in
      if forallb (fun op => bool_decide (op_tableName op = tableName)) operations
      then
        fun tx =>
          send (BatchWriteRow tableName (map request operations)
                  (transactionId tx)) tx
      else throw (Error BatchNotSameTable)
  end.

Definition commit (now : Z) : M unit :=
  do! _ := ensureActive now in
  tryCatch
    (do! _ := (fun tx => send (CommitTransaction (transactionId tx)) tx) in
     setStatus COMMITTED)
    (fun error => do! _ := setStatus ABORTED in throw error).

Definition rollback : M unit :=
  fun tx =>
    if negb (bool_decide (status tx = ACTIVE)) then ret tt tx
    else
      tryFinally
        (fun tx => send (AbortTransaction (transactionId tx)) tx)
        (withStatus ABORTED) tx.

(** The methods that start with [ensureActive()], to speak about all
    of them at once; [perform] runs one and drops its value. *)
Inductive Call :=
| Save (entityClass : string) (entity : gmap string JsValue)
| Update (entityClass : string) (primaryKeys partialEntity : gmap string JsValue)
| Delete (entityClass : string) (primaryKeys : gmap string JsValue)
| FindOne (entityClass : string) (primaryKeys : gmap string JsValue)
| BatchWrite (operations : list BatchWriteOperation)
| Commit.

Definition void {A} (m : M A) : M unit := do! _ := m in ret tt.

Definition perform (now : Z) (c : Call) : M unit :=
  match c with
  | Save entityClass entity => void (save now entityClass entity)
  | Update entityClass primaryKeys partialEntity =>
      update now entityClass primaryKeys partialEntity
  | Delete entityClass primaryKeys => delete now entityClass primaryKeys
  | FindOne entityClass primaryKeys => void (findOne now entityClass primaryKeys)
  | BatchWrite operations => batchWrite now operations
  | Commit => commit now
  end.

End Operations.

End Transaction.

(** ** Node.js built-ins used by the cursor codec

    [Buffer.from(text)], [buf.toString('base64')],
    [Buffer.from(text, 'base64')], [buf.toString('utf-8')],
    [JSON.stringify] and [JSON.parse], on strings as lists of UTF-16
    code units and buffers as lists of bytes. *)

Module Node.

(** *** Base64 *)

(** The base64 alphabet: the character for a 6-bit value. *)
Definition base64Char (v : Z) : Z :=
  if v <? 26 then 65 + v
  else if v <? 52 then 97 + (v - 26)
  else if v <? 62 then 48 + (v - 52)
  else if v =? 62 then 43
  else 47.

(** [buf.toString('base64')]: three bytes make four characters, the
    last group is padded with [=] (61). *)
Fixpoint base64Encode (bs : list Z) : list Z :=
  match bs with
  | [] => []
  | [a] => [base64Char (a / 4); base64Char (a mod 4 * 16); 61; 61]
  | [a; b] =>
      [base64Char (a / 4); base64Char (a mod 4 * 16 + b / 16);
       base64Char (b mod 16 * 4); 61]
  | a :: b :: c :: rest =>
      base64Char (a / 4) :: base64Char (a mod 4 * 16 + b / 16)
        :: base64Char (b mod 16 * 4 + c / 64) :: base64Char (c mod 64)
        :: base64Encode rest
  end.

(** The 6-bit value of a character of the standard or of the URL-safe
    alphabet. *)
Definition unbase64 (c : Z) : option Z :=
  if (65 <=? c) && (c <=? 90) then Some (c - 65)
  else if (97 <=? c) && (c <=? 122) then Some (c - 97 + 26)
  else if (48 <=? c) && (c <=? 57) then Some (c - 48 + 52)
  else if (c =? 43) || (c =? 45) then Some 62
  else if (c =? 47) || (c =? 95) then Some 63
  else None.

(** The decoder of [Buffer.from(s, 'base64')] does not reject anything:
    a character outside the alphabets is skipped, and decoding stops at
    the first [=]. *)
Fixpoint sextets (cs : list Z) : list Z :=
  match cs with
  | [] => []
  | c :: rest =>
      match unbase64 c with
      | Some v => v :: sextets rest
      | None => if c =? 61 then [] else sextets rest
      end
  end.

(** Four 6-bit values make three bytes; two or three left over make one
    or two bytes, a single one is dropped. *)
Fixpoint sextetsToBytes (vs : list Z) : list Z :=
  match vs with
  | a :: b :: c :: d :: rest =>
      (a * 4 + b / 16) :: (b mod 16 * 16 + c / 4) :: (c mod 4 * 64 + d)
        :: sextetsToBytes rest
  | [a; b; c] => [a * 4 + b / 16; b mod 16 * 16 + c / 4]
  | [a; b] => [a * 4 + b / 16]
  | _ => []
  end.

Definition base64Decode (cs : list Z) : list Z := sextetsToBytes (sextets cs).

(** [Buffer.from(s, 'base64')], for a string of characters below 256;
    on other strings the model does not say what the decoder does. *)
Definition bufferFromBase64 (s : list Z) : option (list Z) :=
  if forallb (fun c => (0 <=? c) && (c <? 256)) s then Some (base64Decode s)
  else None.

Definition isByte (b : Z) : Prop := 0 <= b < 256.

(** *** UTF-8 *)

Definition isHighSurrogate (u : Z) : bool := (0xD800 <=? u) && (u <=? 0xDBFF).
Definition isLowSurrogate (u : Z) : bool := (0xDC00 <=? u) && (u <=? 0xDFFF).

(** The UTF-8 bytes of a code point. *)
Definition utf8Bytes (cp : Z) : list Z :=
  if cp <? 0x80 then [cp]
  else if cp <? 0x800 then [0xC0 + cp / 64; 0x80 + cp mod 64]
  else if cp <? 0x10000 then
    [0xE0 + cp / 4096; 0x80 + cp / 64 mod 64; 0x80 + cp mod 64]
  else
    [0xF0 + cp / 262144; 0x80 + cp / 4096 mod 64; 0x80 + cp / 64 mod 64;
     0x80 + cp mod 64].

(** [Buffer.from(str, 'utf8')] on a string of UTF-16 code units: a
    surrogate pair is one code point, a lone surrogate becomes U+FFFD. *)
Fixpoint utf8Encode (us : list Z) : list Z :=
  match us with
  | [] => []
  | u :: rest =>
      if isHighSurrogate u then
        match rest with
        | l :: rest' =>
            if isLowSurrogate l then
              utf8Bytes (0x10000 + (u - 0xD800) * 1024 + (l - 0xDC00))
                ++ utf8Encode rest'
            else utf8Bytes 0xFFFD ++ utf8Encode rest
        | [] => utf8Bytes 0xFFFD
        end
      else if isLowSurrogate u then utf8Bytes 0xFFFD ++ utf8Encode rest
      else utf8Bytes u ++ utf8Encode rest
  end.

(** The state of the UTF-8 decoder between two bytes. *)
Record DecoderState := {
  codePoint : Z;
  bytesNeeded : Z;
  lowerBoundary : Z;
  upperBoundary : Z
}.

Definition idle : DecoderState :=
  {| codePoint := 0; bytesNeeded := 0;
     lowerBoundary := 0x80; upperBoundary := 0xBF |}.

(** A byte met while no sequence is open: what is emitted and the state
    entered. *)
Definition leadByte (b : Z) : list Z * DecoderState :=
  if b <=? 0x7F then ([b], idle)
  else if (0xC2 <=? b) && (b <=? 0xDF) then
    ([], {| codePoint := b - 0xC0; bytesNeeded := 1;
            lowerBoundary := 0x80; upperBoundary := 0xBF |})
  else if (0xE0 <=? b) && (b <=? 0xEF) then
    ([], {| codePoint := b - 0xE0; bytesNeeded := 2;
            lowerBoundary := if b =? 0xE0 then 0xA0 else 0x80;
            upperBoundary := if b =? 0xED then 0x9F else 0xBF |})
  else if (0xF0 <=? b) && (b <=? 0xF4) then
    ([], {| codePoint := b - 0xF0; bytesNeeded := 3;
            lowerBoundary := if b =? 0xF0 then 0x90 else 0x80;
            upperBoundary := if b =? 0xF4 then 0x8F else 0xBF |})
  else ([0xFFFD], idle).

(** The decoder never fails: an ill-formed sequence yields U+FFFD and
    the byte that broke it is read again as a lead byte. *)
Fixpoint utf8DecodeFrom (st : DecoderState) (bs : list Z) : list Z :=
  match bs with
  | [] => if bytesNeeded st =? 0 then [] else [0xFFFD]
  | b :: rest =>
      if bytesNeeded st =? 0 then
        let '(out, st') := leadByte b in out ++ utf8DecodeFrom st' rest
      else if (lowerBoundary st <=? b) && (b <=? upperBoundary st) then
        let cp := codePoint st * 64 + (b - 0x80) in
        if bytesNeeded st =? 1 then cp :: utf8DecodeFrom idle rest
        else
          utf8DecodeFrom
            {| codePoint := cp; bytesNeeded := bytesNeeded st - 1;
               lowerBoundary := 0x80; upperBoundary := 0xBF |} rest
      else
        let '(out, st') := leadByte b in
        (0xFFFD :: out) ++ utf8DecodeFrom st' rest
  end.

(** The UTF-16 code units of a code point. *)
Definition utf16Units (cp : Z) : list Z :=
  if cp <? 0x10000 then [cp]
  else [0xD800 + (cp - 0x10000) / 1024; 0xDC00 + (cp - 0x10000) mod 1024].

(** [buf.toString('utf-8')] *)
Definition utf8Decode (bs : list Z) : list Z :=
  concat (map utf16Units (utf8DecodeFrom idle bs)).

(** A well-formed string: code units, every surrogate in a pair. *)
Inductive wellFormed : list Z -> Prop :=
| wellFormed_nil : wellFormed []
| wellFormed_unit u rest :
    0 <= u < 65536 -> isHighSurrogate u = false -> isLowSurrogate u = false ->
    wellFormed rest -> wellFormed (u :: rest)
| wellFormed_pair h l rest :
    isHighSurrogate h = true -> isLowSurrogate l = true ->
    wellFormed rest -> wellFormed (h :: l :: rest).

(** *** JSON *)

(** JSON values.  Strings are lists of UTF-16 code units; a number is an
    integer in the safe range; the members of an object are in property
    order. *)
#[warnings="-register-all"]
Inductive Json :=
| JNull
| JBool (b : bool)
| JNumber (z : Z)
| JString (s : list Z)
| JArray (items : list Json)
| JObject (members : list (list Z * Json)).

(** The code units of an ASCII literal. *)
Definition chars (s : string) : list Z :=
  map (fun a => Z.of_nat (nat_of_ascii a)) (list_ascii_of_string s).

Definition isDigit (c : Z) : bool := (48 <=? c) && (c <=? 57).

(** The decimal digits of [n > 0] before [tail], most significant
    first; [fuel] bounds their number. *)
Fixpoint digitsBefore (fuel : nat) (n : Z) (tail : list Z) : list Z :=
  match fuel with
  | O => tail
  | S fuel' =>
      let tail' := (48 + n mod 10) :: tail in
      if n / 10 =? 0 then tail' else digitsBefore fuel' (n / 10) tail'
  end.

Definition digitsOf (n : Z) : list Z :=
  if n =? 0 then [48] else digitsBefore (S (Z.to_nat (Z.log2 n))) n [].

(** [Number.prototype.toString] on a safe integer. *)
Definition numberToString (z : Z) : list Z :=
  if z <? 0 then 45 :: digitsOf (- z) else digitsOf z.

Definition hexDigit (v : Z) : Z := if v <? 10 then 48 + v else 97 + (v - 10).

Definition unhex (c : Z) : option Z :=
  if (48 <=? c) && (c <=? 57) then Some (c - 48)
  else if (97 <=? c) && (c <=? 102) then Some (c - 87)
  else if (65 <=? c) && (c <=? 70) then Some (c - 55)
  else None.

(** [\uXXXX] with lower-case digits. *)
Definition unicodeEscape (u : Z) : list Z :=
  [92; 117; hexDigit (u / 4096); hexDigit (u / 256 mod 16);
   hexDigit (u / 16 mod 16); hexDigit (u mod 16)].

(** How [JSON.stringify] writes one code unit that is not a surrogate. *)
Definition quoteUnit (u : Z) : list Z :=
  if u =? 8 then [92; 98]
  else if u =? 9 then [92; 116]
  else if u =? 10 then [92; 110]
  else if u =? 12 then [92; 102]
  else if u =? 13 then [92; 114]
  else if u =? 34 then [92; 34]
  else if u =? 92 then [92; 92]
  else if u <? 32 then unicodeEscape u
  else [u].

(** The inside of a quoted string: a surrogate pair is copied, a lone
    surrogate is escaped. *)
Fixpoint quoteBody (s : list Z) : list Z :=
  match s with
  | [] => []
  | u :: rest =>
      if isHighSurrogate u then
        match rest with
        | l :: rest' =>
            if isLowSurrogate l then u :: l :: quoteBody rest'
            else unicodeEscape u ++ quoteBody rest
        | [] => unicodeEscape u
        end
      else if isLowSurrogate u then unicodeEscape u ++ quoteBody rest
      else quoteUnit u ++ quoteBody rest
  end.

Definition quote (s : list Z) : list Z := 34 :: quoteBody s ++ [34].

Fixpoint join (sep : list Z) (parts : list (list Z)) : list Z :=
  match parts with
  | [] => []
  | [p] => p
  | p :: rest => p ++ sep ++ join sep rest
  end.

(** [JSON.stringify(v)] without indentation. *)
Fixpoint stringify (v : Json) : list Z :=
  match v with
  | JNull => chars "null"
  | JBool true => chars "true"
  | JBool false => chars "false"
  | JNumber z => numberToString z
  | JString s => quote s
  | JArray items => 91 :: join [44] (map stringify items) ++ [93]
  | JObject members =>
      123 :: join [44] (map (fun kv => quote (fst kv) ++ 58 :: stringify (snd kv))
                          members) ++ [125]
  end.

(** What a parsing step comes to.  [Unmodelled] is an input on which
    this model does not say what [JSON.parse] does: a number that is not
    a safe integer written in digits only, or an object with a key made
    of digits (such keys are enumerated in numeric order). *)
Inductive Parse (A : Type) :=
| Parsed (a : A) (rest : list Z)
| SyntaxError
| Unmodelled.
Arguments Parsed {A} a rest.
Arguments SyntaxError {A}.
Arguments Unmodelled {A}.

Definition isWhitespace (c : Z) : bool :=
  (c =? 32) || (c =? 9) || (c =? 10) || (c =? 13).

Fixpoint skipWhitespace (s : list Z) : list Z :=
  match s with
  | c :: rest => if isWhitespace c then skipWhitespace rest else s
  | [] => []
  end.

(** The character after the backslash of a two-character escape. *)
Definition unescape (e : Z) : option Z :=
  if e =? 34 then Some 34
  else if e =? 92 then Some 92
  else if e =? 47 then Some 47
  else if e =? 98 then Some 8
  else if e =? 102 then Some 12
  else if e =? 110 then Some 10
  else if e =? 114 then Some 13
  else if e =? 116 then Some 9
  else None.

Definition hex4 (a b c d : Z) : option Z :=
  match unhex a, unhex b, unhex c, unhex d with
  | Some x, Some y, Some z, Some w => Some (x * 4096 + y * 256 + z * 16 + w)
  | _, _, _, _ => None
  end.

(** [parseString] keeps a unit in front of what it reads next. *)
Definition keep (u : Z) (r : option (list Z * list Z)) : option (list Z * list Z) :=
  match r with
  | Some (units, after) => Some (u :: units, after)
  | None => None
  end.

(** A string after its opening quote: the code units up to the closing
    quote, and what follows it. *)
Fixpoint parseString (s : list Z) : option (list Z * list Z) :=
  match s with
  | [] => None
  | c :: rest =>
      if c =? 34 then Some ([], rest)
      else if c =? 92 then
        match rest with
        | [] => None
        | e :: rest1 =>
            if e =? 117 then
              match rest1 with
              | h1 :: h2 :: h3 :: h4 :: rest2 =>
                  match hex4 h1 h2 h3 h4 with
                  | Some u => keep u (parseString rest2)
                  | None => None
                  end
              | _ => None
              end
            else
              match unescape e with
              | Some u => keep u (parseString rest1)
              | None => None
              end
        end
      else if c <? 32 then None
      else keep c (parseString rest)
  end.

Fixpoint readDigits (s : list Z) (acc : Z) : Z * list Z :=
  match s with
  | c :: rest =>
      if isDigit c then readDigits rest (acc * 10 + (c - 48)) else (acc, s)
  | [] => (acc, [])
  end.

(** After the integer part [n] of a number: a fraction or an exponent,
    or a value outside the safe range, leaves the model. *)
Definition finishNumber (negative : bool) (n : Z) (rest : list Z) : Parse Json :=
  match rest with
  | c :: _ =>
      if (c =? 46) || (c =? 101) || (c =? 69) then Unmodelled
      else if n <? 2 ^ 53 then Parsed (JNumber (if negative then - n else n)) rest
      else Unmodelled
  | [] =>
      if n <? 2 ^ 53 then Parsed (JNumber (if negative then - n else n)) rest
      else Unmodelled
  end.

(** The integer part: [0], or a non-zero digit and more digits. *)
Definition parseInteger (negative : bool) (s : list Z) : Parse Json :=
  match s with
  | d :: rest =>
      if d =? 48 then finishNumber negative 0 rest
      else if isDigit d then
        let '(n, after) := readDigits rest (d - 48) in
        finishNumber negative n after
      else SyntaxError
  | [] => SyntaxError
  end.

Definition parseNumber (s : list Z) : Parse Json :=
  match s with
  | c :: rest => if c =? 45 then parseInteger true rest else parseInteger false s
  | [] => SyntaxError
  end.

(** [s] starts with the literal [word]: what follows it. *)
Fixpoint expect (word s : list Z) : option (list Z) :=
  match word, s with
  | [], _ => Some s
  | w :: word', c :: rest => if c =? w then expect word' rest else None
  | _ :: _, [] => None
  end.

(** [object[key] = value] on the members parsed so far: a key met again
    keeps its place and takes the new value. *)
Fixpoint setMember (key : list Z) (value : Json) (members : list (list Z * Json))
  : list (list Z * Json) :=
  match members with
  | [] => [(key, value)]
  | (k, v) :: rest =>
      if bool_decide (k = key) then (k, value) :: rest
      else (k, v) :: setMember key value rest
  end.

Definition numericKey (key : list Z) : bool :=
  match key with
  | [] => false
  | _ => forallb isDigit key
  end.

Definition buildObject (raw : list (list Z * Json)) : Json :=
  JObject (fold_left (fun members kv => setMember (fst kv) (snd kv) members) raw []).

Definition startsWith (c : Z) (s : list Z) : bool :=
  match s with
  | c' :: _ => c' =? c
  | [] => false
  end.

(** The parser.  Characters are compared by code: braces 123 and 125,
    brackets 91 and 93, double quote 34, comma 44, colon 58, and the
    first letters 116, 102, 110 of the three literals.  [fuel] bounds
    the number of nested calls; when it runs out the answer is
    [Unmodelled]. *)
Fixpoint parseValue (fuel : nat) (s : list Z) : Parse Json :=
  match fuel with
  | O => Unmodelled
  | S fuel' =>
      match skipWhitespace s with
      | [] => SyntaxError
      | c :: rest =>
          if c =? 123 then
            if startsWith 125 (skipWhitespace rest) then
              Parsed (JObject []) (tail (skipWhitespace rest))
            else
              match parseMembers fuel' rest with
              | Parsed raw after =>
                  if existsb (fun kv => numericKey (fst kv)) raw then Unmodelled
                  else Parsed (buildObject raw) after
              | SyntaxError => SyntaxError
              | Unmodelled => Unmodelled
              end
          else if c =? 91 then
            if startsWith 93 (skipWhitespace rest) then
              Parsed (JArray []) (tail (skipWhitespace rest))
            else
              match parseElements fuel' rest with
              | Parsed items after => Parsed (JArray items) after
              | SyntaxError => SyntaxError
              | Unmodelled => Unmodelled
              end
          else if c =? 34 then
            match parseString rest with
            | Some (units, after) => Parsed (JString units) after
            | None => SyntaxError
            end
          else if c =? 116 then
            match expect (chars "rue") rest with
            | Some after => Parsed (JBool true) after
            | None => SyntaxError
            end
          else if c =? 102 then
            match expect (chars "alse") rest with
            | Some after => Parsed (JBool false) after
            | None => SyntaxError
            end
          else if c =? 110 then
            match expect (chars "ull") rest with
            | Some after => Parsed JNull after
            | None => SyntaxError
            end
          else parseNumber (c :: rest)
      end
  end

with parseElements (fuel : nat) (s : list Z) : Parse (list Json) :=
  match fuel with
  | O => Unmodelled
  | S fuel' =>
      match parseValue fuel' s with
      | Parsed v after =>
          match skipWhitespace after with
          | c :: after1 =>
              if c =? 44 then
                match parseElements fuel' after1 with
                | Parsed vs after2 => Parsed (v :: vs) after2
                | SyntaxError => SyntaxError
                | Unmodelled => Unmodelled
                end
              else if c =? 93 then Parsed [v] after1
              else SyntaxError
          | [] => SyntaxError
          end
      | SyntaxError => SyntaxError
      | Unmodelled => Unmodelled
      end
  end

with parseMembers (fuel : nat) (s : list Z) : Parse (list (list Z * Json)) :=
  match fuel with
  | O => Unmodelled
  | S fuel' =>
      match skipWhitespace s with
      | c :: rest =>
          if c =? 34 then
            match parseString rest with
            | Some (key, after) =>
                match skipWhitespace after with
                | c1 :: after1 =>
                    if c1 =? 58 then
                      match parseValue fuel' after1 with
                      | Parsed v after2 =>
                          match skipWhitespace after2 with
                          | c2 :: after3 =>
                              if c2 =? 44 then
                                match parseMembers fuel' after3 with
                                | Parsed kvs final => Parsed ((key, v) :: kvs) final
                                | SyntaxError => SyntaxError
                                | Unmodelled => Unmodelled
                                end
                              else if c2 =? 125 then Parsed [(key, v)] after3
                              else SyntaxError
                          | [] => SyntaxError
                          end
                      | SyntaxError => SyntaxError
                      | Unmodelled => Unmodelled
                      end
                    else SyntaxError
                | [] => SyntaxError
                end
            | None => SyntaxError
            end
          else SyntaxError
      | [] => SyntaxError
      end
  end.

(** [JSON.parse(text)]: one value, then only white space. *)
Definition parse (text : list Z) : Parse Json :=
  match parseValue (2 * length text + 2)%nat text with
  | Parsed v rest =>
      match skipWhitespace rest with
      | [] => Parsed v []
      | _ :: _ => SyntaxError
      end
  | SyntaxError => SyntaxError
  | Unmodelled => Unmodelled
  end.

Definition isCodeUnit (u : Z) : bool := (0 <=? u) && (u <? 65536).

(** The values [JSON.stringify] and [JSON.parse] are modelled on:
    safe integers, strings of code units, objects whose keys are
    distinct and not made of digits. *)
Fixpoint representable (v : Json) : bool :=
  match v with
  | JNull | JBool _ => true
  | JNumber z => (- 2 ^ 53 <? z) && (z <? 2 ^ 53)
  | JString s => forallb isCodeUnit s
  | JArray items => forallb representable items
  | JObject members =>
      bool_decide (NoDup (map fst members))
      && forallb (fun kv => forallb isCodeUnit (fst kv)
                            && negb (numericKey (fst kv))
                            && representable (snd kv)) members
  end.

(** The text of one member of an object, and the members the model
    covers. *)
Definition printMember (kv : list Z * Json) : list Z :=
  quote (fst kv) ++ 58 :: stringify (snd kv).

Definition memberOk (kv : list Z * Json) : bool :=
  forallb isCodeUnit (fst kv) && negb (numericKey (fst kv))
  && representable (snd kv).

(** *** Notions used to state the round trip *)

(** The value of a run of digits read after [acc]. *)
Definition valueOf (ds : list Z) (acc : Z) : Z :=
  fold_left (fun a c => a * 10 + (c - 48)) ds acc.

(** Where a value may end in a text written by [stringify]: at the end,
    or before a comma or a closing bracket. *)
Definition delimited (rest : list Z) : Prop :=
  match rest with
  | [] => True
  | c :: _ => c = 44 \/ c = 93 \/ c = 125
  end.

(** A code unit below the surrogate range. *)
Definition plain (u : Z) : bool := (0 <=? u) && (u <? 55296).

(** What the round trip says of one value: its text, followed by any
    delimited text, is read back. *)
Definition reads_back (v : Json) : Prop :=
  representable v = true ->
  forall fuel rest,
    (length (stringify v) <= fuel)%nat -> delimited rest ->
    parseValue fuel (stringify v ++ rest) = Parsed v rest.

End Node.

(** ** [pagination.ts]: the cursor codec *)

Module PaginationUtils.

Import Node.

(** [encodeCursor(primaryKeys)]:
    [Buffer.from(JSON.stringify(primaryKeys)).toString("base64")].
    On the modelled values nothing inside the [try] throws. *)
Definition encodeCursor (primaryKeys : Json) : Result (list Z) :=
  Ok (base64Encode (utf8Encode (stringify primaryKeys))).

(** [decodeCursor(cursor)]:
    [JSON.parse(Buffer.from(cursor, "base64").toString("utf-8"))], with a
    [SyntaxError] rethrown as the decode error.  [None] is an input on
    which the model of the built-ins does not say what happens. *)
Definition decodeCursor (cursor : list Z) : option (Result Json) :=
  match bufferFromBase64 cursor with
  | None => None
  | Some buffer =>
      let decoded := utf8Decode buffer in
      match parse decoded with
      | Parsed primaryKeys _ => Some (Ok primaryKeys)
      | SyntaxError => Some (Throw (Error DecodeCursorFailed))
      | Unmodelled => None
      end
  end.

End PaginationUtils.

(** ** Sample schemas and a sample store *)

Module Sample.

Definition category : ColumnMetadata :=
  {| propertyName := "category"; isPrimary := true |}.
Definition id : ColumnMetadata :=
  {| propertyName := "id"; isPrimary := true |}.
Definition price : ColumnMetadata :=
  {| propertyName := "price"; isPrimary := false |}.

(** An entity keyed by [(category, id)]. *)
Definition product : EntityMetadata :=
  {| tableName := "products";
     columns := [category; id; price];
     primaryColumns := [category; id] |}.

Definition tenant : ColumnMetadata :=
  {| propertyName := "tenant"; isPrimary := true |}.
Definition day : ColumnMetadata :=
  {| propertyName := "day"; isPrimary := true |}.
Definition seq : ColumnMetadata :=
  {| propertyName := "seq"; isPrimary := true |}.

(** An entity keyed by [(tenant, day, seq)]. *)
Definition event : EntityMetadata :=
  {| tableName := "events";
     columns := [tenant; day; seq];
     primaryColumns := [tenant; day; seq] |}.

(** A store without rows that accepts every write. *)
Definition emptyStore : Client :=
  {| getRow := fun _ => Ok {| row := None |};
     getRange := fun _ => Ok {| rows := []; nextStartPrimaryKey := None |};
     write := fun _ => Ok tt |}.

(** A store that holds 150 rows and returns, in the order asked for, at
    most as many as the request allows. *)
Definition aRow : Row :=
  {| primaryKey := Some [("category", Plain (VString "electronics"));
                         ("id", Plain (VString "001"))];
     attributes := Some [] |}.

Definition fullStore : Client :=
  {| getRow := fun _ => Ok {| row := Some aRow |};
     getRange := fun p =>
       Ok {| rows :=
               firstn (match getRange_limit p with
                       | NInt z => Z.to_nat z
                       | _ => 0%nat
                       end) (repeat aRow 150);
             nextStartPrimaryKey := Tablestore.primaryKey aRow |};
     write := fun _ => Ok tt |}.

(** A store whose calls are all rejected. *)
Definition failingStore : Client :=
  {| getRow := fun _ => Throw (StoreFailure "OTSServerBusy" "busy");
     getRange := fun _ => Throw (StoreFailure "OTSServerBusy" "busy");
     write := fun _ => Throw (StoreFailure "OTSServerBusy" "busy") |}.

(** A row decoder that keeps the plain primary-key cells. *)
Definition plainCells (cells : list (string * CellValue)) : gmap string JsValue :=
  fold_left
    (fun entity cell =>
       match cell with
       | (name, Plain v) => <[name := v]> entity
       | _ => entity
       end)
    cells ∅.

Definition decodeRow (r : Row) (md : EntityMetadata) : gmap string JsValue :=
  plainCells (default [] (Tablestore.primaryKey r)).

(** A metadata registry that knows the class [Product]. *)
Definition registry (entityClass : string) : Result EntityMetadata :=
  if bool_decide (entityClass = "Product") then Ok product
  else Throw (Error (EntityNotDecorated entityClass)).

(** A transaction on partition [category = "electronics"], started at
    time 1000 with the default timeout. *)
Definition electronicsTx : Transaction.t :=
  Transaction.new 1000 "products" [("category", VString "electronics")]
    "tx-1" None.

(** A DESC scan of [product] under [{category: "electronics"}]. *)
Definition electronicsDesc : QueryBuilder.t :=
  QueryBuilder.orderBy QueryBuilder.DESC
    (QueryBuilder.where_ {[ "category" := VString "electronics" ]}
       (QueryBuilder.create product)).

(** A point lookup of [product] by its full key. *)
Definition oneProduct : QueryBuilder.t :=
  QueryBuilder.where_
    {[ "category" := VString "electronics"; "id" := VString "001" ]}
    (QueryBuilder.create product).

(** A predicate on [event] that binds [tenant] and [seq] but not [day]. *)
Definition tenantAndSeq : gmap string JsValue :=
  {[ "tenant" := VString "t1"; "seq" := VString "0042" ]}.

(** A row of another partition than the one [electronicsTx] is
    bound to. *)
Definition aBook : gmap string JsValue :=
  {[ "category" := VString "books"; "id" := VString "001" ]}.

Definition aBookKey : PrimaryKeyInput :=
  [("category", Plain (VString "books")); ("id", Plain (VString "001"))].

(** The key [{"category": "electronics", "id": "003", "rank": -7}]. *)
Definition lastSeen : Node.Json :=
  Node.JObject
    [(Node.chars "category", Node.JString (Node.chars "electronics"));
     (Node.chars "id", Node.JString (Node.chars "003"));
     (Node.chars "rank", Node.JNumber (-7))].

(** The collaborators used in the examples: the sample registry, the
    query builder's value conversion, no special columns. *)
Abbreviation perform :=
  (Transaction.perform emptyStore registry
     QueryBuilder.convertValueToTablestore (fun entity _ => entity)
     (fun _ _ _ => []) decodeRow).

End Sample.

(** ** Chains of query-builder calls *)

Module Chain.

Import QueryBuilder.

(** The chainable methods of the builder; [Filter] carries the
    condition its callback returned. *)
Inductive Method :=
| Select (columns : list string)
| Where (condition : gmap string JsValue)
| WhereString (condition : string) (parameters : JsValue)
| AndWhere (condition : gmap string JsValue)
| AndWhereString (condition : string) (parameters : JsValue)
| OrWhere (condition : gmap string JsValue)
| OrWhereString (condition : string) (parameters : JsValue)
| Filter (condition : ColumnCondition)
| OrderBy (direction : OrderDirection)
| OrderByColumn (column : string) (direction : option OrderDirection)
| AddOrderBy (column : string) (direction : OrderDirection)
| Limit (n : JsNumber)
| Take (n : JsNumber)
| StartWith (primaryKeys : gmap string JsValue)
| EndWith (primaryKeys : gmap string JsValue).

(** One call.  [orderBy(x, d)] with [x] one of the two direction names
    is the one-argument form. *)
Definition call (m : Method) (qb : t) : t :=
  match m with
  | Select columns => select columns qb
  | Where condition => where_ condition qb
  | WhereString condition parameters => whereString condition parameters qb
  | AndWhere condition => andWhere condition qb
  | AndWhereString condition parameters => whereString condition parameters qb
  | OrWhere condition => orWhere condition qb
  | OrWhereString condition parameters => whereString condition parameters qb
  | Filter condition => filter condition qb
  | OrderBy direction => orderBy direction qb
  | OrderByColumn column direction =>
      if bool_decide (column = "ASC") then orderBy ASC qb
      else if bool_decide (column = "DESC") then orderBy DESC qb
      else orderByColumn column direction qb
  | AddOrderBy column direction => addOrderBy column direction qb
  | Limit n => limit n qb
  | Take n => take n qb
  | StartWith primaryKeys => startWith primaryKeys qb
  | EndWith primaryKeys => endWith primaryKeys qb
  end.

(** [qb.m1(...).m2(...)...] *)
Definition chain (ms : list Method) (qb : t) : t :=
  fold_left (fun qb m => call m qb) ms qb.

(** The names of the primary columns, in schema order. *)
Definition primaryKeyNames (md : EntityMetadata) : list string :=
  map propertyName (primaryColumns md).

End Chain.

(** ** Scripts of transaction calls *)

Module Script.

Import Transaction.

(** The transaction a request names, if any. *)
Definition requestTransactionId (r : Request) : option string :=
  match r with
  | GetRow p => getRow_transactionId p
  | GetRange _ => None
  | PutRow _ _ transactionId => transactionId
  | UpdateRow _ _ transactionId => transactionId
  | DeleteRow _ _ transactionId => transactionId
  | BatchWriteRow _ _ transactionId => Some transactionId
  | CommitTransaction transactionId => Some transactionId
  | AbortTransaction transactionId => Some transactionId
  end.

(** The two requests that end a transaction on the server. *)
Definition isEnding (r : Request) : bool :=
  match r with
  | CommitTransaction _ | AbortTransaction _ => true
  | _ => false
  end.

Definition isRead (r : Request) : bool :=
  match r with
  | GetRow _ | GetRange _ => true
  | _ => false
  end.

Section Run.

Variable client : Client.
Variable getEntityMetadata : string -> Result EntityMetadata.
Variable convertValueToTablestore : JsValue -> ColumnMetadata -> CellValue.
Variable processSpecialColumnsOnInsert :
  gmap string JsValue -> EntityMetadata -> gmap string JsValue.
Variable processSpecialColumnsOnUpdate :
  gmap string JsValue -> EntityMetadata -> gmap string JsValue -> list Request.
Variable convertTablestoreToEntity : Row -> EntityMetadata -> gmap string JsValue.

(** One use of the transaction object: a guarded method called when
    the clock reads [now], or [rollback()]. *)
Inductive Step :=
| Perform (now : Z) (c : Call)
| Rollback.

Definition step (s : Step) : M unit :=
  match s with
  | Perform now c =>
      perform client getEntityMetadata convertValueToTablestore
        processSpecialColumnsOnInsert processSpecialColumnsOnUpdate
        convertTablestoreToEntity now c
  | Rollback => rollback client
  end.

(** A caller that makes the calls of [script] one after the other,
    going on whatever each settles to: the transaction as it is left and
    all the requests sent. *)
Fixpoint run (script : list Step) (tx : t) : t * list Request :=
  match script with
  | [] => (tx, [])
  | s :: rest =>
      let '(tx1, (log1, _)) := step s tx in
      let '(tx2, log2) := run rest tx1 in
      (tx2, log1 ++ log2)
  end.

End Run.

End Script.

(** ** Promises of the entity manager and the repository *)

Module Async.

(** What an async method of these two classes rejects with: an error
    of the kinds above, or one of the errors they raise themselves. *)
Inductive Rejection :=
| Thrown (e : Exn)
| EntityMissingAfterUpdate
| InvalidCursor.

Inductive Settled (A : Type) :=
| Fulfilled (a : A)
| Rejected (r : Rejection).
Arguments Fulfilled {A} a.
Arguments Rejected {A} r.

Definition settle {A} (r : Result A) : Settled A :=
  match r with
  | Ok a => Fulfilled a
  | Throw e => Rejected (Thrown e)
  end.

(** An async method: the requests it sent, in order, and what its
    promise settles to. *)
Definition Io (A : Type) : Type := list Request * Settled A.

Definition ret {A} (a : A) : Io A := ([], Fulfilled a).
Definition reject {A} (r : Rejection) : Io A := ([], Rejected r).
Definition lift {A} (r : Result A) : Io A := ([], settle r).

Definition bind {A B} (m : Io A) (k : A -> Io B) : Io B :=
  match m with
  | (log, Fulfilled a) => let '(log', s) := k a in (log ++ log', s)
  | (log, Rejected r) => (log, Rejected r)
  end.

(** [try { body } catch (error) { handler }] *)
Definition tryCatch {A} (body : Io A) (handler : Rejection -> Io A) : Io A :=
  match body with
  | (log, Fulfilled a) => (log, Fulfilled a)
  | (log, Rejected r) => let '(log', s) := handler r in (log ++ log', s)
  end.

(** [isRowNotFoundError] on whatever was caught. *)
Definition isRowNotFoundError (r : Rejection) : bool :=
  match r with
  | Thrown e => EntityManager.isRowNotFoundError e
  | _ => false
  end.

End Async.

Notation "'await!' x ':=' m 'in' k" := (Async.bind m (fun x => k))
  (at level 10, x pattern, m at level 100, k at level 200).

(** ** [entity-manager.ts]: save, findOne, delete, update *)

Module EntityManagerOps.

Import Async.

Abbreviation Entity := (gmap string JsValue).

Section Manager.

Variable client : Client.
(** [metadataStorage.getEntityMetadata(entityClass)], by class name. *)
Variable metadataStorage : string -> option EntityMetadata.
(** The value codec, the row decoder and the two special-column
    passes.  The pass on update returns the reads it made for a version
    column and the partial entity as it leaves it; it catches whatever
    these reads throw. *)
Variable convertValueToTablestore : JsValue -> ColumnMetadata -> CellValue.
Variable convertTablestoreToEntity : Row -> EntityMetadata -> Entity.
Variable processSpecialColumnsOnInsert : Entity -> EntityMetadata -> Entity.
Variable processSpecialColumnsOnUpdate :
  Entity -> EntityMetadata -> Entity -> list Request * Entity.

Definition getEntityMetadata (entityClass : string) : Result EntityMetadata :=
  match metadataStorage entityClass with
  | Some md => Ok md
  | None => Throw (Error (EntityNotDecorated entityClass))
  end.

Definition callGetRow (params : GetRowParams) : Io GetRowResponse :=
  ([GetRow params], settle (getRow client params)).

Definition callGetRange (params : GetRangeParams) : Io GetRangeResponse :=
  ([GetRange params], settle (getRange client params)).

Definition callWrite (req : Request) : Io unit :=
  ([req], settle (write client req)).

(** The two requests of [findOne]. *)
Definition pointRead (md : EntityMetadata) (primaryKey : PrimaryKeyInput)
  : GetRowParams :=
  {| getRow_tableName := tableName md;
     getRow_primaryKey := primaryKey;
     getRow_columnsToGet := None;
     getRow_columnFilter := None;
     getRow_transactionId := None |}.

Definition firstOfRange (md : EntityMetadata)
    (startPrimaryKey endPrimaryKey : PrimaryKeyInput) : GetRangeParams :=
  {| getRange_tableName := tableName md;
     inclusiveStartPrimaryKey := startPrimaryKey;
     exclusiveEndPrimaryKey := endPrimaryKey;
     getRange_limit := NInt 1;
     getRange_direction := FORWARD;
     getRange_columnsToGet := None;
     getRange_columnFilter := None |}.

(** [findOne(entityClass, primaryKeys)] *)
Definition findOne (entityClass : string) (primaryKeys : Entity)
  : Io (option Entity) :=
  await! md := lift (getEntityMetadata entityClass) in
  if EntityManager.isCompletePrimaryKey primaryKeys md then
    await! tablestorePrimaryKey :=
      lift (EntityManager.convertPrimaryKeysToTablestore
              convertValueToTablestore primaryKeys md false) in
    tryCatch
      (await! response := callGetRow (pointRead md tablestorePrimaryKey) in
       match row response with
       | Some r =>
           match Tablestore.primaryKey r with
           | Some _ => ret (Some (convertTablestoreToEntity r md))
           | None => ret None
           end
       | None => ret None
       end)
      (fun error => if isRowNotFoundError error then ret None else reject error)
  else
    let startPrimaryKey :=
      EntityManager.autoCompletePartialPrimaryKey convertValueToTablestore
        primaryKeys md true in
    let endPrimaryKey :=
      EntityManager.autoCompletePartialPrimaryKey convertValueToTablestore
        primaryKeys md false in
    tryCatch
      (await! response :=
         callGetRange (firstOfRange md startPrimaryKey endPrimaryKey) in
       match rows response with
       | [] => ret None
       | r :: _ => ret (Some (convertTablestoreToEntity r md))
       end)
      (fun error => if isRowNotFoundError error then ret None else reject error).

(** The object [primaryKeyValues] that [save] builds for the read
    back: the primary columns of the entity that have a value. *)
Definition primaryKeyValues (entity : Entity) (md : EntityMetadata) : Entity :=
  fold_left
    (fun primaryKeyValues column =>
       let value := get entity (propertyName column) in
       if isBound value
       then <[propertyName column := value]> primaryKeyValues
       else primaryKeyValues)
    (primaryColumns md) ∅.

(** [save(entity, options)]; [entityClass] is [entity.constructor]. *)
Definition save (entityClass : string) (entity : Entity) : Io Entity :=
  await! md := lift (getEntityMetadata entityClass) in
  let entity := processSpecialColumnsOnInsert entity md in
  let primaryKey :=
    Transaction.convertEntityPrimaryKey convertValueToTablestore entity md in
  await! _ := callWrite (PutRow (tableName md) primaryKey None) in
  await! savedEntity := findOne entityClass (primaryKeyValues entity md) in
  match savedEntity with
  | Some saved => ret saved
  | None => ret entity
  end.

(** [delete(entityClass, primaryKeys, options)] *)
Definition delete (entityClass : string) (primaryKeys : Entity) : Io unit :=
  await! md := lift (getEntityMetadata entityClass) in
  await! tablestorePrimaryKey :=
    lift (EntityManager.convertPrimaryKeysToTablestore
            convertValueToTablestore primaryKeys md false) in
  callWrite (DeleteRow (tableName md) tablestorePrimaryKey None).

(** [update(entityClass, primaryKeys, partialEntity)], for two
    arguments that are not the same object. *)
Definition update (entityClass : string) (primaryKeys partialEntity : Entity)
  : Io Entity :=
  await! md := lift (getEntityMetadata entityClass) in
  let '(reads, partialEntity) :=
    processSpecialColumnsOnUpdate partialEntity md primaryKeys in
  await! _ := ((reads, Fulfilled tt) : Io unit) in
  await! tablestorePrimaryKey :=
    lift (EntityManager.convertPrimaryKeysToTablestore
            convertValueToTablestore primaryKeys md false) in
  await! _ := callWrite (UpdateRow (tableName md) tablestorePrimaryKey None) in
  await! updatedEntity := findOne entityClass primaryKeys in
  match updatedEntity with
  | Some updated => ret updated
  | None => reject EntityMissingAfterUpdate
  end.

End Manager.

End EntityManagerOps.

(** ** [repository.ts] *)

Module Repository.

Import Async QueryBuilder.

(** [FindOptions]; a field that is [None] is absent. *)
Record FindOptions := {
  find_select : option (list string);
  find_where : option (gmap string JsValue);
  find_order : option (list (string * OrderDirection));
  find_take : option JsNumber;
  find_startAfter : option (gmap string JsValue);
  find_endBefore : option (gmap string JsValue)
}.

Definition noOptions : FindOptions :=
  {| find_select := None; find_where := None; find_order := None;
     find_take := None; find_startAfter := None; find_endBefore := None |}.

(** [CursorPaginationOptions].  The cursor is a string of UTF-16 code
    units; [page_filter] is what the filter callback returns or throws
    on the filter factory of the entity. *)
Record CursorPaginationOptions := {
  page_limit : JsNumber;
  page_cursor : option (list Z);
  page_order : option OrderDirection;
  page_where : option (gmap string JsValue);
  page_filter : option (Result ColumnCondition)
}.

Record CursorPaginationResult := {
  items : list Entity;
  hasNext : bool;
  nextCursor : option (list Z)
}.

(** Truthiness of a value that [JSON.parse] returned. *)
Definition truthy (v : Node.Json) : bool :=
  match v with
  | Node.JNull => false
  | Node.JBool b => b
  | Node.JNumber z => negb (z =? 0)
  | Node.JString s => negb (Nat.eqb (length s) 0)
  | Node.JArray _ | Node.JObject _ => true
  end.

(** The string of ASCII code units [us], the inverse of [Node.chars]. *)
Fixpoint text (us : list Z) : option string :=
  match us with
  | [] => Some EmptyString
  | u :: rest =>
      if (0 <=? u) && (u <? 128) then
        String (ascii_of_nat (Z.to_nat u)) <$> text rest
      else None
  end.

(** A parsed value as a value of the application, for the scalars whose
    strings are ASCII. *)
Definition scalar (v : Node.Json) : option JsValue :=
  match v with
  | Node.JNull => Some VNull
  | Node.JBool b => Some (VBool b)
  | Node.JNumber z => Some (VNumber (NInt z))
  | Node.JString s => VString <$> text s
  | Node.JArray _ | Node.JObject _ => None
  end.

(** A parsed object as the object the query builder reads its key
    from; [None] on a value outside this model: one that is not an
    object, or that has a key or a member that is not such a scalar. *)
Definition toObject (v : Node.Json) : option (gmap string JsValue) :=
  match v with
  | Node.JObject members =>
      fold_left
        (fun object member =>
           o ← object; name ← text (fst member); value ← scalar (snd member);
           Some (<[name := value]> o))
        members (Some ∅)
  | _ => None
  end.

Section Repository.

Variable client : Client.
Variable metadataStorage : string -> option EntityMetadata.
Variable convertValueToTablestore : JsValue -> ColumnMetadata -> CellValue.
Variable convertTablestoreToEntity : Row -> EntityMetadata -> Entity.
Variable processSpecialColumnsOnInsert : Entity -> EntityMetadata -> Entity.
Variable processSpecialColumnsOnUpdate :
  Entity -> EntityMetadata -> Entity -> list Request * Entity.
(** [encodeCursor(createPrimaryKeysFromTablestore(key))] on a key the
    store returned; how the cells of such a key print is the SDK's. *)
Variable cursorOfKey : list (string * CellValue) -> Result (list Z).

(** The two fields of a repository: the class and its metadata, which
    the constructor took from the metadata storage. *)
Variable entityClass : string.
Variable md : EntityMetadata.

Definition createQueryBuilder : QueryBuilder.t := create md.

(** [if (x) queryBuilder.m(x)] for an optional argument that is truthy
    whenever it is there. *)
Definition given {A} (x : option A) (m : A -> QueryBuilder.t -> QueryBuilder.t)
    (queryBuilder : QueryBuilder.t) : QueryBuilder.t :=
  match x with
  | Some a => m a queryBuilder
  | None => queryBuilder
  end.

(** The builder [find] runs; [take] is used when it is truthy. *)
Definition findBuilder (options : option FindOptions) : QueryBuilder.t :=
  let queryBuilder := createQueryBuilder in
  let queryBuilder := given (options ≫= find_where) where_ queryBuilder in
  let queryBuilder :=
    match options ≫= find_take with
    | Some n => if truthyNumber n then limit n queryBuilder else queryBuilder
    | None => queryBuilder
    end in
  let queryBuilder := given (options ≫= find_startAfter) startWith queryBuilder in
  let queryBuilder := given (options ≫= find_endBefore) endWith queryBuilder in
  given (options ≫= find_select) select queryBuilder.

(** [find(options)] *)
Definition find (options : option FindOptions) : Io (list Entity) :=
  let '(_, (log, result)) :=
    getMany client convertTablestoreToEntity (findBuilder options) in
  (log, settle result).

Definition findAll : Io (list Entity) := find None.

Definition findBy (where_ : gmap string JsValue) : Io (list Entity) :=
  find (Some {| find_select := None; find_where := Some where_;
                find_order := None; find_take := None;
                find_startAfter := None; find_endBefore := None |}).

Definition findOneBy (where_ : gmap string JsValue) : Io (option Entity) :=
  await! results :=
    find (Some {| find_select := None; find_where := Some where_;
                  find_order := None; find_take := Some (NInt 1);
                  find_startAfter := None; find_endBefore := None |}) in
  ret (head results).

(** [count(where)]: [find({ where })], then the length. *)
Definition count (where_ : option (gmap string JsValue)) : Io nat :=
  await! entities :=
    find (Some {| find_select := None; find_where := where_;
                  find_order := None; find_take := None;
                  find_startAfter := None; find_endBefore := None |}) in
  ret (length entities).

Definition findOne (primaryKeys : Entity) : Io (option Entity) :=
  EntityManagerOps.findOne client metadataStorage convertValueToTablestore
    convertTablestoreToEntity entityClass primaryKeys.

Definition save (entity : Entity) : Io Entity :=
  EntityManagerOps.save client metadataStorage convertValueToTablestore
    convertTablestoreToEntity processSpecialColumnsOnInsert entityClass entity.

(** [saveMany], [removeMany]: one call after the other; the first
    rejection ends the loop. *)
Fixpoint saveMany (entities : list Entity) : Io (list Entity) :=
  match entities with
  | [] => ret []
  | entity :: rest =>
      await! result := save entity in
      await! results := saveMany rest in
      ret (result :: results)
  end.

Definition delete (primaryKeys : Entity) : Io unit :=
  EntityManagerOps.delete client metadataStorage convertValueToTablestore
    entityClass primaryKeys.

(** [extractPrimaryKeys(entity)]: the primary columns that are not
    [undefined]; [null] is kept. *)
Definition extractPrimaryKeys (entity : Entity) : Entity :=
  fold_left
    (fun primaryKeys column =>
       let value := get entity (propertyName column) in
       if negb (strictEq value VUndefined)
       then <[propertyName column := value]> primaryKeys
       else primaryKeys)
    (primaryColumns md) ∅.

Definition remove (entity : Entity) : Io unit :=
  delete (extractPrimaryKeys entity).

Fixpoint removeMany (entities : list Entity) : Io unit :=
  match entities with
  | [] => ret tt
  | entity :: rest =>
      await! _ := remove entity in
      removeMany rest
  end.

Definition deleteBy (where_ : gmap string JsValue) : Io unit :=
  await! entities := findBy where_ in
  removeMany entities.

Definition update (primaryKeys partialEntity : Entity) : Io unit :=
  await! _ :=
    EntityManagerOps.update client metadataStorage convertValueToTablestore
      convertTablestoreToEntity processSpecialColumnsOnUpdate
      entityClass primaryKeys partialEntity in
  ret tt.

(** The builder [page] runs, once the cursor is decoded: [limit],
    [where], [filter], [startWith], and [orderBy] last. *)
Definition pageBuilder (options : CursorPaginationOptions)
    (condition : option ColumnCondition)
    (startAfter : option (gmap string JsValue)) : QueryBuilder.t :=
  let queryBuilder := createQueryBuilder in
  let queryBuilder := limit (page_limit options) queryBuilder in
  let queryBuilder := given (page_where options) where_ queryBuilder in
  let queryBuilder := given condition filter queryBuilder in
  let queryBuilder := given startAfter startWith queryBuilder in
  match page_order options with
  | Some DESC => orderBy DESC queryBuilder
  | _ => orderBy ASC queryBuilder
  end.

(** The part of [page] after the builder is set up. *)
Definition runPage (queryBuilder : QueryBuilder.t) : Io CursorPaginationResult :=
  let '(_, (log, settled)) :=
    getRawAndEntities client convertTablestoreToEntity queryBuilder in
  await! result := ((log, settle settled) : Io QueryResult) in
  match result_nextStartPrimaryKey result with
  | Some key =>
      await! cursor := lift (cursorOfKey key) in
      ret {| items := entities result; hasNext := true;
             nextCursor := Some cursor |}
  | None =>
      ret {| items := entities result; hasNext := false; nextCursor := None |}
  end.

(** [page(options)].  An empty cursor is falsy.  The result is [None]
    where the model of the built-ins does not say what a cursor decodes
    to, or where a truthy decoded value is read by [startWith] and is
    outside [toObject]. *)
Definition page (options : CursorPaginationOptions)
  : option (Io CursorPaginationResult) :=
  let decoded : option (Result (option Node.Json)) :=
    match page_cursor options with
    | Some ((_ :: _) as cursor) =>
        match PaginationUtils.decodeCursor cursor with
        | Some (Ok startAfter) => Some (Ok (Some startAfter))
        | Some (Throw e) => Some (Throw e)
        | None => None
        end
    | _ => Some (Ok None)
    end in
  match decoded with
  | None => None
  | Some (Throw _) => Some (reject InvalidCursor)
  | Some (Ok startAfter) =>
      match page_filter options with
      | Some (Throw e) => Some (reject (Thrown e))
      | filtered =>
          let condition :=
            match filtered with Some (Ok c) => Some c | _ => None end in
          match startAfter with
          | Some v =>
              if truthy v then
                match toObject v with
                | Some object =>
                    Some (runPage (pageBuilder options condition (Some object)))
                | None => None
                end
              else Some (runPage (pageBuilder options condition None))
          | None => Some (runPage (pageBuilder options condition None))
          end
      end
  end.

End Repository.

End Repository.

(** ** [transaction.ts]: the transaction manager *)

Module TransactionManager.

Import Transaction.

(** What the manager sends: the call that opens the transaction, and
    then the requests made through the transaction object. *)
Inductive ManagerRequest :=
| StartLocalTransaction (tableName : string)
    (primaryKey : list (string * JsValue))
| Within (r : Request).

Section Manager.

Variable client : Client.
(** [client.startLocalTransaction(params)]: the id in the response, or
    the rejection. *)
Variable startLocalTransaction :
  string -> list (string * JsValue) -> Result string.

(** [startTransaction(tableName, partitionKey, options)];
    [partitionKey] is given by its entries, in the order of
    [Object.entries], each of which becomes one element of the key, and
    [now] is the reading of the clock in the constructor of the
    transaction. *)
Definition startTransaction (now : Z) (tableName : string)
    (partitionKey : list (string * JsValue))
    (options : option TransactionOptions)
  : list ManagerRequest * Result Transaction.t :=
  let tablestorePartitionKey := partitionKey in
  ([StartLocalTransaction tableName tablestorePartitionKey],
   try! transactionId := startLocalTransaction tableName tablestorePartitionKey in
   Ok (new now tableName tablestorePartitionKey transactionId options)).

(** [runInTransaction(tableName, partitionKey, callback, options)].
    The callback is what it does to the transaction it is given; [now]
    is read when the transaction is made and [committing] when [commit]
    checks the deadline.  Besides the requests and the settlement, the
    transaction object as it is left, if one was made. *)
Definition runInTransaction {A} (now : Z) (tableName : string)
    (partitionKey : list (string * JsValue)) (callback : M A)
    (committing : Z) (options : option TransactionOptions)
  : option Transaction.t * (list ManagerRequest * Result A) :=
  match startTransaction now tableName partitionKey options with
  | (log, Throw e) => (None, (log, Throw e))
  | (log, Ok transaction) =>
      let '(transaction', (log', result)) :=
        tryCatch
          (do! result := callback in
           do! _ := commit client committing in
           ret result)
          (fun error => do! _ := rollback client in throw error)
          transaction in
      (Some transaction', (log ++ map Within log', result))
  end.

End Manager.

End TransactionManager.

(** ** [decorators/metadata-storage.ts] *)

Module MetadataStorage.

(** A column as a decorator hands it over: [isPrimary] is the
    truthiness of that property, or [None] when the object has none. *)
Record ColumnInput := {
  input_propertyName : string;
  input_isPrimary : option bool
}.

(** [this.entities], by class name. *)
Abbreviation Entities := (gmap string EntityMetadata).

(** [columns.findIndex(col => col.propertyName === name)] *)
Fixpoint findIndex (name : string) (columns : list ColumnMetadata) : option nat :=
  match columns with
  | [] => None
  | col :: rest =>
      if bool_decide (propertyName col = name) then Some 0%nat
      else S <$> findIndex name rest
  end.

(** The three steps of [addColumnMetadata] on the metadata of the
    class.  [finalColumn]: the column itself, or, when a column of that
    name is there, [{ ...existing, ...column }]. *)
Definition finalColumn (column : ColumnInput) (columns : list ColumnMetadata)
  : ColumnMetadata :=
  match findIndex (input_propertyName column) columns
        ≫= (fun existingColumnIndex => columns !! existingColumnIndex) with
  | Some existing =>
      {| propertyName := input_propertyName column;
         isPrimary := default (isPrimary existing) (input_isPrimary column) |}
  | None =>
      {| propertyName := input_propertyName column;
         isPrimary := default false (input_isPrimary column) |}
  end.

(** The column replaces the one of its name, or is pushed. *)
Definition putColumn (finalColumn : ColumnMetadata)
    (columns : list ColumnMetadata) : list ColumnMetadata :=
  match findIndex (propertyName finalColumn) columns with
  | Some existingColumnIndex => <[existingColumnIndex := finalColumn]> columns
  | None => columns ++ [finalColumn]
  end.

(** [if (finalColumn.isPrimary)]: the same on the primary columns. *)
Definition putPrimaryColumn (finalColumn : ColumnMetadata)
    (primaryColumns : list ColumnMetadata) : list ColumnMetadata :=
  if isPrimary finalColumn then putColumn finalColumn primaryColumns
  else primaryColumns.

Section Storage.

(** [target.name.toLowerCase()] *)
Variable toLowerCase : string -> string.

(** [addEntityMetadata(metadata)], with [target] the class of the
    metadata: the columns already registered for the class are kept. *)
Definition addEntityMetadata (target : string) (metadata : EntityMetadata)
    (entities : Entities) : Entities :=
  match entities !! target with
  | Some existing =>
      <[target := {| tableName := tableName metadata;
                     columns := columns existing;
                     primaryColumns := primaryColumns existing |}]> entities
  | None => <[target := metadata]> entities
  end.

Definition getEntityMetadata (target : string) (entities : Entities)
  : option EntityMetadata :=
  entities !! target.

(** The metadata [addColumnMetadata] works on: that of the class, or a
    fresh one. *)
Definition entityMetadataOf (target : string) (entities : Entities)
  : EntityMetadata :=
  match entities !! target with
  | Some entityMetadata => entityMetadata
  | None => {| tableName := toLowerCase target;
               columns := []; primaryColumns := [] |}
  end.

(** [addColumnMetadata(target, column)] *)
Definition addColumnMetadata (target : string) (column : ColumnInput)
    (entities : Entities) : Entities :=
  let entityMetadata := entityMetadataOf target entities in
  let finalColumn := finalColumn column (columns entityMetadata) in
  <[target := {| tableName := tableName entityMetadata;
                 columns := putColumn finalColumn (columns entityMetadata);
                 primaryColumns :=
                   putPrimaryColumn finalColumn (primaryColumns entityMetadata) |}]>
    entities.

(** What the decorators do.  [@Entity] registers the class under a
    table name with no column of its own; [@PrimaryColumn], and
    [@Column] and the special-column decorators, register a column with
    [isPrimary] set. *)
Inductive Decorator :=
| Entity (target : string) (tableName : string)
| PrimaryColumn (target : string) (propertyName : string)
| Column (target : string) (propertyName : string)
| AddColumn (target : string) (column : ColumnInput).

Definition decorate (d : Decorator) (entities : Entities) : Entities :=
  match d with
  | Entity target tableName =>
      addEntityMetadata target
        {| tableName := tableName; columns := []; primaryColumns := [] |}
        entities
  | PrimaryColumn target propertyName =>
      addColumnMetadata target
        {| input_propertyName := propertyName; input_isPrimary := Some true |}
        entities
  | Column target propertyName =>
      addColumnMetadata target
        {| input_propertyName := propertyName; input_isPrimary := Some false |}
        entities
  | AddColumn target column => addColumnMetadata target column entities
  end.

(** The storage after the decorators of a program have run, in the
    order in which they ran. *)
Definition decorated (ds : list Decorator) : Entities :=
  fold_left (fun entities d => decorate d entities) ds ∅.

End Storage.

End MetadataStorage.

(** ** More sample values *)

Module Cases.

Import QueryBuilder.

(** A predicate on [product] that names both key columns and holds
    [null] for [id]. *)
Definition nullId : QueryBuilder.t :=
  where_ {[ "category" := VString "electronics"; "id" := VNull ]}
    (create Sample.product).

(** A scan of [product] from a start key set by hand, under a predicate
    on another category. *)
Definition resumed : QueryBuilder.t :=
  where_ {[ "category" := VString "books" ]}
    (startWith {[ "category" := VString "electronics"; "id" := VString "007" ]}
       (create Sample.product)).

(** A row of the partition [electronicsTx] is bound to. *)
Definition aPhone : gmap string JsValue :=
  {[ "category" := VString "electronics"; "id" := VString "001" ]}.

(** A metadata storage that knows the class [Product]. *)
Definition storage (entityClass : string) : option EntityMetadata :=
  if bool_decide (entityClass = "Product") then Some Sample.product else None.

(** A key of [product] without [id], and an entity whose [id] is
    [null]. *)
Definition categoryOnly : gmap string JsValue :=
  {[ "category" := VString "electronics" ]}.

Definition unsaved : gmap string JsValue :=
  {[ "category" := VString "electronics"; "id" := VNull;
     "price" := VNumber (NInt 5) ]}.

(** A store that has no row and rejects reads the way Tablestore
    reports a missing row. *)
Definition missingRowStore : Client :=
  {| getRow := fun _ => Throw (StoreFailure "OTSRowNotExist" "gone");
     getRange := fun _ => Throw (StoreFailure "OTSRowNotExist" "gone");
     write := fun _ => Ok tt |}.

(** The page of two products of [electronics], newest first, after
    the position [Sample.lastSeen]. *)
Definition secondPage : Repository.CursorPaginationOptions :=
  {| Repository.page_limit := NInt 2;
     Repository.page_cursor :=
       Some (Node.base64Encode (Node.utf8Encode (Node.stringify Sample.lastSeen)));
     Repository.page_order := Some QueryBuilder.DESC;
     Repository.page_where := Some {[ "category" := VString "electronics" ]};
     Repository.page_filter := None |}.

(** A store without rows that refuses to put a row whose key has not
    two columns. *)
Definition strictStore : Client :=
  {| getRow := fun _ => Ok {| row := None |};
     getRange := fun _ => Ok {| rows := []; nextStartPrimaryKey := None |};
     write := fun req =>
       match req with
       | PutRow _ pk _ =>
           if Nat.eqb (length pk) 2 then Ok tt
           else Throw (StoreFailure "OTSParameterInvalid" "key")
       | _ => Ok tt
       end |}.

(** [toLowerCase] on ASCII names. *)
Definition lowerAscii (a : ascii) : ascii :=
  let n := nat_of_ascii a in
  if ((65 <=? n) && (n <=? 90))%nat then ascii_of_nat (n + 32) else a.

Fixpoint toLowerCase (s : string) : string :=
  match s with
  | EmptyString => EmptyString
  | String a rest => String (lowerAscii a) (toLowerCase rest)
  end.

(** The decorators of a class [Product] as they run: the property
    decorators in the order of the properties, then [@Entity]. *)
Definition productDecorators : list MetadataStorage.Decorator :=
  [MetadataStorage.PrimaryColumn "Product" "category";
   MetadataStorage.PrimaryColumn "Product" "id";
   MetadataStorage.Column "Product" "price";
   MetadataStorage.Entity "Product" "products"].

End Cases.

(** * Properties *)

(** ** Range-scan boundaries and point lookups *)

Module QueryBuilderFacts.

Import QueryBuilder.

Lemma autoComplete_fold partialKeys isStart direction cols acc found :
  fst (fold_left (autoCompleteStep partialKeys isStart direction) cols (acc, found))
  = acc ++ map (boundaryCell partialKeys isStart direction) cols.
Proof.
  revert acc found.
  induction cols as [|column cols IH]; intros acc found; simpl.
  - by rewrite app_nil_r.
  - unfold boundaryCell at 1.
    destruct (isBound (get partialKeys (propertyName column)));
      rewrite IH, <- app_assoc; reflexivity.
Qed.

Lemma autoComplete_map md partialKeys isStart direction :
  autoCompletePartialPrimaryKey md partialKeys isStart direction
  = map (boundaryCell partialKeys isStart direction) (primaryColumns md).
Proof. unfold autoCompletePartialPrimaryKey. by rewrite autoComplete_fold. Qed.

Lemma lookup_map {A B} (f : A -> B) (l : list A) (i : nat) :
  map f l !! i = f <$> (l !! i).
Proof.
  revert i. induction l as [|a l IH]; intros [|i]; simpl; auto.
Qed.

Lemma autoComplete_lookup md partialKeys isStart direction i column :
  primaryColumns md !! i = Some column ->
  autoCompletePartialPrimaryKey md partialKeys isStart direction !! i
  = Some (boundaryCell partialKeys isStart direction column).
Proof.
  intros Hcol. rewrite autoComplete_map, lookup_map, Hcol. reflexivity.
Qed.

Lemma getDirection_order qb :
  getDirection qb
  = match getOrderDirection qb with ASC => FORWARD | DESC => BACKWARD end.
Proof.
  unfold getDirection, getOrderDirection.
  by destruct (firstIsDesc qb).
Qed.

(** Without a primary-key name among the keys of [_where], no primary
    column has a value. *)
Lemma no_key_unbound (w : gmap string JsValue) (cols : list ColumnMetadata)
    column :
  existsb (fun pkName => hasKey w pkName) (map propertyName cols) = false ->
  column ∈ cols ->
  isBound (get w (propertyName column)) = false.
Proof.
  intros Hnone Hin.
  assert (hasKey w (propertyName column) = false) as Hkey.
  { destruct (hasKey w (propertyName column)) eqn:E; [|done].
    assert (existsb (fun pkName => hasKey w pkName) (map propertyName cols) = true)
      as Hex; [|congruence].
    apply existsb_exists. exists (propertyName column). split; [|done].
    apply in_map, list_elem_of_In, Hin. }
  unfold hasKey in Hkey. apply bool_decide_eq_false in Hkey.
  unfold get. destruct (w !! propertyName column) eqn:E; [|done].
  exfalso. apply Hkey. eauto.
Qed.

Lemma executeQuery_range client conv qb :
  isExactPrimaryKeyQuery qb = false ->
  executeQuery client conv qb
  = (rangeBuilder qb, executeGetRangeQuery client conv (rangeBuilder qb)).
Proof. intros Hexact. unfold executeQuery. by rewrite Hexact. Qed.

Lemma rangeBuilder_fields qb :
  metadata (rangeBuilder qb) = metadata qb
  /\ _orderBy (rangeBuilder qb) = _orderBy qb
  /\ _limit (rangeBuilder qb) = _limit qb
  /\ _select (rangeBuilder qb) = _select qb
  /\ _columnCondition (rangeBuilder qb) = _columnCondition qb.
Proof.
  unfold rangeBuilder, convertPartialPrimaryKeyToRange.
  destruct (isPartialPrimaryKeyQuery qb); [|done].
  destruct (_startPrimaryKey qb), (_endPrimaryKey qb) eqn:He; cbn; rewrite ?He; done.
Qed.

Lemma rangeBuilder_direction qb : getDirection (rangeBuilder qb) = getDirection qb.
Proof.
  unfold getDirection, firstIsDesc.
  by destruct (rangeBuilder_fields qb) as (_ & -> & _).
Qed.

(** The boundaries sent when none was set by hand. *)
Lemma range_start qb i column :
  isExactPrimaryKeyQuery qb = false ->
  _startPrimaryKey qb = None ->
  primaryColumns (metadata qb) !! i = Some column ->
  inclusiveStartPrimaryKey (getRangeParams (rangeBuilder qb)) !! i
  = Some (boundaryCell (_where qb) true (getOrderDirection qb) column).
Proof.
  intros Hexact Hs Hcol. unfold getRangeParams.
  rewrite rangeBuilder_direction, getDirection_order.
  unfold rangeBuilder.
  destruct (isPartialPrimaryKeyQuery qb) eqn:Hpartial.
  - unfold convertPartialPrimaryKeyToRange. rewrite Hs.
    destruct (getOrderDirection qb), (_endPrimaryKey qb) eqn:He;
      cbn; rewrite ?He; cbn; by apply autoComplete_lookup.
  - assert (isBound (get (_where qb) (propertyName column)) = false) as Hunbound.
    { eapply no_key_unbound; [|by eapply list_elem_of_lookup_2].
      unfold isPartialPrimaryKeyQuery, isExactPrimaryKeyQuery in *.
      cbn in *. rewrite Hexact in Hpartial.
      by rewrite andb_true_r in Hpartial. }
    rewrite Hs. unfold boundaryCell. rewrite Hunbound.
    destruct (getOrderDirection qb); cbn;
      unfold buildMinPrimaryKey, buildMaxPrimaryKey;
      by rewrite lookup_map, Hcol.
Qed.

Lemma range_end qb i column :
  isExactPrimaryKeyQuery qb = false ->
  _endPrimaryKey qb = None ->
  primaryColumns (metadata qb) !! i = Some column ->
  exclusiveEndPrimaryKey (getRangeParams (rangeBuilder qb)) !! i
  = Some (boundaryCell (_where qb) false (getOrderDirection qb) column).
Proof.
  intros Hexact He Hcol. unfold getRangeParams.
  rewrite rangeBuilder_direction, getDirection_order.
  unfold rangeBuilder.
  destruct (isPartialPrimaryKeyQuery qb) eqn:Hpartial.
  - unfold convertPartialPrimaryKeyToRange.
    destruct (getOrderDirection qb), (_startPrimaryKey qb) eqn:Hs;
      cbn; rewrite ?He; cbn; by apply autoComplete_lookup.
  - assert (isBound (get (_where qb) (propertyName column)) = false) as Hunbound.
    { eapply no_key_unbound; [|by eapply list_elem_of_lookup_2].
      unfold isPartialPrimaryKeyQuery, isExactPrimaryKeyQuery in *.
      cbn in *. rewrite Hexact in Hpartial.
      by rewrite andb_true_r in Hpartial. }
    rewrite He. unfold boundaryCell. rewrite Hunbound.
    destruct (getOrderDirection qb); cbn;
      unfold buildMinPrimaryKey, buildMaxPrimaryKey;
      by rewrite lookup_map, Hcol.
Qed.

(** C1.  On the range path, with no boundary set by hand, a predicate
    that binds the first [m] primary columns and leaves column [m]
    without a value yields a range request whose start key has, at
    position [m], [INF_MIN] for ASC and [INF_MAX] for DESC, whose end key
    has the opposite sentinel there, and whose two keys carry the
    converted value of every bound column before [m]. *)
Theorem range_boundaries_at_first_unbound_column
    (client : Client) (conv : Row -> EntityMetadata -> Entity)
    (qb : t) (m : nat) (column : ColumnMetadata) :
  _startPrimaryKey qb = None ->
  _endPrimaryKey qb = None ->
  isExactPrimaryKeyQuery qb = false ->
  primaryColumns (metadata qb) !! m = Some column ->
  isBound (get (_where qb) (propertyName column)) = false ->
  (forall i c, (i < m)%nat -> primaryColumns (metadata qb) !! i = Some c ->
     isBound (get (_where qb) (propertyName c)) = true) ->
  exists params,
    fst (snd (executeQuery client conv qb)) = [GetRange params]
    /\ inclusiveStartPrimaryKey params !! m
       = Some (propertyName column,
               match getOrderDirection qb with ASC => INF_MIN | DESC => INF_MAX end)
    /\ exclusiveEndPrimaryKey params !! m
       = Some (propertyName column,
               match getOrderDirection qb with ASC => INF_MAX | DESC => INF_MIN end)
    /\ forall i c, (i < m)%nat -> primaryColumns (metadata qb) !! i = Some c ->
         let exact :=
           (propertyName c,
            convertValueToTablestore (get (_where qb) (propertyName c)) c) in
         inclusiveStartPrimaryKey params !! i = Some exact
         /\ exclusiveEndPrimaryKey params !! i = Some exact.
Proof.
  intros Hs He Hexact Hcol Hunbound Hprefix.
  exists (getRangeParams (rangeBuilder qb)).
  rewrite executeQuery_range by assumption. split; [reflexivity|].
  rewrite (range_start qb m column), (range_end qb m column) by assumption.
  unfold boundaryCell. rewrite Hunbound.
  split; [by destruct (getOrderDirection qb)|].
  split; [by destruct (getOrderDirection qb)|].
  intros i c Hi Hc. cbn zeta.
  rewrite (range_start qb i c), (range_end qb i c) by assumption.
  unfold boundaryCell. by rewrite (Hprefix i c Hi Hc).
Qed.

Lemma range_boundaries_witness :
  exists params,
    fst (snd (executeQuery Sample.emptyStore Sample.decodeRow
                Sample.electronicsDesc))
    = [GetRange params]
    /\ inclusiveStartPrimaryKey params !! 1%nat = Some ("id", INF_MAX)
    /\ exclusiveEndPrimaryKey params !! 1%nat = Some ("id", INF_MIN)
    /\ inclusiveStartPrimaryKey params !! 0%nat
       = Some ("category", Plain (VString "electronics"))
    /\ exclusiveEndPrimaryKey params !! 0%nat
       = Some ("category", Plain (VString "electronics")).
Proof.
  destruct (range_boundaries_at_first_unbound_column
              Sample.emptyStore Sample.decodeRow Sample.electronicsDesc
              1 Sample.id)
    as (params & Hlog & Hstart & Hend & Hbound).
  - reflexivity.
  - reflexivity.
  - vm_compute. reflexivity.
  - reflexivity.
  - vm_compute. reflexivity.
  - intros i c Hi Hc. destruct i; [|lia].
    injection Hc as <-. vm_compute. reflexivity.
  - exists params. split; [exact Hlog|]. split; [exact Hstart|].
    split; [exact Hend|].
    apply (Hbound 0%nat Sample.category); [lia|reflexivity].
Defined.

Lemma convertPrimaryKeys_bound_fold (primaryKeys : gmap string JsValue) cols acc :
  (forall c, c ∈ cols -> isBound (get primaryKeys (propertyName c)) = true) ->
  fold_left
    (fun tablestorePrimaryKey column =>
       let value := get primaryKeys (propertyName column) in
       if isBound value
       then tablestorePrimaryKey
              ++ [(propertyName column, convertValueToTablestore value column)]
       else tablestorePrimaryKey)
    cols acc
  = acc ++ map (fun c =>
                  (propertyName c,
                   convertValueToTablestore (get primaryKeys (propertyName c)) c))
             cols.
Proof.
  revert acc. induction cols as [|column cols IH]; intros acc Hbound; cbn.
  - by rewrite app_nil_r.
  - rewrite (Hbound column) by left.
    rewrite IH by (intros c Hin; apply Hbound; by right).
    by rewrite <- app_assoc.
Qed.

Lemma convertPrimaryKeys_all_bound md (primaryKeys : gmap string JsValue) :
  (forall c, c ∈ primaryColumns md ->
     isBound (get primaryKeys (propertyName c)) = true) ->
  convertPrimaryKeysToTablestore md primaryKeys
  = map (fun c =>
           (propertyName c,
            convertValueToTablestore (get primaryKeys (propertyName c)) c))
      (primaryColumns md).
Proof.
  intros Hbound. unfold convertPrimaryKeysToTablestore.
  by rewrite convertPrimaryKeys_bound_fold.
Qed.

(** C6.  When every primary column has a value in the predicate, the
    one request sent is a [getRow] on the table of the entity and on the
    key made of the converted value of every primary column, in schema
    order, with the selected columns and without a column filter.  When
    the store answers with a row, the result is that one row, decoded.
    Setting any filter on the builder changes neither the request nor
    the result: the row that comes back is not filtered. *)
Theorem full_key_is_point_lookup_without_filter
    (client : Client) (conv : Row -> EntityMetadata -> Entity) (qb : t) :
  (forall c, c ∈ primaryColumns (metadata qb) ->
     isBound (get (_where qb) (propertyName c)) = true) ->
  let params :=
    {| getRow_tableName := tableName (metadata qb);
       getRow_primaryKey :=
         map (fun c =>
                (propertyName c,
                 convertValueToTablestore (get (_where qb) (propertyName c)) c))
           (primaryColumns (metadata qb));
       getRow_columnsToGet :=
         if Nat.ltb 0 (length (_select qb)) then Some (_select qb) else None;
       getRow_columnFilter := None;
       getRow_transactionId := None |} in
  fst (snd (executeQuery client conv qb)) = [GetRow params]
  /\ (forall response r key,
        getRow client params = Ok response ->
        row response = Some r ->
        Tablestore.primaryKey r = Some key ->
        snd (snd (executeQuery client conv qb))
        = Ok {| entities := [conv r (metadata qb)];
                result_nextStartPrimaryKey := None |})
  /\ (forall condition,
        snd (executeQuery client conv (filter condition qb))
        = snd (executeQuery client conv qb))
  /\ (forall condition response r key,
        getRow client params = Ok response ->
        row response = Some r ->
        Tablestore.primaryKey r = Some key ->
        snd (executeQuery client conv (filter condition qb))
        = ([GetRow params],
           Ok {| entities := [conv r (metadata qb)];
                 result_nextStartPrimaryKey := None |})).
Proof.
  intros Hfull params.
  assert (forall condition, isExactPrimaryKeyQuery (filter condition qb) = true)
    as Hexact'.
  { intros condition. unfold isExactPrimaryKeyQuery. cbn.
    apply forallb_forall. intros pkName Hin.
    apply in_map_iff in Hin as (c & <- & Hin).
    apply list_elem_of_In, Hfull in Hin.
    unfold hasKey. apply bool_decide_eq_true. unfold get in Hin.
    destruct (_where qb !! propertyName c); [eauto|discriminate]. }
  assert (isExactPrimaryKeyQuery qb = true) as Hexact.
  { destruct (_columnCondition qb) eqn:E.
    - specialize (Hexact' c). by unfold isExactPrimaryKeyQuery in *.
    - specialize (Hexact' (CompositeCondition AND [])).
      by unfold isExactPrimaryKeyQuery in *. }
  assert (getRowParams qb = params) as Hparams.
  { unfold getRowParams, params.
    rewrite (convertPrimaryKeys_all_bound _ _ Hfull).
    unfold columnsToGet. by destruct (_select qb). }
  assert (forall response r key,
            getRow client params = Ok response ->
            row response = Some r ->
            Tablestore.primaryKey r = Some key ->
            snd (executeQuery client conv qb)
            = ([GetRow params],
               Ok {| entities := [conv r (metadata qb)];
                     result_nextStartPrimaryKey := None |})) as Hrow.
  { intros response r key Hresponse Hr Hkey.
    unfold executeQuery. rewrite Hexact. cbn [snd].
    unfold executeGetRowQuery. rewrite Hparams, Hresponse, Hr, Hkey.
    reflexivity. }
  assert (forall condition,
            snd (executeQuery client conv (filter condition qb))
            = snd (executeQuery client conv qb)) as Hsame.
  { intros condition. unfold executeQuery. by rewrite Hexact, Hexact'. }
  split; [|split; [|split]].
  - unfold executeQuery. rewrite Hexact. cbn. by rewrite Hparams.
  - intros response r key Hresponse Hr Hkey.
    by rewrite (Hrow response r key).
  - exact Hsame.
  - intros condition response r key Hresponse Hr Hkey.
    rewrite Hsame. by apply (Hrow response r key).
Qed.

(** The lookup of one product, on a store that holds its row. *)
Lemma full_key_witness :
  fst (snd (executeQuery Sample.fullStore Sample.decodeRow Sample.oneProduct))
  = [GetRow {| getRow_tableName := "products";
               getRow_primaryKey :=
                 [("category", Plain (VString "electronics"));
                  ("id", Plain (VString "001"))];
               getRow_columnsToGet := None;
               getRow_columnFilter := None;
               getRow_transactionId := None |}]
  /\ snd (snd (executeQuery Sample.fullStore Sample.decodeRow Sample.oneProduct))
     = Ok {| entities := [Sample.decodeRow Sample.aRow Sample.product];
             result_nextStartPrimaryKey := None |}
  /\ (forall condition,
        snd (executeQuery Sample.fullStore Sample.decodeRow
               (filter condition Sample.oneProduct))
        = snd (executeQuery Sample.fullStore Sample.decodeRow
                 Sample.oneProduct)).
Proof.
  destruct (full_key_is_point_lookup_without_filter
              Sample.fullStore Sample.decodeRow Sample.oneProduct)
    as (Hlog & Hrow & Hsame & _).
  - intros c Hin. cbn in Hin.
    apply elem_of_cons in Hin as [->|Hin]; [vm_compute; reflexivity|].
    apply elem_of_cons in Hin as [->|Hin]; [vm_compute; reflexivity|].
    by apply elem_of_nil in Hin.
  - split; [exact Hlog|]. split; [|exact Hsame].
    apply (Hrow {| row := Some Sample.aRow |} Sample.aRow
             [("category", Plain (VString "electronics"));
              ("id", Plain (VString "001"))]); reflexivity.
Defined.

(** C10.  On the range path with no limit set, or with limit 0, the
    request carries limit 100; a store that returns no more rows than
    the (non-negative) limit of a request then yields at most 100
    entities. *)
Theorem range_scan_default_limit
    (client : Client) (conv : Row -> EntityMetadata -> Entity) (qb : t) :
  isExactPrimaryKeyQuery qb = false ->
  _limit qb = None \/ _limit qb = Some (NInt 0) ->
  (forall p response z,
     getRange client p = Ok response -> getRange_limit p = NInt z -> 0 <= z ->
     Z.of_nat (length (rows response)) <= z) ->
  exists params,
    fst (snd (executeQuery client conv qb)) = [GetRange params]
    /\ getRange_limit params = NInt 100
    /\ forall result,
         snd (snd (executeQuery client conv qb)) = Ok result ->
         (length (entities result) <= 100)%nat.
Proof.
  intros Hexact Hlimit Hstore.
  exists (getRangeParams (rangeBuilder qb)).
  rewrite executeQuery_range by assumption.
  assert (getRange_limit (getRangeParams (rangeBuilder qb)) = NInt 100) as H100.
  { unfold getRangeParams.
    destruct (rangeBuilder_fields qb) as (_ & _ & -> & _).
    destruct (getDirection (rangeBuilder qb)); cbn;
      by destruct Hlimit as [-> | ->]. }
  split; [reflexivity|]. split; [exact H100|].
  intros result. cbn. unfold executeGetRangeQuery. cbn.
  destruct (getRange client (getRangeParams (rangeBuilder qb)))
    as [response|e] eqn:E; [|discriminate].
  cbn. intros [= <-]. cbn. rewrite length_map.
  specialize (Hstore _ _ _ E H100). lia.
Qed.

(** A full scan of [product], on a store of 150 rows, with the limit
    left unset. *)
Lemma range_scan_default_limit_witness :
  exists params,
    fst (snd (executeQuery Sample.fullStore Sample.decodeRow
                (create Sample.product)))
    = [GetRange params]
    /\ getRange_limit params = NInt 100
    /\ forall result,
         snd (snd (executeQuery Sample.fullStore Sample.decodeRow
                     (create Sample.product))) = Ok result ->
         (length (entities result) <= 100)%nat.
Proof.
  apply (range_scan_default_limit Sample.fullStore Sample.decodeRow
           (create Sample.product)).
  - vm_compute. reflexivity.
  - left. reflexivity.
  - intros p response z Hresp Hz Hpos. cbn in Hresp. injection Hresp as <-.
    cbn. rewrite Hz, length_firstn. lia.
Defined.

Example full_scan_returns_100 :
  (try! result := snd (snd (executeQuery Sample.fullStore Sample.decodeRow
                              (create Sample.product))) in
   Ok (length (entities result)))
  = Ok 100%nat.
Proof. vm_compute. reflexivity. Qed.

Example limit_3_desc :
  fst (snd (executeQuery Sample.fullStore Sample.decodeRow
              (limit (NInt 3) Sample.electronicsDesc)))
  = [GetRange
       {| getRange_tableName := "products";
          inclusiveStartPrimaryKey :=
            [("category", Plain (VString "electronics")); ("id", INF_MAX)];
          exclusiveEndPrimaryKey :=
            [("category", Plain (VString "electronics")); ("id", INF_MIN)];
          getRange_limit := NInt 3;
          getRange_direction := BACKWARD;
          getRange_columnsToGet := None;
          getRange_columnFilter := None |}].
Proof. vm_compute. reflexivity. Qed.

(** The empty key as a start position is the start of the table. *)
Example startWith_empty_key :
  _startPrimaryKey (startWith ∅ (create Sample.product))
  = Some [("category", INF_MIN); ("id", INF_MIN)].
Proof. vm_compute. reflexivity. Qed.

(** C2, evaluated.  With [day] unbound and [seq] bound after it, the
    start key built by the query builder carries the sentinel for [day]
    and then the explicit value of [seq]; the request sent carries these
    keys, and the entity manager's completion does the same. *)
Theorem explicit_value_after_first_unbound_column_is_emitted :
  autoCompletePartialPrimaryKey Sample.event Sample.tenantAndSeq true ASC
  = [("tenant", Plain (VString "t1")); ("day", INF_MIN);
     ("seq", Plain (VString "0042"))]
  /\ autoCompletePartialPrimaryKey Sample.event Sample.tenantAndSeq false ASC
     = [("tenant", Plain (VString "t1")); ("day", INF_MAX);
        ("seq", Plain (VString "0042"))]
  /\ (exists params,
        fst (snd (executeQuery Sample.emptyStore Sample.decodeRow
                    (where_ Sample.tenantAndSeq (create Sample.event))))
        = [GetRange params]
        /\ inclusiveStartPrimaryKey params !! 2%nat
           = Some ("seq", Plain (VString "0042")))
  /\ EntityManager.autoCompletePartialPrimaryKey convertValueToTablestore
       Sample.tenantAndSeq Sample.event true
     = [("tenant", Plain (VString "t1")); ("day", INF_MIN);
        ("seq", Plain (VString "0042"))].
Proof.
  split; [vm_compute; reflexivity|].
  split; [vm_compute; reflexivity|].
  split; [|vm_compute; reflexivity].
  eexists. split; vm_compute; reflexivity.
Qed.

(** [Object.keys] lists a key that is an array index before the keys
    added earlier: after [orderBy('ASC')], [addOrderBy('1', 'DESC')]
    turns the scan backward, and [addOrderBy('price', 'DESC')] or
    [addOrderBy('01', 'DESC')] does not. *)
Example addOrderBy_index_key_comes_first :
  getDirection (addOrderBy "1" DESC (orderBy ASC (create Sample.product)))
  = BACKWARD
  /\ getDirection (addOrderBy "price" DESC (orderBy ASC (create Sample.product)))
     = FORWARD
  /\ getDirection (addOrderBy "01" DESC (orderBy ASC (create Sample.product)))
     = FORWARD.
Proof. by vm_compute. Qed.

End QueryBuilderFacts.

(** ** Filter construction *)

Module FilterFactoryFacts.

Import FilterFactory.

Lemma findColumnMetadata_unknown md field :
  (forall col, col ∈ columns md -> propertyName col <> field) ->
  findColumnMetadata md field = None.
Proof.
  intros Hunknown. unfold findColumnMetadata.
  induction (columns md) as [|col cols IH]; [reflexivity|]. cbn.
  rewrite bool_decide_eq_false_2 by (apply Hunknown; left).
  apply IH. intros col' Hin. apply Hunknown. by right.
Qed.

(** C8.  A comparator leaf on a field that no column of the entity
    carries is rejected with the unknown-field error, whatever the value,
    comparator and options, and so is [equals]; [and()] and [or()] of no
    condition are rejected as well.  None of these builders has a client
    to call. *)
Theorem filter_construction_is_validated
    (md : EntityMetadata) (field : string) (value : JsValue)
    (comparator : ComparatorType) (options : option ColumnFilterOptions) :
  (forall col, col ∈ columns md -> propertyName col <> field) ->
  createSingleCondition md field value comparator options
  = Throw (Error (FieldNotInEntity field))
  /\ equals md field value options = Throw (Error (FieldNotInEntity field))
  /\ and [] = Throw (Error AndNeedsCondition)
  /\ or [] = Throw (Error OrNeedsCondition).
Proof.
  intros Hunknown. unfold equals, createSingleCondition.
  rewrite (findColumnMetadata_unknown md field Hunknown). repeat split.
Qed.

Lemma filter_construction_witness :
  createSingleCondition Sample.product "colour" (VString "red") GREATER_THAN None
  = Throw (Error (FieldNotInEntity "colour"))
  /\ equals Sample.product "colour" (VString "red") None
     = Throw (Error (FieldNotInEntity "colour"))
  /\ and [] = Throw (Error AndNeedsCondition)
  /\ or [] = Throw (Error OrNeedsCondition).
Proof.
  apply (filter_construction_is_validated Sample.product "colour").
  intros col Hin. cbn in Hin.
  repeat (apply elem_of_cons in Hin as [->|Hin]; [discriminate|]).
  by apply elem_of_nil in Hin.
Defined.

End FilterFactoryFacts.

(** ** The transaction state machine *)

Module TransactionFacts.

Import Transaction.

Lemma bindM_throw {A B} (m : M A) (k : A -> M B) tx tx1 log e :
  m tx = (tx1, (log, Throw e)) ->
  bindM m k tx = (tx1, (log, Throw e)).
Proof. intros H. unfold bindM. by rewrite H. Qed.

Lemma bindM_ok {A B} (m : M A) (k : A -> M B) tx tx1 a :
  m tx = (tx1, ([], Ok a)) ->
  bindM m k tx = k a tx1.
Proof.
  intros H. unfold bindM. rewrite H.
  by destruct (k a tx1) as [tx2 [log2 r2]].
Qed.

(** [ensureActive] when the deadline has passed on an ACTIVE
    transaction, and on a transaction already marked TIMEOUT. *)
Lemma ensureActive_expired now tx :
  status tx = ACTIVE ->
  now - startTime tx > timeout tx ->
  ensureActive now tx
  = (withStatus TIMEOUT tx, ([], Throw (Error TransactionTimedOut))).
Proof.
  intros Hactive Hlate. unfold ensureActive, isActive.
  rewrite Hactive. cbn.
  replace (now - startTime tx >? timeout tx) with true
    by (symmetry; rewrite Z.gtb_ltb; apply Z.ltb_lt; lia).
  reflexivity.
Qed.

Lemma ensureActive_timeout now tx :
  status tx = TIMEOUT ->
  ensureActive now tx = (tx, ([], Throw (Error TransactionTimedOut))).
Proof.
  intros Hstatus. destruct tx; cbn in Hstatus; subst. reflexivity.
Qed.

Lemma ensureActive_live now tx :
  status tx = ACTIVE ->
  now - startTime tx <= timeout tx ->
  ensureActive now tx = (tx, ([], Ok tt)).
Proof.
  intros Hactive Hlive. unfold ensureActive, isActive.
  rewrite Hactive. cbn.
  replace (now - startTime tx >? timeout tx) with false
    by (symmetry; rewrite Z.gtb_ltb; apply Z.ltb_ge; lia).
  reflexivity.
Qed.

Lemma ensureActive_ended now tx :
  status tx <> ACTIVE ->
  ensureActive now tx
  = (tx, ([], Throw (Error (if bool_decide (status tx = TIMEOUT)
                            then TransactionTimedOut else TransactionEnded)))).
Proof.
  intros Hstatus. unfold ensureActive, isActive.
  by rewrite (bool_decide_eq_false_2 _ Hstatus).
Qed.

Section Collaborators.

Variable client : Client.
Variable getEntityMetadata : string -> Result EntityMetadata.
Variable convertValueToTablestore : JsValue -> ColumnMetadata -> CellValue.
Variable processSpecialColumnsOnInsert :
  gmap string JsValue -> EntityMetadata -> gmap string JsValue.
Variable processSpecialColumnsOnUpdate :
  gmap string JsValue -> EntityMetadata -> gmap string JsValue -> list Request.
Variable convertTablestoreToEntity : Row -> EntityMetadata -> gmap string JsValue.

Abbreviation perform :=
  (Transaction.perform client getEntityMetadata convertValueToTablestore
     processSpecialColumnsOnInsert processSpecialColumnsOnUpdate
     convertTablestoreToEntity).

(** A method that starts with [ensureActive()] stops there when that
    call throws. *)
Lemma perform_rejected now call tx tx1 e :
  ensureActive now tx = (tx1, ([], Throw e)) ->
  perform now call tx = (tx1, ([], Throw e)).
Proof.
  intros Hguard.
  destruct call; cbn [Transaction.perform];
    unfold void, save, update, delete, findOne, batchWrite, commit;
    repeat (apply bindM_throw); exact Hguard.
Qed.

(** C4.  Once [now - startTime > timeout] on an ACTIVE transaction, the
    status check [isActive] answers [false] and marks the transaction
    TIMEOUT; each of save, update, delete, findOne, batchWrite and commit
    attempted at that time marks it TIMEOUT, sends nothing and throws the
    timed-out error; and on the transaction so marked every such method
    throws that error at any later reading of the clock. *)
Theorem elapsed_timeout_rejects_operations (tx : t) (now : Z) :
  status tx = ACTIVE ->
  now - startTime tx > timeout tx ->
  isActive now tx = (withStatus TIMEOUT tx, false)
  /\ (forall call,
        perform now call tx
        = (withStatus TIMEOUT tx, ([], Throw (Error TransactionTimedOut))))
  /\ (forall call now',
        perform now' call (withStatus TIMEOUT tx)
        = (withStatus TIMEOUT tx, ([], Throw (Error TransactionTimedOut)))).
Proof.
  intros Hactive Hlate. repeat split.
  - unfold isActive. rewrite Hactive. cbn.
    replace (now - startTime tx >? timeout tx) with true
      by (symmetry; rewrite Z.gtb_ltb; apply Z.ltb_lt; lia).
    reflexivity.
  - intros call. apply perform_rejected. by apply ensureActive_expired.
  - intros call now'. apply perform_rejected. by apply ensureActive_timeout.
Qed.

(** C7.  On a transaction that passes [ensureActive], a rejected commit
    call leaves the status ABORTED and rethrows the rejection, and an
    accepted one leaves it COMMITTED; on a transaction that is not
    ACTIVE, commit and every other guarded method send nothing, change
    nothing and throw.  A rollback of an ACTIVE transaction sends the
    abort call and leaves the status ABORTED whatever the call settles
    to; on any other status it sends nothing, changes nothing and
    returns. *)
Theorem commit_and_rollback_are_terminal (tx : t) (now : Z) :
  (status tx = ACTIVE -> now - startTime tx <= timeout tx ->
   forall e, write client (CommitTransaction (transactionId tx)) = Throw e ->
     commit client now tx
     = (withStatus ABORTED tx, ([CommitTransaction (transactionId tx)], Throw e)))
  /\ (status tx = ACTIVE -> now - startTime tx <= timeout tx ->
      write client (CommitTransaction (transactionId tx)) = Ok tt ->
      commit client now tx
      = (withStatus COMMITTED tx, ([CommitTransaction (transactionId tx)], Ok tt)))
  /\ (status tx <> ACTIVE ->
      exists e, forall call, perform now call tx = (tx, ([], Throw e)))
  /\ (status tx = ACTIVE ->
      rollback client tx
      = (withStatus ABORTED tx,
         ([AbortTransaction (transactionId tx)],
          write client (AbortTransaction (transactionId tx)))))
  /\ (status tx <> ACTIVE -> rollback client tx = (tx, ([], Ok tt))).
Proof.
  repeat split.
  - intros Hactive Hlive e Hreject. unfold commit.
    rewrite (bindM_ok _ _ tx tx tt) by (by apply ensureActive_live).
    unfold tryCatch, bindM, send, setStatus, throw. by rewrite Hreject.
  - intros Hactive Hlive Haccept. unfold commit.
    rewrite (bindM_ok _ _ tx tx tt) by (by apply ensureActive_live).
    unfold tryCatch, bindM, send, setStatus. by rewrite Haccept.
  - intros Hstatus. eexists. intros call.
    apply perform_rejected. by apply ensureActive_ended.
  - intros Hactive. unfold rollback. rewrite Hactive. reflexivity.
  - intros Hstatus. unfold rollback.
    by rewrite (bool_decide_eq_false_2 _ Hstatus).
Qed.

(** What save, update and delete do on a partition mismatch: the
    check throws before anything is sent. *)
Lemma writes_check_partition now tx md entityClass (entity : gmap string JsValue) e :
  status tx = ACTIVE -> now - startTime tx <= timeout tx ->
  getEntityMetadata entityClass = Ok md ->
  validatePartitionKey entity md tx = (tx, ([], Throw e)) ->
  save client getEntityMetadata convertValueToTablestore
    processSpecialColumnsOnInsert now entityClass entity tx
  = (tx, ([], Throw e))
  /\ (forall partialEntity,
        update client getEntityMetadata convertValueToTablestore
          processSpecialColumnsOnUpdate now entityClass entity partialEntity tx
        = (tx, ([], Throw e)))
  /\ delete client getEntityMetadata convertValueToTablestore
       now entityClass entity tx
     = (tx, ([], Throw e)).
Proof.
  intros Hactive Hlive Hmd Hcheck.
  repeat split; intros; unfold save, update, delete;
    rewrite (bindM_ok _ _ tx tx tt) by (by apply ensureActive_live);
    rewrite (bindM_ok _ _ tx tx md) by (unfold lift; by rewrite Hmd);
    by apply bindM_throw.
Qed.

End Collaborators.

Lemma elapsed_timeout_witness :
  isActive 70000 Sample.electronicsTx
  = (withStatus TIMEOUT Sample.electronicsTx, false)
  /\ (forall call,
        Sample.perform 70000 call Sample.electronicsTx
        = (withStatus TIMEOUT Sample.electronicsTx,
           ([], Throw (Error TransactionTimedOut))))
  /\ (forall call now',
        Sample.perform now' call (withStatus TIMEOUT Sample.electronicsTx)
        = (withStatus TIMEOUT Sample.electronicsTx,
           ([], Throw (Error TransactionTimedOut)))).
Proof.
  apply (elapsed_timeout_rejects_operations Sample.emptyStore Sample.registry
           QueryBuilder.convertValueToTablestore (fun entity _ => entity)
           (fun _ _ _ => []) Sample.decodeRow Sample.electronicsTx 70000).
  - reflexivity.
  - vm_compute. reflexivity.
Defined.

Lemma commit_and_rollback_witness :
  commit Sample.failingStore 2000 Sample.electronicsTx
  = (withStatus ABORTED Sample.electronicsTx,
     ([CommitTransaction "tx-1"], Throw (StoreFailure "OTSServerBusy" "busy")))
  /\ rollback Sample.failingStore Sample.electronicsTx
     = (withStatus ABORTED Sample.electronicsTx,
        ([AbortTransaction "tx-1"], Throw (StoreFailure "OTSServerBusy" "busy")))
  /\ rollback Sample.failingStore (withStatus COMMITTED Sample.electronicsTx)
     = (withStatus COMMITTED Sample.electronicsTx, ([], Ok tt)).
Proof.
  destruct (commit_and_rollback_are_terminal Sample.failingStore
              Sample.registry QueryBuilder.convertValueToTablestore
              (fun entity _ => entity) (fun _ _ _ => []) Sample.decodeRow
              Sample.electronicsTx 2000) as (Hfail & _ & _ & Hrollback & _).
  destruct (commit_and_rollback_are_terminal Sample.failingStore
              Sample.registry QueryBuilder.convertValueToTablestore
              (fun entity _ => entity) (fun _ _ _ => []) Sample.decodeRow
              (withStatus COMMITTED Sample.electronicsTx) 2000)
    as (_ & _ & _ & _ & Hnoop).
  split; [|split].
  - apply Hfail; [reflexivity | vm_compute; discriminate | reflexivity].
  - apply Hrollback. reflexivity.
  - apply Hnoop. discriminate.
Defined.

(** C5, evaluated.  Inside a transaction bound to
    [category = "electronics"], saving the row [Sample.aBook] is refused before
    anything is sent, but [findOne] on the same key sends its [getRow],
    and [batchWrite] of a change to that row sends its [batchWriteRow]:
    neither compares the key with the partition key. *)
Theorem findOne_and_batchWrite_skip_partition_check :
  save Sample.emptyStore Sample.registry QueryBuilder.convertValueToTablestore
    (fun entity _ => entity) 2000 "Product" Sample.aBook Sample.electronicsTx
  = (Sample.electronicsTx,
     ([], Throw (Error (PartitionKeyMismatch (VString "books")
                          (VString "electronics")))))
  /\ findOne Sample.emptyStore Sample.registry
       QueryBuilder.convertValueToTablestore Sample.decodeRow
       2000 "Product" Sample.aBook Sample.electronicsTx
     = (Sample.electronicsTx,
        ([GetRow {| getRow_tableName := "products";
                    getRow_primaryKey := Sample.aBookKey;
                    getRow_columnsToGet := None;
                    getRow_columnFilter := None;
                    getRow_transactionId := Some "tx-1" |}],
         Ok None))
  /\ batchWrite Sample.emptyStore 2000
       [{| op_tableName := "products";
           request := {| changeType := "PUT";
                         change_primaryKey := Sample.aBookKey |} |}]
       Sample.electronicsTx
     = (Sample.electronicsTx,
        ([BatchWriteRow "products"
            [{| changeType := "PUT"; change_primaryKey := Sample.aBookKey |}]
            "tx-1"],
         Ok tt)).
Proof. repeat split. Qed.

End TransactionFacts.

(** ** Base64, UTF-8 and JSON round trips *)

Module NodeFacts.

Import Node.


Ltac decide_tests :=
  repeat match goal with
  | |- context [?a <=? ?b] =>
      first [ replace (a <=? b) with true by (symmetry; apply Z.leb_le; lia)
            | replace (a <=? b) with false by (symmetry; apply Z.leb_gt; lia) ]
  | |- context [?a <? ?b] =>
      first [ replace (a <? b) with true by (symmetry; apply Z.ltb_lt; lia)
            | replace (a <? b) with false by (symmetry; apply Z.ltb_ge; lia) ]
  | |- context [?a =? ?b] =>
      first [ replace (a =? b) with true by (symmetry; apply Z.eqb_eq; lia)
            | replace (a =? b) with false by (symmetry; apply Z.eqb_neq; lia) ]
  end.

Lemma unbase64_base64Char v :
  0 <= v < 64 -> unbase64 (base64Char v) = Some v.
Proof.
  intros Hv. unfold base64Char.
  destruct (Z.ltb_spec v 26); [unfold unbase64; decide_tests; cbn; f_equal; lia|].
  destruct (Z.ltb_spec v 52); [unfold unbase64; decide_tests; cbn; f_equal; lia|].
  destruct (Z.ltb_spec v 62); [unfold unbase64; decide_tests; cbn; f_equal; lia|].
  destruct (Z.eqb_spec v 62); [subst; reflexivity|].
  assert (v = 63) as -> by lia. reflexivity.
Qed.

Lemma list_ind3 {A} (P : list A -> Prop) :
  P [] -> (forall a, P [a]) -> (forall a b, P [a; b]) ->
  (forall a b c l, P l -> P (a :: b :: c :: l)) ->
  forall l, P l.
Proof.
  intros H0 H1 H2 H3.
  fix IH 1. intros [|a [|b [|c l]]];
    [exact H0 | exact (H1 a) | exact (H2 a b) | exact (H3 a b c l (IH l))].
Qed.

Lemma sextets_split a b c :
  isByte a -> isByte b -> isByte c ->
  0 <= a / 4 < 64 /\ 0 <= a mod 4 * 16 + b / 16 < 64
  /\ 0 <= b mod 16 * 4 + c / 64 < 64 /\ 0 <= c mod 64 < 64
  /\ 0 <= a mod 4 * 16 < 64 /\ 0 <= b mod 16 * 4 < 64.
Proof. unfold isByte. intros. repeat split; Z.div_mod_to_equations; lia. Qed.

Lemma base64_roundtrip bs :
  Forall isByte bs -> base64Decode (base64Encode bs) = bs.
Proof.
  unfold base64Decode.
  induction bs as [|a|a b|a b c rest IH] using list_ind3; intros Hbytes.
  - reflexivity.
  - apply Forall_cons in Hbytes as [Ha _].
    destruct (sextets_split a 0 0 Ha) as (H1 & _ & _ & _ & H2 & _);
      [unfold isByte; lia..|].
    cbn [base64Encode sextets].
    rewrite !unbase64_base64Char by assumption. cbn.
    f_equal. unfold isByte in Ha. Z.div_mod_to_equations; lia.
  - apply Forall_cons in Hbytes as [Ha Hbytes].
    apply Forall_cons in Hbytes as [Hb _].
    destruct (sextets_split a b 0 Ha Hb) as (H1 & H2 & _ & _ & _ & H3);
      [unfold isByte; lia|].
    cbn [base64Encode sextets].
    rewrite !unbase64_base64Char by assumption. cbn.
    unfold isByte in *. f_equal; [|f_equal]; Z.div_mod_to_equations; lia.
  - apply Forall_cons in Hbytes as [Ha Hbytes].
    apply Forall_cons in Hbytes as [Hb Hbytes].
    apply Forall_cons in Hbytes as [Hc Hbytes].
    destruct (sextets_split a b c Ha Hb Hc) as (H1 & H2 & H3 & H4 & _ & _).
    cbn [base64Encode sextets].
    rewrite !unbase64_base64Char by assumption.
    cbn [sextetsToBytes]. rewrite (IH Hbytes).
    unfold isByte in *.
    f_equal; [|f_equal; [|f_equal]]; Z.div_mod_to_equations; lia.
Qed.

Lemma utf8Bytes_are_bytes cp :
  0 <= cp < 0x110000 -> Forall isByte (utf8Bytes cp).
Proof.
  intros Hcp. unfold utf8Bytes, isByte.
  repeat case_match; repeat constructor; Z.div_mod_to_equations; lia.
Qed.

(** Decoding the bytes of one scalar value gives it back and leaves the
    decoder idle. *)
Lemma decode_utf8Bytes cp bs :
  0 <= cp < 0x110000 -> ~ (0xD800 <= cp <= 0xDFFF) ->
  utf8DecodeFrom idle (utf8Bytes cp ++ bs) = cp :: utf8DecodeFrom idle bs.
Proof.
  intros Hcp Hscalar. unfold utf8Bytes.
  destruct (Z.ltb_spec cp 0x80) as [H1|H1].
  { cbn. unfold leadByte. decide_tests. reflexivity. }
  destruct (Z.ltb_spec cp 0x800) as [H2|H2].
  { assert (2 <= cp / 64 <= 31 /\ 0 <= cp mod 64 <= 63
            /\ cp = 64 * (cp / 64) + cp mod 64) as (Hq & Hr & Heq)
      by (Z.div_mod_to_equations; lia).
    generalize dependent (cp / 64). generalize dependent (cp mod 64).
    intros r Hr q Hq Heq.
    cbn. unfold leadByte. decide_tests. cbn. decide_tests. cbn.
    f_equal. lia. }
  destruct (Z.ltb_spec cp 0x10000) as [H3|H3].
  { assert (0 <= cp / 4096 <= 15 /\ 0 <= cp / 64 mod 64 <= 63
            /\ 0 <= cp mod 64 <= 63
            /\ cp = 4096 * (cp / 4096) + 64 * (cp / 64 mod 64) + cp mod 64)
      as (Hq & Hm & Hr & Heq) by (Z.div_mod_to_equations; lia).
    generalize dependent (cp / 4096). generalize dependent (cp / 64 mod 64).
    generalize dependent (cp mod 64).
    intros r Hr m Hm q Hq Heq.
    cbn. unfold leadByte. decide_tests. cbn.
    destruct (Z.eqb_spec (224 + q) 224), (Z.eqb_spec (224 + q) 237);
      decide_tests; cbn; decide_tests; cbn; f_equal; lia. }
  assert (0 <= cp / 262144 <= 4 /\ 0 <= cp / 4096 mod 64 <= 63
          /\ 0 <= cp / 64 mod 64 <= 63 /\ 0 <= cp mod 64 <= 63
          /\ cp = 262144 * (cp / 262144) + 4096 * (cp / 4096 mod 64)
                  + 64 * (cp / 64 mod 64) + cp mod 64)
    as (Hq & Hp & Hm & Hr & Heq).
  { replace (cp / 262144) with (cp / 64 / 64 / 64)
      by (rewrite !Z.div_div by lia; reflexivity).
    replace (cp / 4096) with (cp / 64 / 64)
      by (rewrite !Z.div_div by lia; reflexivity).
    Z.div_mod_to_equations; lia. }
  generalize dependent (cp / 262144). generalize dependent (cp / 4096 mod 64).
  generalize dependent (cp / 64 mod 64). generalize dependent (cp mod 64).
  intros r Hr m Hm p Hp q Hq Heq.
  cbn. unfold leadByte. decide_tests. cbn.
  destruct (Z.eqb_spec (240 + q) 240), (Z.eqb_spec (240 + q) 244);
    decide_tests; cbn; decide_tests; cbn; decide_tests; cbn; f_equal; lia.
Qed.

Lemma surrogate_pair_scalar h l :
  isHighSurrogate h = true -> isLowSurrogate l = true ->
  let cp := 0x10000 + (h - 0xD800) * 1024 + (l - 0xDC00) in
  0x10000 <= cp < 0x110000 /\ utf16Units cp = [h; l].
Proof.
  unfold isHighSurrogate, isLowSurrogate. intros Hh Hl.
  apply andb_true_iff in Hh as [Hh1 Hh2]. apply andb_true_iff in Hl as [Hl1 Hl2].
  apply Z.leb_le in Hh1, Hh2, Hl1, Hl2. cbn zeta. split; [lia|].
  unfold utf16Units. decide_tests.
  f_equal; [|f_equal]; Z.div_mod_to_equations; lia.
Qed.

Lemma utf8Encode_unit u rest :
  isHighSurrogate u = false -> isLowSurrogate u = false ->
  utf8Encode (u :: rest) = utf8Bytes u ++ utf8Encode rest.
Proof. intros Hh Hl. cbn. by rewrite Hh, Hl. Qed.

Lemma utf8Encode_pair h l rest :
  isHighSurrogate h = true -> isLowSurrogate l = true ->
  utf8Encode (h :: l :: rest)
  = utf8Bytes (0x10000 + (h - 0xD800) * 1024 + (l - 0xDC00)) ++ utf8Encode rest.
Proof. intros Hh Hl. cbn [utf8Encode]. by rewrite Hh, Hl. Qed.

Lemma not_surrogate u :
  isHighSurrogate u = false -> isLowSurrogate u = false ->
  ~ (0xD800 <= u <= 0xDFFF).
Proof.
  unfold isHighSurrogate, isLowSurrogate. intros Hh Hl [H1 H2].
  apply andb_false_iff in Hh, Hl. rewrite !Z.leb_gt in Hh, Hl. lia.
Qed.

Lemma utf8Encode_bytes us : wellFormed us -> Forall isByte (utf8Encode us).
Proof.
  induction 1 as [|u rest Hu Hh Hl _ IH|h l rest Hh Hl _ IH].
  - constructor.
  - rewrite utf8Encode_unit by assumption.
    apply Forall_app. split; [apply utf8Bytes_are_bytes; lia | exact IH].
  - rewrite utf8Encode_pair by assumption.
    apply Forall_app. split; [|exact IH].
    apply utf8Bytes_are_bytes.
    destruct (surrogate_pair_scalar h l Hh Hl) as [Hcp _]. lia.
Qed.

(** UTF-8 encoding then decoding gives a well-formed string back. *)
Lemma utf8_roundtrip us : wellFormed us -> utf8Decode (utf8Encode us) = us.
Proof.
  unfold utf8Decode.
  induction 1 as [|u rest Hu Hh Hl _ IH|h l rest Hh Hl _ IH].
  - reflexivity.
  - rewrite utf8Encode_unit by assumption.
    rewrite decode_utf8Bytes by (auto using not_surrogate; lia).
    cbn [map concat]. rewrite IH. unfold utf16Units. by decide_tests.
  - rewrite utf8Encode_pair by assumption.
    destruct (surrogate_pair_scalar h l Hh Hl) as [Hcp Hunits].
    rewrite decode_utf8Bytes by lia.
    cbn [map concat]. rewrite IH, Hunits. reflexivity.
Qed.

Lemma base64Char_small v : 0 <= v < 64 -> 0 <= base64Char v < 256.
Proof. intros Hv. unfold base64Char. repeat case_match; lia. Qed.

Lemma base64Encode_small bs :
  Forall isByte bs ->
  forallb (fun c => (0 <=? c) && (c <? 256)) (base64Encode bs) = true.
Proof.
  assert (forall v, 0 <= v < 64 ->
            (0 <=? base64Char v) && (base64Char v <? 256) = true) as Hsmall.
  { intros v Hv. pose proof (base64Char_small v Hv). by decide_tests. }
  induction bs as [|a|a b|a b c rest IH] using list_ind3; intros Hbytes.
  - reflexivity.
  - apply Forall_cons in Hbytes as [Ha _].
    destruct (sextets_split a 0 0 Ha) as (H1 & _ & _ & _ & H2 & _);
      [unfold isByte; lia..|].
    cbn [base64Encode forallb]. by rewrite !Hsmall.
  - apply Forall_cons in Hbytes as [Ha Hbytes].
    apply Forall_cons in Hbytes as [Hb _].
    destruct (sextets_split a b 0 Ha Hb) as (H1 & H2 & _ & _ & _ & H3);
      [unfold isByte; lia|].
    cbn [base64Encode forallb]. by rewrite !Hsmall.
  - apply Forall_cons in Hbytes as [Ha Hbytes].
    apply Forall_cons in Hbytes as [Hb Hbytes].
    apply Forall_cons in Hbytes as [Hc Hbytes].
    destruct (sextets_split a b c Ha Hb Hc) as (H1 & H2 & H3 & H4 & _ & _).
    cbn [base64Encode forallb]. rewrite !Hsmall by assumption.
    by rewrite IH.
Qed.

Lemma bufferFromBase64_encode bs :
  Forall isByte bs -> bufferFromBase64 (base64Encode bs) = Some bs.
Proof.
  intros Hbytes. unfold bufferFromBase64.
  by rewrite base64Encode_small, base64_roundtrip.
Qed.


(** *** Strings *)

Lemma unhex_hexDigit v : 0 <= v < 16 -> unhex (hexDigit v) = Some v.
Proof.
  intros Hv. unfold hexDigit, unhex.
  destruct (Z.ltb_spec v 10); decide_tests; cbn; f_equal; lia.
Qed.

Lemma hex4_unicodeEscape u :
  0 <= u < 65536 ->
  hex4 (hexDigit (u / 4096)) (hexDigit (u / 256 mod 16))
    (hexDigit (u / 16 mod 16)) (hexDigit (u mod 16)) = Some u.
Proof.
  intros Hu. unfold hex4.
  rewrite !unhex_hexDigit by (Z.div_mod_to_equations; lia).
  f_equal.
  replace (u / 4096) with (u / 16 / 16 / 16)
    by (rewrite !Z.div_div by lia; reflexivity).
  replace (u / 256) with (u / 16 / 16)
    by (rewrite !Z.div_div by lia; reflexivity).
  Z.div_mod_to_equations; lia.
Qed.

Lemma parseString_raw u tail :
  u <> 34 -> u <> 92 -> 32 <= u ->
  parseString (u :: tail) = keep u (parseString tail).
Proof. intros H1 H2 H3. cbn [parseString]. decide_tests. reflexivity. Qed.

Lemma parseString_unicodeEscape u tail :
  0 <= u < 65536 ->
  parseString (unicodeEscape u ++ tail) = keep u (parseString tail).
Proof.
  intros Hu. unfold unicodeEscape. cbn [app parseString]. decide_tests.
  rewrite hex4_unicodeEscape by assumption. reflexivity.
Qed.

Lemma parseString_quoteUnit u tail :
  0 <= u < 65536 ->
  parseString (quoteUnit u ++ tail) = keep u (parseString tail).
Proof.
  intros Hu. unfold quoteUnit.
  destruct (Z.eqb_spec u 8) as [->|]; [reflexivity|].
  destruct (Z.eqb_spec u 9) as [->|]; [reflexivity|].
  destruct (Z.eqb_spec u 10) as [->|]; [reflexivity|].
  destruct (Z.eqb_spec u 12) as [->|]; [reflexivity|].
  destruct (Z.eqb_spec u 13) as [->|]; [reflexivity|].
  destruct (Z.eqb_spec u 34) as [->|]; [reflexivity|].
  destruct (Z.eqb_spec u 92) as [->|]; [reflexivity|].
  destruct (Z.ltb_spec u 32).
  - by apply parseString_unicodeEscape.
  - by apply parseString_raw.
Qed.

Lemma surrogate_is_raw u :
  isHighSurrogate u = true \/ isLowSurrogate u = true ->
  u <> 34 /\ u <> 92 /\ 32 <= u /\ 0 <= u < 65536.
Proof.
  unfold isHighSurrogate, isLowSurrogate.
  intros [H|H]; apply andb_true_iff in H as [H1 H2];
    apply Z.leb_le in H1, H2; lia.
Qed.

Lemma isCodeUnit_range u : isCodeUnit u = true -> 0 <= u < 65536.
Proof.
  unfold isCodeUnit. intros H. apply andb_true_iff in H as [H1 H2].
  apply Z.leb_le in H1. apply Z.ltb_lt in H2. lia.
Qed.

Lemma quoteBody_cons u rest :
  quoteBody (u :: rest)
  = if isHighSurrogate u then
      match rest with
      | l :: rest' =>
          if isLowSurrogate l then u :: l :: quoteBody rest'
          else unicodeEscape u ++ quoteBody rest
      | [] => unicodeEscape u
      end
    else if isLowSurrogate u then unicodeEscape u ++ quoteBody rest
    else quoteUnit u ++ quoteBody rest.
Proof. reflexivity. Qed.

(** Reading back the inside of a quoted string. *)
Lemma parseString_quoteBody s rest :
  forallb isCodeUnit s = true ->
  parseString (quoteBody s ++ 34 :: rest) = Some (s, rest).
Proof.
  remember (length s) as n eqn:Hn.
  revert s Hn. induction n as [n IH] using lt_wf_ind.
  intros [|u [|l s]] Hn Hunits.
  - reflexivity.
  - cbn in Hunits. rewrite andb_true_r in Hunits.
    apply isCodeUnit_range in Hunits.
    assert (parseString (34 :: rest) = Some ([], rest)) as Hend by reflexivity.
    cbn [quoteBody].
    destruct (isHighSurrogate u); [|destruct (isLowSurrogate u)];
      rewrite ?app_nil_r;
      rewrite ?parseString_unicodeEscape, ?parseString_quoteUnit by assumption;
      by rewrite Hend.
  - cbn [forallb] in Hunits.
    apply andb_true_iff in Hunits as [Hu Hunits].
    pose proof Hunits as Htail.
    cbn [forallb] in Hunits. apply andb_true_iff in Hunits as [Hl Hs].
    apply isCodeUnit_range in Hu. apply isCodeUnit_range in Hl.
    assert (parseString (quoteBody (l :: s) ++ 34 :: rest) = Some (l :: s, rest))
      as IH1 by (apply (IH (length (l :: s))); [subst n; cbn; lia | done | done]).
    assert (parseString (quoteBody s ++ 34 :: rest) = Some (s, rest))
      as IH2 by (apply (IH (length s)); [subst n; cbn; lia | done | done]).
    rewrite quoteBody_cons.
    destruct (isHighSurrogate u) eqn:Hhigh.
    + destruct (isLowSurrogate l) eqn:Hlow.
      * destruct (surrogate_is_raw u) as (? & ? & ? & _); [by left|].
        destruct (surrogate_is_raw l) as (? & ? & ? & _); [by right|].
        rewrite <- !app_comm_cons.
        rewrite !parseString_raw by assumption. by rewrite IH2.
      * rewrite <- app_assoc, parseString_unicodeEscape by assumption.
        by rewrite IH1.
    + destruct (isLowSurrogate u).
      * rewrite <- app_assoc, parseString_unicodeEscape by assumption.
        by rewrite IH1.
      * rewrite <- app_assoc, parseString_quoteUnit by assumption.
        by rewrite IH1.
Qed.

Lemma parseString_quote s rest :
  forallb isCodeUnit s = true ->
  exists tail, quote s ++ rest = 34 :: tail /\ parseString tail = Some (s, rest).
Proof.
  intros Hs. exists (quoteBody s ++ 34 :: rest). split.
  - unfold quote. cbn. by rewrite <- app_assoc.
  - by apply parseString_quoteBody.
Qed.

(** *** Numbers *)

Lemma readDigits_app ds rest acc :
  forallb isDigit ds = true -> delimited rest ->
  readDigits (ds ++ rest) acc = (valueOf ds acc, rest).
Proof.
  intros Hds Hrest. revert acc.
  induction ds as [|d ds IH]; intros acc.
  - destruct rest as [|c rest]; [reflexivity|]. cbn in *.
    unfold isDigit. destruct Hrest as [->| [->| ->]]; reflexivity.
  - cbn in Hds. apply andb_true_iff in Hds as [Hd Hds].
    cbn. rewrite Hd. by apply IH.
Qed.

Lemma digitsBefore_spec fuel n tail :
  0 < n < 2 ^ Z.of_nat fuel ->
  exists d ds,
    digitsBefore fuel n tail = d :: ds ++ tail
    /\ 49 <= d <= 57
    /\ forallb isDigit ds = true
    /\ valueOf ds (d - 48) = n.
Proof.
  revert n tail. induction fuel as [|fuel IH]; intros n tail Hn.
  - cbn in Hn. lia.
  - cbn [digitsBefore].
    destruct (Z.eqb_spec (n / 10) 0) as [Hlast|Hmore].
    + exists (48 + n mod 10), []. cbn.
      repeat split; Z.div_mod_to_equations; lia.
    + assert (0 < n / 10 < 2 ^ Z.of_nat fuel) as Hq.
      { rewrite Nat2Z.inj_succ, Z.pow_succ_r in Hn by lia.
        Z.div_mod_to_equations; lia. }
      destruct (IH (n / 10) ((48 + n mod 10) :: tail) Hq)
        as (d & ds & -> & Hd & Hds & Hvalue).
      exists d, (ds ++ [48 + n mod 10]).
      split; [by rewrite <- app_assoc|]. split; [exact Hd|]. split.
      * rewrite forallb_app, Hds. cbn. unfold isDigit.
        rewrite andb_true_r. apply andb_true_iff.
        split; [apply Z.leb_le | apply Z.leb_le]; Z.div_mod_to_equations; lia.
      * unfold valueOf in *. rewrite fold_left_app, Hvalue. cbn.
        Z.div_mod_to_equations; lia.
Qed.

Lemma digitsOf_spec n :
  0 < n ->
  exists d ds,
    digitsOf n = d :: ds
    /\ 49 <= d <= 57
    /\ forallb isDigit ds = true
    /\ valueOf ds (d - 48) = n.
Proof.
  intros Hn. unfold digitsOf.
  rewrite (proj2 (Z.eqb_neq n 0)) by lia.
  destruct (digitsBefore_spec (S (Z.to_nat (Z.log2 n))) n [])
    as (d & ds & Heq & H); [|exists d, ds; by rewrite Heq, app_nil_r].
  split; [lia|].
  rewrite Nat2Z.inj_succ, Z2Nat.id by apply Z.log2_nonneg.
  by apply Z.log2_spec.
Qed.

Lemma finishNumber_safe negative n rest :
  0 <= n < 2 ^ 53 -> delimited rest ->
  finishNumber negative n rest
  = Parsed (JNumber (if negative then - n else n)) rest.
Proof.
  intros Hn Hrest. unfold finishNumber.
  replace (n <? 2 ^ 53) with true by (symmetry; apply Z.ltb_lt; lia).
  destruct rest as [|c rest]; [reflexivity|].
  cbn in Hrest. destruct Hrest as [->| [->| ->]]; reflexivity.
Qed.

Lemma parseInteger_digitsOf negative n rest :
  0 <= n < 2 ^ 53 -> delimited rest ->
  parseInteger negative (digitsOf n ++ rest)
  = Parsed (JNumber (if negative then - n else n)) rest.
Proof.
  intros Hn Hrest.
  destruct (Z.eq_dec n 0) as [->|Hpos].
  - cbn [digitsOf Z.eqb app parseInteger].
    by apply (finishNumber_safe negative 0).
  - destruct (digitsOf_spec n) as (d & ds & -> & Hd & Hds & Hvalue); [lia|].
    rewrite <- app_comm_cons. unfold parseInteger.
    replace (d =? 48) with false by (symmetry; apply Z.eqb_neq; lia).
    replace (isDigit d) with true
      by (symmetry; unfold isDigit; apply andb_true_iff;
          split; apply Z.leb_le; lia).
    rewrite readDigits_app, Hvalue by assumption.
    by apply finishNumber_safe.
Qed.

(** The first character of a number, and the number read back. *)
Lemma parseNumber_numberToString z rest :
  - 2 ^ 53 < z < 2 ^ 53 -> delimited rest ->
  exists c tail,
    numberToString z ++ rest = c :: tail
    /\ (c = 45 \/ 48 <= c <= 57)
    /\ parseNumber (c :: tail) = Parsed (JNumber z) rest.
Proof.
  intros Hz Hrest. unfold numberToString.
  destruct (Z.ltb_spec z 0) as [Hneg|Hpos].
  - exists 45, (digitsOf (- z) ++ rest). split; [reflexivity|]. split; [by left|].
    cbn [parseNumber Z.eqb Pos.eqb].
    rewrite parseInteger_digitsOf by (assumption || lia).
    by rewrite Z.opp_involutive.
  - pose proof (parseInteger_digitsOf false z rest) as Hparse.
    destruct (Z.eq_dec z 0) as [->|Hnz].
    + exists 48, rest. split; [reflexivity|]. split; [right; lia|].
      apply Hparse; [lia|assumption].
    + destruct (digitsOf_spec z) as (d & ds & Heq & Hd & _); [lia|].
      rewrite Heq in *. exists d, (ds ++ rest).
      split; [reflexivity|]. split; [right; lia|].
      unfold parseNumber.
      replace (d =? 45) with false by (symmetry; apply Z.eqb_neq; lia).
      apply Hparse; [lia|assumption].
Qed.

(** *** Values *)

Lemma Json_nested_ind (P : Json -> Prop) :
  P JNull -> (forall b, P (JBool b)) -> (forall z, P (JNumber z)) ->
  (forall s, P (JString s)) ->
  (forall items, Forall P items -> P (JArray items)) ->
  (forall members, Forall (fun kv => P (snd kv)) members -> P (JObject members)) ->
  forall v, P v.
Proof.
  intros Hnull Hbool Hnum Hstr Harr Hobj. fix IH 1.
  intros [|b|z|s|items|members].
  - exact Hnull.
  - apply Hbool.
  - apply Hnum.
  - apply Hstr.
  - apply Harr. revert items. fix go 1.
    intros [|x items]; constructor; [apply IH | apply go].
  - apply Hobj. revert members. fix go 1.
    intros [|[k x] members]; constructor; [apply IH | apply go].
Qed.

(** A printed value starts with a character that is neither white
    space nor a closing bracket. *)
Lemma stringify_head v rest :
  exists c tail,
    stringify v ++ rest = c :: tail
    /\ isWhitespace c = false /\ c <> 93 /\ c <> 125.
Proof.
  destruct v as [|[]|z|s|items|members];
    try (eexists _, _; split; [reflexivity|]; repeat split; discriminate).
  cbn [stringify]. unfold numberToString.
  destruct (z <? 0) eqn:Hneg.
  - eexists _, _. split; [reflexivity|]. repeat split; discriminate.
  - apply Z.ltb_ge in Hneg.
    destruct (Z.eq_dec z 0) as [->|Hnz].
    + eexists _, _. split; [reflexivity|]. repeat split; discriminate.
    + destruct (digitsOf_spec z) as (d & ds & -> & Hd & _); [lia|].
      exists d, (ds ++ rest). split; [reflexivity|].
      unfold isWhitespace. decide_tests. repeat split; lia.
Qed.

Lemma skipWhitespace_stringify v rest :
  skipWhitespace (stringify v ++ rest) = stringify v ++ rest.
Proof.
  destruct (stringify_head v rest) as (c & tail & -> & Hws & _).
  cbn. by rewrite Hws.
Qed.

Lemma stringify_nonempty v : (1 <= length (stringify v))%nat.
Proof.
  destruct (stringify_head v []) as (c & tail & Heq & _).
  rewrite app_nil_r in Heq. rewrite Heq. cbn. lia.
Qed.

Lemma setMember_fresh key value members :
  key ∉ map fst members ->
  setMember key value members = members ++ [(key, value)].
Proof.
  induction members as [|[k v] members IH]; intros Hfresh; [reflexivity|].
  cbn in *. apply not_elem_of_cons in Hfresh as [Hne Hfresh].
  rewrite bool_decide_eq_false_2 by congruence. by rewrite IH.
Qed.

Lemma buildObject_distinct acc members :
  NoDup (map fst (acc ++ members)) ->
  fold_left (fun ms kv => setMember (fst kv) (snd kv) ms) members acc
  = acc ++ members.
Proof.
  revert acc. induction members as [|[k v] members IH]; intros acc Hnodup.
  - by rewrite app_nil_r.
  - cbn [fold_left fst snd].
    rewrite setMember_fresh.
    + rewrite IH; rewrite <- app_assoc; [reflexivity | exact Hnodup].
    + rewrite map_app in Hnodup. cbn in Hnodup.
      apply NoDup_app in Hnodup as (_ & Hdisjoint & _).
      intros Hin. apply (Hdisjoint k Hin). left.
Qed.

Lemma join_cons2 sep p q parts :
  join sep (p :: q :: parts) = p ++ sep ++ join sep (q :: parts).
Proof. reflexivity. Qed.

Lemma join_length_cons sep p parts :
  (length p <= length (join sep (p :: parts)))%nat.
Proof.
  destruct parts; cbn [join]; rewrite ?length_app; lia.
Qed.

Lemma parseElements_join items :
  items <> [] ->
  Forall reads_back items ->
  forallb representable items = true ->
  forall fuel rest,
    (length (join [44%Z] (map stringify items)) < fuel)%nat ->
    parseElements fuel (join [44] (map stringify items) ++ 93 :: rest)
    = Parsed items rest.
Proof.
  intros Hne Hall. induction Hall as [|x items Hx Hall IH]; [done|].
  intros Hrep fuel rest Hfuel.
  cbn [forallb] in Hrep. apply andb_true_iff in Hrep as [Hrepx Hrep].
  destruct fuel as [|fuel]; [lia|].
  destruct items as [|y items].
  - cbn [map join] in *. cbn [parseElements].
    rewrite (Hx Hrepx fuel (93 :: rest)) by (cbn; auto; lia).
    reflexivity.
  - change (map stringify (x :: y :: items))
      with (stringify x :: stringify y :: map stringify items) in *.
    rewrite join_cons2 in *. rewrite !length_app in Hfuel. cbn [length] in Hfuel.
    rewrite <- !app_assoc. cbn [parseElements app].
    rewrite (Hx Hrepx fuel (44 :: _)) by (cbn; auto; lia).
    cbn [skipWhitespace isWhitespace Z.eqb Pos.eqb orb].
    change (stringify y :: map stringify items) with (map stringify (y :: items)).
    rewrite IH; [reflexivity | done | exact Hrep | ].
    change (map stringify (y :: items))
      with (stringify y :: map stringify items). lia.
Qed.


Lemma printMember_shape k x tail :
  printMember (k, x) ++ tail
  = 34 :: quoteBody k ++ 34 :: 58 :: stringify x ++ tail.
Proof.
  unfold printMember, quote. cbn [fst snd].
  rewrite <- !app_comm_cons, <- !app_assoc. reflexivity.
Qed.

Lemma printMember_length k x :
  (length (stringify x) < length (printMember (k, x)))%nat.
Proof.
  unfold printMember, quote. cbn [fst snd].
  rewrite length_app. cbn [length]. lia.
Qed.

Lemma parseMembers_join members :
  members <> [] ->
  Forall (fun kv => reads_back (snd kv)) members ->
  forallb memberOk members = true ->
  forall fuel rest,
    (length (join [44%Z] (map printMember members)) < fuel)%nat ->
    parseMembers fuel (join [44] (map printMember members) ++ 125 :: rest)
    = Parsed members rest.
Proof.
  intros Hne Hall. induction Hall as [|[k x] members Hx Hall IH]; [done|].
  intros Hok fuel rest Hfuel.
  cbn [forallb] in Hok. apply andb_true_iff in Hok as [Hkx Hok].
  unfold memberOk in Hkx. cbn [fst snd] in Hkx, Hx.
  apply andb_true_iff in Hkx as [Hk Hrepx].
  apply andb_true_iff in Hk as [Hk _].
  destruct fuel as [|fuel]; [lia|].
  pose proof (printMember_length k x) as Hlen.
  destruct members as [|y members].
  - cbn [map join] in *. rewrite printMember_shape.
    cbn [parseMembers skipWhitespace isWhitespace Z.eqb Pos.eqb orb].
    rewrite parseString_quoteBody by exact Hk.
    cbn [skipWhitespace isWhitespace Z.eqb Pos.eqb orb].
    rewrite (Hx Hrepx fuel (125 :: rest)) by (cbn; auto; lia).
    reflexivity.
  - change (map printMember ((k, x) :: y :: members))
      with (printMember (k, x) :: printMember y :: map printMember members) in *.
    rewrite join_cons2 in *. rewrite !length_app in Hfuel. cbn [length] in Hfuel.
    rewrite <- !app_assoc. rewrite printMember_shape.
    cbn [parseMembers skipWhitespace isWhitespace Z.eqb Pos.eqb orb].
    rewrite parseString_quoteBody by exact Hk.
    cbn [skipWhitespace isWhitespace Z.eqb Pos.eqb orb app].
    rewrite (Hx Hrepx fuel (44 :: _)) by (cbn; auto; lia).
    cbn [skipWhitespace isWhitespace Z.eqb Pos.eqb orb].
    change (printMember y :: map printMember members)
      with (map printMember (y :: members)).
    rewrite IH; [reflexivity | done | exact Hok | ].
    change (map printMember (y :: members))
      with (printMember y :: map printMember members). lia.
Qed.

Lemma join_head sep p parts tail :
  exists tail', join sep (p :: parts) ++ tail = p ++ tail'.
Proof.
  destruct parts as [|q parts].
  - by exists tail.
  - rewrite join_cons2, <- !app_assoc. eauto.
Qed.

Lemma memberOk_not_numeric members :
  forallb memberOk members = true ->
  existsb (fun kv => numericKey (fst kv)) members = false.
Proof.
  induction members as [|kv members IH]; [reflexivity|].
  cbn. intros Hok. apply andb_true_iff in Hok as [Hkv Hok].
  unfold memberOk in Hkv.
  apply andb_true_iff in Hkv as [Hkv _]. apply andb_true_iff in Hkv as [_ Hkv].
  apply negb_true_iff in Hkv. by rewrite Hkv, IH.
Qed.

(** Every modelled value is read back from its text, whatever
    delimiter follows. *)
Lemma parseValue_stringify v : reads_back v.
Proof.
  induction v as [|b|z|s|items IH|members IH] using Json_nested_ind;
    intros Hrep fuel rest Hfuel Hrest;
    (destruct fuel as [|fuel];
     [match type of Hfuel with
      | (length (stringify ?w) <= _)%nat => pose proof (stringify_nonempty w)
      end; lia|]).
  - reflexivity.
  - destruct b; reflexivity.
  - cbn [representable] in Hrep. apply andb_true_iff in Hrep as [Hlow Hhigh].
    apply Z.ltb_lt in Hlow, Hhigh.
    destruct (parseNumber_numberToString z rest) as (c & tail & Heq & Hc & Hparse);
      [lia | exact Hrest |].
    cbn [stringify]. rewrite Heq. cbn [parseValue skipWhitespace].
    unfold isWhitespace.
    destruct Hc as [->|Hc]; [exact Hparse|].
    decide_tests. cbn [orb]. decide_tests. exact Hparse.
  - cbn [stringify representable] in *. unfold quote.
    rewrite <- app_comm_cons, <- app_assoc.
    cbn [parseValue skipWhitespace isWhitespace Z.eqb Pos.eqb orb app].
    by rewrite parseString_quoteBody.
  - cbn [stringify representable] in *.
    rewrite <- app_comm_cons, <- app_assoc.
    cbn [parseValue skipWhitespace isWhitespace Z.eqb Pos.eqb orb app].
    destruct items as [|x items]; [reflexivity|].
    destruct (join_head [44] (stringify x) (map stringify items) (93 :: rest))
      as (tail' & Hhead).
    destruct (stringify_head x tail') as (c & tail & Hc & Hws & Hc93 & _).
    change (map stringify (x :: items)) with (stringify x :: map stringify items).
    rewrite Hhead, Hc. cbn [skipWhitespace startsWith]. rewrite Hws.
    cbn [startsWith].
    replace (c =? 93) with false by (symmetry; by apply Z.eqb_neq).
    rewrite <- Hc, <- Hhead.
    change (stringify x :: map stringify items) with (map stringify (x :: items)).
    rewrite parseElements_join; [reflexivity | done | exact IH | exact Hrep |].
    cbn [length] in Hfuel. rewrite length_app in Hfuel. cbn [length] in Hfuel. lia.
  - cbn [stringify representable] in *.
    apply andb_true_iff in Hrep as [Hnodup Hok].
    apply bool_decide_eq_true in Hnodup.
    rewrite <- app_comm_cons, <- app_assoc.
    cbn [parseValue skipWhitespace isWhitespace Z.eqb Pos.eqb orb app].
    destruct members as [|[k x] members]; [reflexivity|].
    fold printMember in *. fold memberOk in Hok.
    change (map printMember ((k, x) :: members))
      with (printMember (k, x) :: map printMember members) in *.
    destruct (join_head [44] (printMember (k, x)) (map printMember members)
                (125 :: rest)) as (tail' & Hhead).
    rewrite Hhead, printMember_shape.
    cbn [skipWhitespace isWhitespace Z.eqb Pos.eqb orb startsWith].
    rewrite <- printMember_shape, <- Hhead.
    change (printMember (k, x) :: map printMember members)
      with (map printMember ((k, x) :: members)) in *.
    rewrite parseMembers_join; [| done | exact IH | exact Hok |].
    + rewrite memberOk_not_numeric by exact Hok.
      unfold buildObject.
      rewrite (buildObject_distinct [] _ Hnodup). reflexivity.
    + cbn [length] in Hfuel. rewrite length_app in Hfuel. cbn [length] in Hfuel. lia.
Qed.

(** [JSON.parse(JSON.stringify(v))] is [v] on the modelled values. *)
Lemma parse_stringify v :
  representable v = true -> parse (stringify v) = Parsed v [].
Proof.
  intros Hrep. unfold parse.
  pose proof (parseValue_stringify v Hrep
                (2 * length (stringify v) + 2)%nat []) as H.
  rewrite app_nil_r in H. rewrite H; [reflexivity | lia | exact I].
Qed.

(** *** The text of a value is a well-formed string *)

Lemma wellFormed_app a b : wellFormed a -> wellFormed b -> wellFormed (a ++ b).
Proof.
  induction 1 as [|u rest Hu Hh Hl _ IH|h l rest Hh Hl _ IH]; intros Hb; cbn.
  - assumption.
  - apply wellFormed_unit; auto.
  - apply wellFormed_pair; auto.
Qed.

Lemma wellFormed_plain l : forallb plain l = true -> wellFormed l.
Proof.
  induction l as [|u l IH]; [constructor|].
  cbn. intros H. apply andb_true_iff in H as [Hu Hl].
  unfold plain in Hu. apply andb_true_iff in Hu as [H1 H2].
  apply Z.leb_le in H1. apply Z.ltb_lt in H2.
  constructor; [lia | | | by apply IH];
    unfold isHighSurrogate, isLowSurrogate; decide_tests; reflexivity.
Qed.

Lemma isDigit_plain ds : forallb isDigit ds = true -> forallb plain ds = true.
Proof.
  induction ds as [|d ds IH]; [reflexivity|].
  cbn. intros H. apply andb_true_iff in H as [Hd Hds].
  rewrite IH by assumption. rewrite andb_true_r.
  unfold isDigit in Hd. apply andb_true_iff in Hd as [H1 H2].
  apply Z.leb_le in H1, H2. unfold plain. by decide_tests.
Qed.

Lemma numberToString_wellFormed z : wellFormed (numberToString z).
Proof.
  assert (forall n, 0 <= n -> forallb plain (digitsOf n) = true) as Hdigits.
  { intros n Hn. destruct (Z.eq_dec n 0) as [->|Hnz]; [reflexivity|].
    destruct (digitsOf_spec n) as (d & ds & -> & Hd & Hds & _); [lia|].
    cbn. rewrite (isDigit_plain ds Hds), andb_true_r.
    unfold plain. by decide_tests. }
  apply wellFormed_plain. unfold numberToString.
  destruct (Z.ltb_spec z 0); [cbn|]; apply Hdigits; lia.
Qed.

Lemma unicodeEscape_wellFormed u : 0 <= u < 65536 -> wellFormed (unicodeEscape u).
Proof.
  intros Hu. apply wellFormed_plain. unfold unicodeEscape. cbn.
  assert (forall v, 0 <= v < 16 -> plain (hexDigit v) = true) as Hhex.
  { intros v Hv. unfold hexDigit, plain.
    destruct (Z.ltb_spec v 10); by decide_tests. }
  rewrite !Hhex by (Z.div_mod_to_equations; lia). reflexivity.
Qed.

Lemma quoteUnit_wellFormed u :
  0 <= u < 65536 -> isHighSurrogate u = false -> isLowSurrogate u = false ->
  wellFormed (quoteUnit u).
Proof.
  intros Hu Hh Hl. unfold quoteUnit.
  repeat (case_match; [apply wellFormed_plain; reflexivity|]).
  case_match; [by apply unicodeEscape_wellFormed|].
  constructor; [assumption..|constructor].
Qed.

Lemma quoteBody_wellFormed s :
  forallb isCodeUnit s = true -> wellFormed (quoteBody s).
Proof.
  remember (length s) as n eqn:Hn.
  revert s Hn. induction n as [n IH] using lt_wf_ind.
  intros [|u s] Hn Hunits; [constructor|].
  cbn [forallb] in Hunits. apply andb_true_iff in Hunits as [Hu Hs].
  apply isCodeUnit_range in Hu.
  assert (wellFormed (quoteBody s)) as IH1
    by (apply (IH (length s)); [subst n; cbn; lia | done | done]).
  rewrite quoteBody_cons.
  destruct (isHighSurrogate u) eqn:Hhigh.
  - destruct s as [|l s]; [by apply unicodeEscape_wellFormed|].
    destruct (isLowSurrogate l) eqn:Hlow.
    + apply wellFormed_pair; [assumption..|].
      cbn [forallb] in Hs. apply andb_true_iff in Hs as [_ Hs].
      apply (IH (length s)); [subst n; cbn; lia | done | done].
    + apply wellFormed_app; [by apply unicodeEscape_wellFormed | exact IH1].
  - destruct (isLowSurrogate u) eqn:Hlow.
    + apply wellFormed_app; [by apply unicodeEscape_wellFormed | exact IH1].
    + apply wellFormed_app; [by apply quoteUnit_wellFormed | exact IH1].
Qed.

Lemma quote_wellFormed s :
  forallb isCodeUnit s = true -> wellFormed (quote s).
Proof.
  intros Hs. unfold quote.
  apply (wellFormed_app [34]); [by apply wellFormed_plain|].
  apply wellFormed_app; [by apply quoteBody_wellFormed | by apply wellFormed_plain].
Qed.

Lemma join_wellFormed parts :
  Forall wellFormed parts -> wellFormed (join [44] parts).
Proof.
  induction 1 as [|p parts Hp Hparts IH]; [constructor|].
  destruct parts as [|q parts]; [exact Hp|].
  rewrite join_cons2.
  apply wellFormed_app; [exact Hp|].
  apply wellFormed_app; [by apply wellFormed_plain | exact IH].
Qed.

Lemma stringify_wellFormed v :
  representable v = true -> wellFormed (stringify v).
Proof.
  induction v as [|b|z|s|items IH|members IH] using Json_nested_ind;
    intros Hrep; cbn [stringify representable] in *.
  - by apply wellFormed_plain.
  - destruct b; by apply wellFormed_plain.
  - apply numberToString_wellFormed.
  - by apply quote_wellFormed.
  - apply (wellFormed_app [91]); [by apply wellFormed_plain|].
    apply wellFormed_app; [|by apply wellFormed_plain].
    apply join_wellFormed.
    induction IH as [|x items Hx _ IHitems]; [constructor|].
    cbn in Hrep. apply andb_true_iff in Hrep as [Hrepx Hrep].
    constructor; auto.
  - apply andb_true_iff in Hrep as [_ Hok].
    apply (wellFormed_app [123]); [by apply wellFormed_plain|].
    apply wellFormed_app; [|by apply wellFormed_plain].
    apply join_wellFormed.
    induction IH as [|[k x] members Hx _ IHmembers]; [constructor|].
    cbn in Hok. apply andb_true_iff in Hok as [Hkx Hok].
    apply andb_true_iff in Hkx as [Hk Hrepx].
    apply andb_true_iff in Hk as [Hk _].
    constructor; [|auto]. cbn [fst snd].
    apply wellFormed_app; [by apply quote_wellFormed|].
    apply (wellFormed_app [58]); [by apply wellFormed_plain | auto].
Qed.

End NodeFacts.

(** ** The cursor codec *)

Module NodeExamples.

Import Node.

Example base64_of_text :
  base64Encode (utf8Encode (chars "hello world")) = chars "aGVsbG8gd29ybGQ=".
Proof. vm_compute. reflexivity. Qed.

Example base64_url_alphabet : base64Decode (chars "-_-_") = [251; 255; 191].
Proof. vm_compute. reflexivity. Qed.

(** U+00E9, U+20AC and the pair for U+1F600. *)
Example utf8_of_units :
  utf8Encode [233; 8364; 55357; 56832]
  = [195; 169; 226; 130; 172; 240; 159; 152; 128].
Proof. vm_compute. reflexivity. Qed.

(** An overlong sequence and a stray continuation byte are replaced. *)
Example utf8_ill_formed : utf8Decode [192; 175; 65; 128] = [65533; 65533; 65; 65533].
Proof. vm_compute. reflexivity. Qed.

Example stringify_escapes :
  stringify (JArray [JString [34; 10; 1; 55357]; JNumber (-120); JNull])
  = chars "[" ++ [34; 92; 34; 92; 110] ++ chars "\u0001\ud83d"
      ++ [34] ++ chars ",-120,null]".
Proof. vm_compute. reflexivity. Qed.

Example parse_later_key_wins :
  parse ([123; 34; 97; 34; 58] ++ chars "1," ++ [34; 98; 34; 58]
           ++ chars "[true], " ++ [34; 97; 34; 58] ++ chars "2 }")
  = Parsed (JObject [([97], JNumber 2); ([98], JArray [JBool true])]) [].
Proof. vm_compute. reflexivity. Qed.

Example parse_rejects_trailing_comma : parse (chars "[1,]") = SyntaxError.
Proof. vm_compute. reflexivity. Qed.

Example parse_leaves_fractions_out : parse (chars "1.5") = Unmodelled.
Proof. vm_compute. reflexivity. Qed.

End NodeExamples.

Module PaginationFacts.

Import Node PaginationUtils.

(** C3.  For every key in the modelled JSON values (null, booleans,
    safe integers, strings, arrays, objects with distinct keys not made
    of digits), [encodeCursor] returns a cursor and [decodeCursor] of
    that cursor returns the very same value. *)
Theorem cursor_roundtrip (k : Json) :
  representable k = true ->
  exists cursor,
    encodeCursor k = Ok cursor /\ decodeCursor cursor = Some (Ok k).
Proof.
  intros Hrep. eexists. split; [reflexivity|].
  pose proof (NodeFacts.stringify_wellFormed k Hrep) as Hwf.
  unfold decodeCursor.
  rewrite NodeFacts.bufferFromBase64_encode
    by (by apply NodeFacts.utf8Encode_bytes).
  cbn zeta. rewrite NodeFacts.utf8_roundtrip by exact Hwf.
  by rewrite NodeFacts.parse_stringify.
Qed.

Lemma cursor_roundtrip_witness :
  exists cursor,
    encodeCursor Sample.lastSeen = Ok cursor
    /\ decodeCursor cursor = Some (Ok Sample.lastSeen).
Proof.
  apply (cursor_roundtrip Sample.lastSeen). vm_compute. reflexivity.
Defined.

(** C9, evaluated.  The cursor of the empty key is [e30=].  The string
    [e!30] is not base64, yet it decodes to the empty key: the decoder
    skips [!].  Text after the padding is ignored, and a character
    inserted into the cursor of [{"id": "004"}] leaves its key intact. *)
Theorem malformed_cursor_is_accepted :
  encodeCursor (JObject []) = Ok (chars "e30=")
  /\ decodeCursor (chars "e!30") = Some (Ok (JObject []))
  /\ decodeCursor (chars "e30=#tampered") = Some (Ok (JObject []))
  /\ encodeCursor (JObject [(chars "id", JString (chars "004"))])
     = Ok (chars "eyJpZCI6IjAwNCJ9")
  /\ decodeCursor (chars "eyJp*ZCI6IjAwNCJ9")
     = Some (Ok (JObject [(chars "id", JString (chars "004"))])).
Proof. repeat split; vm_compute; reflexivity. Qed.

End PaginationFacts.

Module PlannerFacts.

Import QueryBuilder Chain.

Lemma convertPrimaryKeys_fold (primaryKeys : gmap string JsValue) cols acc :
  fold_left
    (fun tablestorePrimaryKey column =>
       let value := get primaryKeys (propertyName column) in
       if isBound value
       then tablestorePrimaryKey
              ++ [(propertyName column, convertValueToTablestore value column)]
       else tablestorePrimaryKey)
    cols acc
  = acc ++ map (fun column =>
                  (propertyName column,
                   convertValueToTablestore
                     (get primaryKeys (propertyName column)) column))
             (List.filter
                (fun column => isBound (get primaryKeys (propertyName column)))
                cols).
Proof.
  revert acc. induction cols as [|column cols IH]; intros acc; simpl.
  - by rewrite app_nil_r.
  - destruct (isBound (get primaryKeys (propertyName column))); rewrite IH.
    + simpl. by rewrite <- app_assoc.
    + reflexivity.
Qed.

(** X1.  A predicate that has every primary-key name among its keys is
    answered by one [getRow], also when some of these keys hold [null]
    or [undefined]: the key sent lists the primary columns that have a
    value, in schema order, and leaves the others out. *)
Theorem point_lookup_key_skips_unbound_columns
    (client : Client) (conv : Row -> EntityMetadata -> Entity) (qb : t) :
  isExactPrimaryKeyQuery qb = true ->
  exists params,
    fst (snd (executeQuery client conv qb)) = [GetRow params]
    /\ getRow_tableName params = tableName (metadata qb)
    /\ getRow_primaryKey params
       = map (fun column =>
                (propertyName column,
                 convertValueToTablestore
                   (get (_where qb) (propertyName column)) column))
           (List.filter
              (fun column => isBound (get (_where qb) (propertyName column)))
              (primaryColumns (metadata qb))).
Proof.
  intros Hexact. exists (getRowParams qb).
  unfold executeQuery. rewrite Hexact. split; [reflexivity|].
  split; [reflexivity|].
  unfold getRowParams, convertPrimaryKeysToTablestore. cbn.
  by rewrite convertPrimaryKeys_fold.
Qed.

(** The predicate [{category: "electronics", id: null}] on [product]:
    a [getRow] on the key [(category)] alone. *)
Lemma point_lookup_key_witness :
  exists params,
    fst (snd (executeQuery Sample.emptyStore Sample.decodeRow Cases.nullId))
    = [GetRow params]
    /\ getRow_tableName params = "products"
    /\ getRow_primaryKey params
       = [("category", Plain (VString "electronics"))].
Proof.
  destruct (point_lookup_key_skips_unbound_columns
              Sample.emptyStore Sample.decodeRow Cases.nullId)
    as (params & Hlog & Htable & Hkey).
  - vm_compute. reflexivity.
  - exists params. split; [exact Hlog|]. split; [exact Htable|].
    rewrite Hkey. vm_compute. reflexivity.
Defined.

Lemma hasKey_empty name : hasKey ∅ name = false.
Proof.
  unfold hasKey. apply bool_decide_eq_false. rewrite lookup_empty.
  by intros [? ?].
Qed.

Lemma existsb_hasKey_empty names :
  existsb (fun pkName => hasKey ∅ pkName) names = false.
Proof.
  induction names as [|name names IH]; [reflexivity|].
  cbn. by rewrite hasKey_empty.
Qed.

Lemma convertPartial_fields qb :
  metadata (convertPartialPrimaryKeyToRange qb) = metadata qb
  /\ _where (convertPartialPrimaryKeyToRange qb) = ∅
  /\ is_Some (_startPrimaryKey (convertPartialPrimaryKeyToRange qb))
  /\ is_Some (_endPrimaryKey (convertPartialPrimaryKeyToRange qb)).
Proof.
  unfold convertPartialPrimaryKeyToRange.
  destruct (_startPrimaryKey qb) eqn:Hs, (_endPrimaryKey qb) eqn:He;
    cbn; rewrite ?Hs, ?He; cbn; eauto 10.
Qed.

Lemma partial_is_not_exact qb :
  isPartialPrimaryKeyQuery qb = true -> isExactPrimaryKeyQuery qb = false.
Proof.
  unfold isPartialPrimaryKeyQuery, isExactPrimaryKeyQuery. cbn.
  intros H. apply andb_true_iff in H as [_ H].
  by apply negb_true_iff in H.
Qed.

(** The builder the range path ends up with is on the range path and
    needs no further completion. *)
Lemma rangeBuilder_settled qb :
  isExactPrimaryKeyQuery qb = false ->
  isExactPrimaryKeyQuery (rangeBuilder qb) = false
  /\ isPartialPrimaryKeyQuery (rangeBuilder qb) = false.
Proof.
  intros Hexact. unfold rangeBuilder.
  destruct (isPartialPrimaryKeyQuery qb) eqn:Hpartial.
  - destruct (convertPartial_fields qb) as (Hmd & Hw & _).
    unfold isPartialPrimaryKeyQuery, isExactPrimaryKeyQuery in *.
    rewrite Hmd, Hw. cbn in *.
    destruct (map propertyName (primaryColumns (metadata qb))) as [|name names].
    + discriminate.
    + cbn. by rewrite hasKey_empty, existsb_hasKey_empty.
  - done.
Qed.

(** What a run sends and how it leaves the builder do not depend on
    what the store answers. *)
Lemma executeQuery_request client conv qb :
  fst (executeQuery client conv qb)
  = (if isExactPrimaryKeyQuery qb then qb else rangeBuilder qb)
  /\ fst (snd (executeQuery client conv qb))
     = [if isExactPrimaryKeyQuery qb then GetRow (getRowParams qb)
        else GetRange (getRangeParams (rangeBuilder qb))].
Proof.
  destruct (isExactPrimaryKeyQuery qb) eqn:Hexact.
  - unfold executeQuery. by rewrite Hexact.
  - by rewrite (QueryBuilderFacts.executeQuery_range client conv qb Hexact).
Qed.

(** X2.  Running a builder a second time, as the first run left it,
    sends the same request as the first run and leaves the builder as the
    first run left it, on the point path as on the range path, whatever
    the store answered the first time and answers the second time. *)
Theorem executeQuery_is_repeatable
    (client client' : Client) (conv conv' : Row -> EntityMetadata -> Entity)
    (qb : t) :
  fst (snd (executeQuery client' conv' (fst (executeQuery client conv qb))))
  = fst (snd (executeQuery client conv qb))
  /\ fst (executeQuery client' conv' (fst (executeQuery client conv qb)))
     = fst (executeQuery client conv qb).
Proof.
  destruct (executeQuery_request client conv qb) as [Hleft Hsent].
  destruct (executeQuery_request client' conv' (fst (executeQuery client conv qb)))
    as [Hleft' Hsent'].
  rewrite Hsent', Hleft', Hsent, Hleft.
  destruct (isExactPrimaryKeyQuery qb) eqn:Hexact.
  - by rewrite Hexact.
  - destruct (rangeBuilder_settled qb Hexact) as [Hexact' Hpartial'].
    assert (rangeBuilder (rangeBuilder qb) = rangeBuilder qb) as Hagain
      by (unfold rangeBuilder at 1; by rewrite Hpartial').
    by rewrite Hexact', Hagain.
Qed.

Lemma rangeBuilder_start qb s :
  _startPrimaryKey qb = Some s -> _startPrimaryKey (rangeBuilder qb) = Some s.
Proof.
  intros Hs. unfold rangeBuilder, convertPartialPrimaryKeyToRange.
  destruct (isPartialPrimaryKeyQuery qb); [|done].
  rewrite Hs. by destruct (_endPrimaryKey qb) eqn:He; cbn; rewrite ?He.
Qed.

Lemma rangeBuilder_end qb e :
  _endPrimaryKey qb = Some e -> _endPrimaryKey (rangeBuilder qb) = Some e.
Proof.
  intros He. unfold rangeBuilder, convertPartialPrimaryKeyToRange.
  destruct (isPartialPrimaryKeyQuery qb); [|done].
  by destruct (_startPrimaryKey qb) eqn:Hs; cbn; rewrite He.
Qed.

Lemma getRangeParams_start qb s :
  _startPrimaryKey qb = Some s ->
  inclusiveStartPrimaryKey (getRangeParams qb) = s.
Proof.
  intros Hs. unfold getRangeParams.
  by destruct (getDirection qb); cbn; rewrite Hs.
Qed.

Lemma getRangeParams_end qb e :
  _endPrimaryKey qb = Some e ->
  exclusiveEndPrimaryKey (getRangeParams qb) = e.
Proof.
  intros He. unfold getRangeParams.
  by destruct (getDirection qb); cbn; rewrite He.
Qed.

Lemma range_request_boundaries client conv qb :
  isExactPrimaryKeyQuery qb = false ->
  exists params,
    fst (snd (executeQuery client conv qb)) = [GetRange params]
    /\ (forall s, _startPrimaryKey qb = Some s ->
          inclusiveStartPrimaryKey params = s)
    /\ (forall e, _endPrimaryKey qb = Some e ->
          exclusiveEndPrimaryKey params = e).
Proof.
  intros Hexact. exists (getRangeParams (rangeBuilder qb)).
  rewrite QueryBuilderFacts.executeQuery_range by assumption.
  split; [reflexivity|]. split.
  - intros s Hs. by apply getRangeParams_start, rangeBuilder_start.
  - intros e He. by apply getRangeParams_end, rangeBuilder_end.
Qed.

(** X3.  On the range path a boundary set with [startWith] or
    [endWith] is the one sent: the predicate does not replace it, and
    the order of the scan does not swap it. *)
Theorem boundaries_set_by_hand_are_sent_unchanged
    (client : Client) (conv : Row -> EntityMetadata -> Entity) (qb : t) :
  isExactPrimaryKeyQuery qb = false ->
  exists params,
    fst (snd (executeQuery client conv qb)) = [GetRange params]
    /\ (forall s, _startPrimaryKey qb = Some s ->
          inclusiveStartPrimaryKey params = s)
    /\ (forall e, _endPrimaryKey qb = Some e ->
          exclusiveEndPrimaryKey params = e).
Proof. apply range_request_boundaries. Qed.

(** A scan resumed at [(electronics, 007)] under the predicate
    [{category: "books"}]: the start key is the one set by hand. *)
Lemma boundaries_set_by_hand_witness :
  exists params,
    fst (snd (executeQuery Sample.emptyStore Sample.decodeRow Cases.resumed))
    = [GetRange params]
    /\ inclusiveStartPrimaryKey params
       = [("category", Plain (VString "electronics"));
          ("id", Plain (VString "007"))]
    /\ exclusiveEndPrimaryKey params
       = [("category", Plain (VString "books")); ("id", INF_MAX)].
Proof.
  destruct (boundaries_set_by_hand_are_sent_unchanged
              Sample.emptyStore Sample.decodeRow Cases.resumed)
    as (params & Hlog & Hstart & _).
  - vm_compute. reflexivity.
  - exists params. split; [exact Hlog|]. split.
    + apply Hstart. vm_compute. reflexivity.
    + vm_compute in Hlog. injection Hlog as <-. reflexivity.
Defined.

(** X4.  A builder that has run a query on part of the key keeps the
    two boundaries it computed: run again under another predicate, it
    scans the range of the first one. *)
Theorem boundaries_of_a_partial_query_stay_on_the_builder
    (client : Client) (conv : Row -> EntityMetadata -> Entity) (qb : t)
    (condition : gmap string JsValue) :
  isPartialPrimaryKeyQuery qb = true ->
  isExactPrimaryKeyQuery (where_ condition qb) = false ->
  exists first again,
    fst (snd (executeQuery client conv qb)) = [GetRange first]
    /\ fst (snd (executeQuery client conv
                   (where_ condition (fst (executeQuery client conv qb)))))
       = [GetRange again]
    /\ inclusiveStartPrimaryKey again = inclusiveStartPrimaryKey first
    /\ exclusiveEndPrimaryKey again = exclusiveEndPrimaryKey first.
Proof.
  intros Hpartial Hexact'.
  pose proof (partial_is_not_exact qb Hpartial) as Hexact.
  rewrite (QueryBuilderFacts.executeQuery_range client conv qb Hexact).
  cbn [fst snd].
  unfold rangeBuilder. rewrite Hpartial.
  destruct (convertPartial_fields qb) as (Hmd & _ & [s Hs] & [e He]).
  set (qb1 := convertPartialPrimaryKeyToRange qb) in *.
  assert (isExactPrimaryKeyQuery (where_ condition qb1) = false) as Hexact1.
  { unfold isExactPrimaryKeyQuery in *. cbn in *. by rewrite Hmd. }
  destruct (range_request_boundaries client conv (where_ condition qb1)
              Hexact1) as (again & Hlog & Hstart & Hend).
  exists (getRangeParams qb1), again.
  split; [reflexivity|]. split; [exact Hlog|].
  rewrite (getRangeParams_start qb1 s Hs), (getRangeParams_end qb1 e He).
  split; [by apply Hstart | by apply Hend].
Qed.

(** The scan of [electronics], newest first, run and then asked for
    [books]. *)
Lemma boundaries_stay_witness :
  exists first again,
    fst (snd (executeQuery Sample.emptyStore Sample.decodeRow
                Sample.electronicsDesc)) = [GetRange first]
    /\ fst (snd (executeQuery Sample.emptyStore Sample.decodeRow
                   (where_ {[ "category" := VString "books" ]}
                      (fst (executeQuery Sample.emptyStore Sample.decodeRow
                              Sample.electronicsDesc)))))
       = [GetRange again]
    /\ inclusiveStartPrimaryKey again = inclusiveStartPrimaryKey first
    /\ exclusiveEndPrimaryKey again = exclusiveEndPrimaryKey first.
Proof.
  apply (boundaries_of_a_partial_query_stay_on_the_builder
           Sample.emptyStore Sample.decodeRow Sample.electronicsDesc
           {[ "category" := VString "books" ]});
    vm_compute; reflexivity.
Defined.

(** A boundary the builder computes names the primary columns, once
    each and in schema order. *)
Lemma autoComplete_names md partialKeys isStart direction :
  map fst (autoCompletePartialPrimaryKey md partialKeys isStart direction)
  = primaryKeyNames md.
Proof.
  rewrite QueryBuilderFacts.autoComplete_map, map_map.
  unfold primaryKeyNames. apply map_ext. reflexivity.
Qed.

Lemma buildMin_names md : map fst (buildMinPrimaryKey md) = primaryKeyNames md.
Proof. unfold buildMinPrimaryKey. rewrite map_map. reflexivity. Qed.

Lemma buildMax_names md : map fst (buildMaxPrimaryKey md) = primaryKeyNames md.
Proof. unfold buildMaxPrimaryKey. rewrite map_map. reflexivity. Qed.

Lemma call_keeps_keys md m qb :
  metadata qb = md ->
  (forall s, _startPrimaryKey qb = Some s -> map fst s = primaryKeyNames md) ->
  (forall e, _endPrimaryKey qb = Some e -> map fst e = primaryKeyNames md) ->
  metadata (call m qb) = md
  /\ (forall s, _startPrimaryKey (call m qb) = Some s ->
        map fst s = primaryKeyNames md)
  /\ (forall e, _endPrimaryKey (call m qb) = Some e ->
        map fst e = primaryKeyNames md).
Proof.
  intros Hmd Hs He.
  destruct m; cbn [call]; try done.
  - unfold orderBy. by destruct (primaryColumns (metadata qb)).
  - repeat case_bool_decide; try done;
      unfold orderBy; by destruct (primaryColumns (metadata qb)).
  - split; [done|]. split; [|done].
    intros s [= <-]. rewrite Hmd. apply autoComplete_names.
  - split; [done|]. split; [done|].
    intros e [= <-]. rewrite Hmd. apply autoComplete_names.
Qed.

Lemma chain_keeps_keys md ms qb :
  metadata qb = md ->
  (forall s, _startPrimaryKey qb = Some s -> map fst s = primaryKeyNames md) ->
  (forall e, _endPrimaryKey qb = Some e -> map fst e = primaryKeyNames md) ->
  metadata (chain ms qb) = md
  /\ (forall s, _startPrimaryKey (chain ms qb) = Some s ->
        map fst s = primaryKeyNames md)
  /\ (forall e, _endPrimaryKey (chain ms qb) = Some e ->
        map fst e = primaryKeyNames md).
Proof.
  revert qb. induction ms as [|m ms IH]; intros qb Hmd Hs He; [done|].
  cbn. destruct (call_keeps_keys md m qb Hmd Hs He) as (Hmd' & Hs' & He').
  by apply IH.
Qed.

Lemma rangeBuilder_keeps_keys md qb :
  metadata qb = md ->
  (forall s, _startPrimaryKey qb = Some s -> map fst s = primaryKeyNames md) ->
  (forall e, _endPrimaryKey qb = Some e -> map fst e = primaryKeyNames md) ->
  metadata (rangeBuilder qb) = md
  /\ (forall s, _startPrimaryKey (rangeBuilder qb) = Some s ->
        map fst s = primaryKeyNames md)
  /\ (forall e, _endPrimaryKey (rangeBuilder qb) = Some e ->
        map fst e = primaryKeyNames md).
Proof.
  intros Hmd Hs He. unfold rangeBuilder, convertPartialPrimaryKeyToRange.
  destruct (isPartialPrimaryKeyQuery qb); [|done].
  destruct (_startPrimaryKey qb) eqn:Es, (_endPrimaryKey qb) eqn:Ee;
    cbn; rewrite ?Es, ?Ee; cbn; rewrite ?Es, ?Ee;
    (split; [done|]); split; intros k [= <-];
    rewrite ?Hmd; auto using autoComplete_names.
Qed.

(** X5.  Whatever chain of builder calls precedes the run, a range
    request names the table of the entity, and each of its two keys
    names every primary column, once and in schema order. *)
Theorem range_keys_name_every_primary_column
    (client : Client) (conv : Row -> EntityMetadata -> Entity)
    (md : EntityMetadata) (ms : list Method) :
  isExactPrimaryKeyQuery (chain ms (create md)) = false ->
  exists params,
    fst (snd (executeQuery client conv (chain ms (create md))))
    = [GetRange params]
    /\ getRange_tableName params = tableName md
    /\ map fst (inclusiveStartPrimaryKey params) = primaryKeyNames md
    /\ map fst (exclusiveEndPrimaryKey params) = primaryKeyNames md.
Proof.
  intros Hexact.
  destruct (chain_keeps_keys md ms (create md)) as (Hmd & Hs & He); try done.
  destruct (rangeBuilder_keeps_keys md _ Hmd Hs He) as (Hmd' & Hs' & He').
  exists (getRangeParams (rangeBuilder (chain ms (create md)))).
  rewrite QueryBuilderFacts.executeQuery_range by assumption.
  split; [reflexivity|].
  set (qb := rangeBuilder (chain ms (create md))) in *.
  unfold getRangeParams.
  destruct (getDirection qb); cbn; rewrite Hmd';
    (split; [reflexivity|]);
    destruct (_startPrimaryKey qb) eqn:Es, (_endPrimaryKey qb) eqn:Ee; cbn;
    auto using buildMin_names, buildMax_names.
Qed.

(** [where({category}).orderBy('DESC').startWith({}).limit(3)] on
    [product]. *)
Lemma range_keys_witness :
  exists params,
    fst (snd (executeQuery Sample.emptyStore Sample.decodeRow
                (chain [Where {[ "category" := VString "electronics" ]};
                        OrderBy DESC; StartWith ∅; Limit (NInt 3)]
                   (create Sample.product))))
    = [GetRange params]
    /\ getRange_tableName params = "products"
    /\ map fst (inclusiveStartPrimaryKey params) = ["category"; "id"]
    /\ map fst (exclusiveEndPrimaryKey params) = ["category"; "id"].
Proof.
  apply (range_keys_name_every_primary_column
           Sample.emptyStore Sample.decodeRow Sample.product
           [Where {[ "category" := VString "electronics" ]};
            OrderBy DESC; StartWith ∅; Limit (NInt 3)]).
  vm_compute. reflexivity.
Defined.

(** X6.  [getOne] overwrites the limit of the builder with 1 and
    leaves it there; on the range path the request asks for one row, and
    the entity returned is the first of those the run produced. *)
Theorem getOne_leaves_limit_one
    (client : Client) (conv : Row -> EntityMetadata -> Entity) (qb : t) :
  _limit (fst (getOne client conv qb)) = Some (NInt 1)
  /\ (isExactPrimaryKeyQuery qb = false ->
      exists params,
        fst (snd (getOne client conv qb)) = [GetRange params]
        /\ getRange_limit params = NInt 1)
  /\ snd (snd (getOne client conv qb))
     = (try! r := snd (snd (executeQuery client conv (limit (NInt 1) qb))) in
        Ok (head (entities r))).
Proof.
  unfold getOne.
  destruct (executeQuery client conv (limit (NInt 1) qb))
    as [qb' [log result]] eqn:E.
  cbn [fst snd]. split; [|split; [|reflexivity]].
  - destruct (isExactPrimaryKeyQuery (limit (NInt 1) qb)) eqn:Hexact.
    + unfold executeQuery in E. rewrite Hexact in E. by injection E as <- _.
    + rewrite QueryBuilderFacts.executeQuery_range in E by assumption.
      injection E as <- _.
      by destruct (QueryBuilderFacts.rangeBuilder_fields (limit (NInt 1) qb))
        as (_ & _ & -> & _).
  - intros Hexact.
    rewrite QueryBuilderFacts.executeQuery_range in E by exact Hexact.
    injection E as _ <- _. eexists. split; [reflexivity|].
    unfold getRangeParams.
    destruct (QueryBuilderFacts.rangeBuilder_fields (limit (NInt 1) qb))
      as (_ & _ & -> & _).
    by destruct (getDirection _).
Qed.

Lemma getOne_witness :
  _limit (fst (getOne Sample.fullStore Sample.decodeRow Sample.electronicsDesc))
  = Some (NInt 1)
  /\ (exists params,
        fst (snd (getOne Sample.fullStore Sample.decodeRow
                    Sample.electronicsDesc)) = [GetRange params]
        /\ getRange_limit params = NInt 1)
  /\ snd (snd (getOne Sample.fullStore Sample.decodeRow Sample.electronicsDesc))
     = Ok (Some (Sample.decodeRow Sample.aRow Sample.product)).
Proof.
  destruct (getOne_leaves_limit_one Sample.fullStore Sample.decodeRow
              Sample.electronicsDesc) as (Hlimit & Hrange & Hhead).
  split; [exact Hlimit|]. split.
  - apply Hrange. vm_compute. reflexivity.
  - rewrite Hhead. vm_compute. reflexivity.
Defined.

End PlannerFacts.

(** ** Primary-key conversion of the entity manager *)

Module KeyFacts.

Import EntityManager.

Section Codec.

Variable conv : JsValue -> ColumnMetadata -> CellValue.

(** The cell of a column that has a value. *)
Abbreviation cell primaryKeys :=
  (fun column : ColumnMetadata =>
     (propertyName column, conv (get primaryKeys (propertyName column)) column)).

Abbreviation unbound primaryKeys :=
  (fun column : ColumnMetadata =>
     negb (isBound (get primaryKeys (propertyName column)))).

Lemma convertPrimaryKeysLoop_strict cols primaryKeys acc :
  convertPrimaryKeysLoop conv cols primaryKeys false acc
  = match find (unbound primaryKeys) cols with
    | Some column => Throw (Error (PrimaryKeyEmpty (propertyName column)))
    | None => Ok (acc ++ map (cell primaryKeys) cols)
    end.
Proof.
  revert acc. induction cols as [|column cols IH]; intros acc; cbn.
  - by rewrite app_nil_r.
  - destruct (isBound (get primaryKeys (propertyName column))); cbn; [|done].
    rewrite IH. destruct (find _ cols); [done|].
    by rewrite <- app_assoc.
Qed.

Lemma isComplete_find primaryKeys md :
  isCompletePrimaryKey primaryKeys md = true
  <-> find (unbound primaryKeys) (primaryColumns md) = None.
Proof.
  unfold isCompletePrimaryKey.
  induction (primaryColumns md) as [|column cols IH]; cbn; [done|].
  destruct (isBound (get primaryKeys (propertyName column))); cbn; [exact IH|].
  split; discriminate.
Qed.

Lemma convertPrimaryKeys_complete primaryKeys md :
  isCompletePrimaryKey primaryKeys md = true ->
  convertPrimaryKeysToTablestore conv primaryKeys md false
  = Ok (map (cell primaryKeys) (primaryColumns md)).
Proof.
  intros Hcomplete. unfold convertPrimaryKeysToTablestore.
  rewrite convertPrimaryKeysLoop_strict.
  apply isComplete_find in Hcomplete. by rewrite Hcomplete.
Qed.

Lemma convertPrimaryKeys_incomplete primaryKeys md :
  isCompletePrimaryKey primaryKeys md = false ->
  exists column,
    find (unbound primaryKeys) (primaryColumns md) = Some column
    /\ convertPrimaryKeysToTablestore conv primaryKeys md false
       = Throw (Error (PrimaryKeyEmpty (propertyName column))).
Proof.
  intros Hincomplete. unfold convertPrimaryKeysToTablestore.
  rewrite convertPrimaryKeysLoop_strict.
  destruct (find _ (primaryColumns md)) as [column|] eqn:E; [eauto|].
  apply isComplete_find in E. congruence.
Qed.

(** X7.  The strict conversion of a key succeeds exactly on the keys
    [isCompletePrimaryKey] accepts, and then yields one converted cell
    per primary column in schema order; on any other key it throws,
    naming the first primary column without a value. *)
Theorem strict_key_conversion_agrees_with_isCompletePrimaryKey
    (primaryKeys : gmap string JsValue) (md : EntityMetadata) :
  convertPrimaryKeysToTablestore conv primaryKeys md false
  = match find (unbound primaryKeys) (primaryColumns md) with
    | Some column => Throw (Error (PrimaryKeyEmpty (propertyName column)))
    | None => Ok (map (cell primaryKeys) (primaryColumns md))
    end
  /\ (isCompletePrimaryKey primaryKeys md = true
      <-> find (unbound primaryKeys) (primaryColumns md) = None).
Proof.
  split; [|apply isComplete_find].
  unfold convertPrimaryKeysToTablestore.
  by rewrite convertPrimaryKeysLoop_strict.
Qed.

Lemma convertPrimaryKeysLoop_partial cols primaryKeys acc :
  exists n,
    convertPrimaryKeysLoop conv cols primaryKeys true acc
    = Ok (acc ++ map (cell primaryKeys) (firstn n cols))
    /\ (forall column, In column (firstn n cols) ->
          isBound (get primaryKeys (propertyName column)) = true)
    /\ (forall column, nth_error cols n = Some column ->
          isBound (get primaryKeys (propertyName column)) = false).
Proof.
  revert acc. induction cols as [|column cols IH]; intros acc.
  - exists 0%nat. cbn. rewrite app_nil_r. repeat split; [tauto|discriminate].
  - cbn [convertPrimaryKeysLoop].
    destruct (isBound (get primaryKeys (propertyName column))) eqn:Hbound.
    + destruct (IH (acc ++ [cell primaryKeys column])) as (n & Hrun & Hpre & Hnext).
      exists (S n). cbn [firstn map nth_error].
      rewrite Hrun, <- app_assoc. split; [reflexivity|]. split; [|exact Hnext].
      intros c [<- | Hin]; [exact Hbound | by apply Hpre].
    + exists 0%nat. cbn. rewrite app_nil_r. repeat split; [tauto|].
      by intros c [= <-].
Qed.

(** X8.  The conversion used for partial keys never throws: it yields
    the converted cells of the longest run of primary columns, from the
    first on, that all have a value, and stops at the first column
    without one even when a later column has a value. *)
Theorem partial_key_conversion_is_the_bound_prefix
    (primaryKeys : gmap string JsValue) (md : EntityMetadata) :
  exists n,
    convertPrimaryKeysToTablestore conv primaryKeys md true
    = Ok (map (cell primaryKeys) (firstn n (primaryColumns md)))
    /\ (forall column, In column (firstn n (primaryColumns md)) ->
          isBound (get primaryKeys (propertyName column)) = true)
    /\ (forall column, nth_error (primaryColumns md) n = Some column ->
          isBound (get primaryKeys (propertyName column)) = false).
Proof.
  unfold convertPrimaryKeysToTablestore.
  destruct (convertPrimaryKeysLoop_partial (primaryColumns md) primaryKeys [])
    as (n & Hrun & Hpre & Hnext).
  exists n. by rewrite Hrun.
Qed.

Lemma completion_fold partialKeys isStart cols acc :
  fold_left (autoCompleteStep conv partialKeys isStart) cols acc
  = acc ++ map (fun column =>
                  (propertyName column,
                   if isBound (get partialKeys (propertyName column))
                   then conv (get partialKeys (propertyName column)) column
                   else if isStart then INF_MIN else INF_MAX))
             cols.
Proof.
  revert acc. induction cols as [|column cols IH]; intros acc; cbn.
  - by rewrite app_nil_r.
  - rewrite IH. unfold autoCompleteStep.
    destruct (isBound (get partialKeys (propertyName column))), isStart;
      by rewrite <- app_assoc.
Qed.

Lemma completion_map partialKeys md isStart :
  autoCompletePartialPrimaryKey conv partialKeys md isStart
  = map (fun column =>
           (propertyName column,
            if isBound (get partialKeys (propertyName column))
            then conv (get partialKeys (propertyName column)) column
            else if isStart then INF_MIN else INF_MAX))
      (primaryColumns md).
Proof. unfold autoCompletePartialPrimaryKey. by rewrite completion_fold. Qed.

End Codec.

End KeyFacts.

(** ** Filters that are built *)

Module FilterFacts.

Import FilterFactory.

Lemma addSubCondition_fold combinator conditions acc :
  fold_left addSubCondition conditions (combinator, acc)
  = (combinator, acc ++ conditions).
Proof.
  revert acc. induction conditions as [|c conditions IH]; intros acc; cbn.
  - by rewrite app_nil_r.
  - unfold addSubCondition at 2. cbn. by rewrite IH, <- app_assoc.
Qed.

(** X9.  [and] and [or] of at least one condition build the composite
    of that operator over exactly the conditions given, in the order
    given, and [not] builds the NOT composite over its one condition. *)
Theorem composites_keep_their_conditions_in_order
    (conditions : list ColumnCondition) (condition : ColumnCondition) :
  conditions <> [] ->
  and conditions = Ok (CompositeCondition AND conditions)
  /\ or conditions = Ok (CompositeCondition OR conditions)
  /\ not condition = CompositeCondition NOT [condition].
Proof.
  intros Hsome. unfold and, or, build.
  rewrite !addSubCondition_fold.
  destruct conditions; [done|]. repeat split.
Qed.

Lemma composites_witness :
  and [SingleColumnCondition "price" (LongFromNumber 10) GREATER_THAN true true;
       CompositeCondition OR []]
  = Ok (CompositeCondition AND
          [SingleColumnCondition "price" (LongFromNumber 10) GREATER_THAN true true;
           CompositeCondition OR []])
  /\ or [SingleColumnCondition "price" (LongFromNumber 10) GREATER_THAN true true;
         CompositeCondition OR []]
     = Ok (CompositeCondition OR
             [SingleColumnCondition "price" (LongFromNumber 10) GREATER_THAN true true;
              CompositeCondition OR []])
  /\ not (CompositeCondition OR []) = CompositeCondition NOT [CompositeCondition OR []].
Proof.
  apply (composites_keep_their_conditions_in_order
           [SingleColumnCondition "price" (LongFromNumber 10) GREATER_THAN true true;
            CompositeCondition OR []]
           (CompositeCondition OR [])).
  discriminate.
Defined.

Lemma findColumnMetadata_Some md field column :
  findColumnMetadata md field = Some column ->
  column ∈ columns md /\ propertyName column = field.
Proof.
  unfold findColumnMetadata. intros H.
  apply find_some in H as [Hin Hname].
  split; [by apply list_elem_of_In|].
  by apply bool_decide_eq_true in Hname.
Qed.

Lemma isNullish_convert value column :
  isNullish (convertValueToTablestore value column)
  = negb (isBound value).
Proof. by destruct value as [| | |[]| | |]. Qed.

(** X10.  A comparator leaf is built exactly when the field is the
    name of a column of the entity and the value is neither [null] nor
    [undefined]; the leaf then carries the field, the converted value
    and the comparator, and each of [passIfMissing] and
    [latestVersionOnly] is [true] unless the options set it. *)
Theorem leaf_is_built_iff_field_known_and_value_given
    (md : EntityMetadata) (field : string) (value : JsValue)
    (comparator : ComparatorType) (options : option ColumnFilterOptions)
    (condition : ColumnCondition) :
  createSingleCondition md field value comparator options = Ok condition
  <-> (exists column,
         column ∈ columns md /\ propertyName column = field
         /\ isBound value = true
         /\ condition
            = SingleColumnCondition field
                (convertValueToTablestore value column) comparator
                (default true (options ≫= passIfMissing))
                (default true (options ≫= latestVersionOnly))).
Proof.
  unfold createSingleCondition. split.
  - destruct (findColumnMetadata md field) as [column|] eqn:Hfind; [|done].
    apply findColumnMetadata_Some in Hfind as [Hin Hname].
    rewrite isNullish_convert.
    destruct (isBound value) eqn:Hbound; cbn; [|done].
    intros [= <-]. exists column. repeat split; done.
  - intros (column & Hin & Hname & Hbound & ->).
    destruct (findColumnMetadata md field) as [column'|] eqn:Hfind.
    + rewrite isNullish_convert, Hbound. cbn.
      by destruct value as [| | |[]| | |].
    + exfalso. unfold findColumnMetadata in Hfind.
      apply list_elem_of_In in Hin.
      eapply find_none in Hfind; [|exact Hin].
      cbn in Hfind. apply bool_decide_eq_false in Hfind. done.
Qed.

End FilterFacts.

(** ** Scripts of calls on one transaction *)

Module ScriptFacts.

Import Transaction Script.

Section Collaborators.

Variable client : Client.
Variable getEntityMetadata : string -> Result EntityMetadata.
Variable convertValueToTablestore : JsValue -> ColumnMetadata -> CellValue.
Variable processSpecialColumnsOnInsert :
  gmap string JsValue -> EntityMetadata -> gmap string JsValue.
Variable processSpecialColumnsOnUpdate :
  gmap string JsValue -> EntityMetadata -> gmap string JsValue -> list Request.
Variable convertTablestoreToEntity : Row -> EntityMetadata -> gmap string JsValue.

Abbreviation step :=
  (Script.step client getEntityMetadata convertValueToTablestore
     processSpecialColumnsOnInsert processSpecialColumnsOnUpdate
     convertTablestoreToEntity).

Abbreviation run :=
  (Script.run client getEntityMetadata convertValueToTablestore
     processSpecialColumnsOnInsert processSpecialColumnsOnUpdate
     convertTablestoreToEntity).

(** A request of the transaction itself, or one of the reads the
    special-column pass of the entity manager makes. *)
Abbreviation ownOrSpecial tx :=
  (fun r : Request =>
     requestTransactionId r = Some (transactionId tx)
     \/ exists partialEntity md primaryKeys,
          r ∈ processSpecialColumnsOnUpdate partialEntity md primaryKeys).

(** The special-column pass only reads. *)
Hypothesis special_pass_reads :
  forall partialEntity md primaryKeys,
    Forall (fun r => isRead r = true)
      (processSpecialColumnsOnUpdate partialEntity md primaryKeys).

Ltac run_method :=
  unfold Script.step, perform, void, save, update, delete, findOne, batchWrite,
    commit, rollback, tryCatch, tryFinally, bindM, ensureActive, isActive,
    validatePartitionKey, lift, ret, throw, send, sendGetRow, sent, setStatus;
  repeat (case_match; simplify_eq); simplify_eq; cbn.

Ltac each_method s :=
  destruct s as [now [entityClass entity|entityClass primaryKeys partialEntity
                     |entityClass primaryKeys|entityClass primaryKeys
                     |operations|]|].

Lemma step_keeps_id s tx :
  transactionId (fst (step s tx)) = transactionId tx.
Proof.
  each_method s; run_method; reflexivity.
Qed.

Lemma step_log s tx : Forall (ownOrSpecial tx) (fst (snd (step s tx))).
Proof.
  each_method s; run_method; rewrite ?app_nil_r;
    repeat first
      [ apply Forall_nil_2
      | apply Forall_cons_2; [left; reflexivity|]
      | apply Forall_app_2; [apply Forall_forall; intros r Hr; right; eauto|]
      | apply Forall_forall; intros r Hr; right; solve [eauto] ].
Qed.

(** A commit or abort request is the last request of the call that
    sends it, and that call leaves the transaction ended. *)
Lemma step_ending s tx i r :
  fst (snd (step s tx)) !! i = Some r ->
  isEnding r = true ->
  length (fst (snd (step s tx))) = S i /\ status (fst (step s tx)) <> ACTIVE.
Proof.
  each_method s; run_method; rewrite ?app_nil_r; intros Hr Hending;
    try (apply lookup_app_Some in Hr as [Hr | [_ Hr]]);
    try (match goal with
         | H : processSpecialColumnsOnUpdate ?pe ?md ?pk !! _ = Some _ |- _ =>
             apply list_elem_of_lookup_2 in H;
             pose proof (special_pass_reads pe md pk) as Hreads;
             rewrite Forall_forall in Hreads; apply Hreads in H;
             destruct r; discriminate
         end);
    try (destruct i as [|[|?]]; simplify_eq/=; done);
    try (destruct (i - _)%nat as [|[|?]]; simplify_eq/=; done).
Qed.

Lemma step_ended s tx :
  status tx <> ACTIVE -> fst (step s tx) = tx /\ fst (snd (step s tx)) = [].
Proof.
  intros Hstatus. destruct s as [now c|]; cbn [Script.step].
  - rewrite (TransactionFacts.perform_rejected _ _ _ _ _ _ now c tx tx _
               (TransactionFacts.ensureActive_ended now tx Hstatus)).
    done.
  - unfold rollback. by rewrite (bool_decide_eq_false_2 _ Hstatus).
Qed.

Lemma run_ended script tx :
  status tx <> ACTIVE -> run script tx = (tx, []).
Proof.
  intros Hstatus. induction script as [|s script IH]; [reflexivity|].
  cbn [Script.run]. destruct (step_ended s tx Hstatus) as [Htx Hlog].
  destruct (step s tx) as [tx1 [log1 r1]]. cbn in Htx, Hlog. subst.
  by rewrite IH.
Qed.

Lemma run_keeps_id script tx :
  transactionId (fst (run script tx)) = transactionId tx.
Proof.
  revert tx. induction script as [|s script IH]; intros tx; [reflexivity|].
  cbn [Script.run]. pose proof (step_keeps_id s tx) as Hid.
  destruct (step s tx) as [tx1 [log1 r1]]. cbn in Hid.
  specialize (IH tx1). destruct (run script tx1) as [tx2 log2]. cbn in *.
  congruence.
Qed.

(** X11.  Over any script of calls, made at any times and whatever the
    store answers, the transaction keeps its id, and every request sent
    carries that id, the reads of the special-column pass of [update]
    apart, which go through the entity manager. *)
Theorem every_request_carries_the_transaction_id
    (script : list Step) (tx : t) :
  transactionId (fst (run script tx)) = transactionId tx
  /\ Forall (ownOrSpecial tx) (snd (run script tx)).
Proof.
  split; [apply run_keeps_id|].
  revert tx. induction script as [|s script IH]; intros tx; [by constructor|].
  cbn [Script.run].
  pose proof (step_keeps_id s tx) as Hid. pose proof (step_log s tx) as Hlog.
  destruct (step s tx) as [tx1 [log1 r1]]. cbn in Hid, Hlog.
  specialize (IH tx1). destruct (run script tx1) as [tx2 log2]. cbn in *.
  apply Forall_app_2; [exact Hlog|]. by rewrite Hid in IH.
Qed.

(** X12.  Over any script of calls, a commit or abort request is the
    last request sent, and the transaction is no longer ACTIVE at the end
    of a script that sent one. *)
Theorem nothing_is_sent_after_commit_or_abort
    (script : list Step) (tx : t) (i : nat) (r : Request) :
  snd (run script tx) !! i = Some r ->
  isEnding r = true ->
  length (snd (run script tx)) = S i
  /\ status (fst (run script tx)) <> ACTIVE.
Proof.
  revert tx i. induction script as [|s script IH]; intros tx i; [done|].
  cbn [Script.run]. pose proof (step_ending s tx) as Hstep.
  destruct (step s tx) as [tx1 [log1 r1]]. cbn [fst snd] in Hstep.
  specialize (IH tx1).
  destruct (run script tx1) as [tx2 log2] eqn:Hrest. cbn [fst snd] in *.
  intros Hr Hending. apply lookup_app_Some in Hr as [Hr | [Hi Hr]].
  - destruct (Hstep i r Hr Hending) as [Hlen Hstatus].
    rewrite (run_ended script tx1 Hstatus) in Hrest.
    injection Hrest as <- <-. by rewrite app_nil_r.
  - destruct (IH _ Hr Hending) as [Hlen Hstatus].
    split; [|exact Hstatus]. rewrite length_app. lia.
Qed.

(** X13.  A data operation attempted on an ACTIVE transaction before
    its deadline leaves the transaction as it was, whatever the store
    answers: a rejected write does not abort it. *)
Theorem data_operations_leave_the_transaction_active
    (now : Z) (c : Call) (tx : t) :
  status tx = ACTIVE ->
  now - startTime tx <= timeout tx ->
  c <> Commit ->
  fst (step (Perform now c) tx) = tx.
Proof.
  destruct c as [entityClass entity|entityClass primaryKeys partialEntity
                |entityClass primaryKeys|entityClass primaryKeys
                |operations|];
    run_method; intros Hactive Hlive Hcall; try done;
    match goal with
    | H : (_ >? _) = true |- _ => rewrite Z.gtb_ltb in H; apply Z.ltb_lt in H; lia
    end.
Qed.

End Collaborators.

(** Save, commit, delete and rollback on [electronicsTx]: the save and
    the commit are sent, the rest is not. *)
Lemma nothing_is_sent_after_commit_witness :
  length (snd (Script.run Sample.emptyStore Sample.registry
                 QueryBuilder.convertValueToTablestore (fun entity _ => entity)
                 (fun _ _ _ => []) Sample.decodeRow
                 [Perform 2000 (Save "Product" Cases.aPhone);
                  Perform 3000 Commit;
                  Perform 4000 (Delete "Product" Cases.aPhone);
                  Rollback]
                 Sample.electronicsTx)) = 2%nat
  /\ status (fst (Script.run Sample.emptyStore Sample.registry
                    QueryBuilder.convertValueToTablestore (fun entity _ => entity)
                    (fun _ _ _ => []) Sample.decodeRow
                    [Perform 2000 (Save "Product" Cases.aPhone);
                     Perform 3000 Commit;
                     Perform 4000 (Delete "Product" Cases.aPhone);
                     Rollback]
                    Sample.electronicsTx)) <> ACTIVE.
Proof.
  apply (nothing_is_sent_after_commit_or_abort
           Sample.emptyStore Sample.registry
           QueryBuilder.convertValueToTablestore (fun entity _ => entity)
           (fun _ _ _ => []) Sample.decodeRow
           (fun _ _ _ => Forall_nil_2 _)
           [Perform 2000 (Save "Product" Cases.aPhone);
            Perform 3000 Commit;
            Perform 4000 (Delete "Product" Cases.aPhone);
            Rollback]
           Sample.electronicsTx 1%nat (CommitTransaction "tx-1")).
  - vm_compute. reflexivity.
  - reflexivity.
Defined.

(** A save that the store rejects. *)
Lemma data_operations_witness :
  fst (Script.step Sample.failingStore Sample.registry
         QueryBuilder.convertValueToTablestore (fun entity _ => entity)
         (fun _ _ _ => []) Sample.decodeRow
         (Perform 2000 (Save "Product" Cases.aPhone)) Sample.electronicsTx)
  = Sample.electronicsTx
  /\ snd (Script.step Sample.failingStore Sample.registry
            QueryBuilder.convertValueToTablestore (fun entity _ => entity)
            (fun _ _ _ => []) Sample.decodeRow
            (Perform 2000 (Save "Product" Cases.aPhone)) Sample.electronicsTx)
     = ([PutRow "products"
           [("category", Plain (VString "electronics"));
            ("id", Plain (VString "001"))] (Some "tx-1")],
        Throw (StoreFailure "OTSServerBusy" "busy")).
Proof.
  split.
  - apply (data_operations_leave_the_transaction_active
             Sample.failingStore Sample.registry
             QueryBuilder.convertValueToTablestore (fun entity _ => entity)
             (fun _ _ _ => []) Sample.decodeRow
             2000 (Save "Product" Cases.aPhone) Sample.electronicsTx).
    + reflexivity.
    + vm_compute. discriminate.
    + discriminate.
  - vm_compute. reflexivity.
Defined.

End ScriptFacts.

(** ** The entity manager's operations *)

Module ManagerFacts.

Import Async EntityManagerOps.

Section Collaborators.

Variable client : Client.
Variable metadataStorage : string -> option EntityMetadata.
Variable conv : JsValue -> ColumnMetadata -> CellValue.
Variable convertTablestoreToEntity : Row -> EntityMetadata -> Entity.
Variable processSpecialColumnsOnInsert : Entity -> EntityMetadata -> Entity.
Variable processSpecialColumnsOnUpdate :
  Entity -> EntityMetadata -> Entity -> list Request * Entity.

Abbreviation findOne :=
  (EntityManagerOps.findOne client metadataStorage conv convertTablestoreToEntity).
Abbreviation save :=
  (EntityManagerOps.save client metadataStorage conv convertTablestoreToEntity
     processSpecialColumnsOnInsert).
Abbreviation delete := (EntityManagerOps.delete client metadataStorage conv).
Abbreviation update :=
  (EntityManagerOps.update client metadataStorage conv convertTablestoreToEntity
     processSpecialColumnsOnUpdate).

(** The key of a row, and the two ends of the range of a partial key. *)
Abbreviation cell primaryKeys :=
  (fun column : ColumnMetadata =>
     (propertyName column, conv (get primaryKeys (propertyName column)) column)).

Abbreviation edge primaryKeys sentinel :=
  (fun column : ColumnMetadata =>
     (propertyName column,
      if isBound (get primaryKeys (propertyName column))
      then conv (get primaryKeys (propertyName column)) column
      else sentinel)).

Lemma metadata_known entityClass md :
  metadataStorage entityClass = Some md ->
  getEntityMetadata metadataStorage entityClass = Ok md.
Proof. intros H. unfold getEntityMetadata. by rewrite H. Qed.

(** What is done with the row a point read returns, and with the rows
    of a range read. *)
Lemma findOne_complete entityClass md primaryKeys :
  metadataStorage entityClass = Some md ->
  EntityManager.isCompletePrimaryKey primaryKeys md = true ->
  findOne entityClass primaryKeys
  = let params := pointRead md (map (cell primaryKeys) (primaryColumns md)) in
    ([GetRow params],
     match getRow client params with
     | Ok response =>
         match row response with
         | Some r =>
             match Tablestore.primaryKey r with
             | Some _ => Fulfilled (Some (convertTablestoreToEntity r md))
             | None => Fulfilled None
             end
         | None => Fulfilled None
         end
     | Throw e =>
         if EntityManager.isRowNotFoundError e then Fulfilled None
         else Rejected (Thrown e)
     end).
Proof.
  intros Hmd Hcomplete. unfold EntityManagerOps.findOne.
  rewrite (metadata_known _ _ Hmd). cbn. rewrite Hcomplete.
  rewrite (KeyFacts.convertPrimaryKeys_complete conv _ _ Hcomplete). cbn.
  destruct (getRow client _) as [response|e]; cbn.
  - destruct (row response) as [r|]; [|done].
    by destruct (Tablestore.primaryKey r).
  - by destruct (EntityManager.isRowNotFoundError e).
Qed.

Lemma findOne_partial entityClass md primaryKeys :
  metadataStorage entityClass = Some md ->
  EntityManager.isCompletePrimaryKey primaryKeys md = false ->
  findOne entityClass primaryKeys
  = let params :=
      firstOfRange md (map (edge primaryKeys INF_MIN) (primaryColumns md))
        (map (edge primaryKeys INF_MAX) (primaryColumns md)) in
    ([GetRange params],
     match getRange client params with
     | Ok response =>
         Fulfilled ((fun r => convertTablestoreToEntity r md) <$> head (rows response))
     | Throw e =>
         if EntityManager.isRowNotFoundError e then Fulfilled None
         else Rejected (Thrown e)
     end).
Proof.
  intros Hmd Hpartial. unfold EntityManagerOps.findOne.
  rewrite (metadata_known _ _ Hmd). cbn. rewrite Hpartial.
  rewrite !KeyFacts.completion_map. cbn.
  destruct (getRange client _) as [response|e]; cbn.
  - by destruct (rows response).
  - by destruct (EntityManager.isRowNotFoundError e).
Qed.

(** X14.  For a class the storage knows, [findOne] sends exactly one
    read.  A key with a value for every primary column is read with
    [getRow] on that key.  Any other key is read with a forward
    [getRange] of limit 1 between two keys that carry the values given
    and [INF_MIN], respectively [INF_MAX], in every other primary
    column, and the first row of the answer is returned. *)
Theorem findOne_reads_once_by_point_or_first_of_range
    (entityClass : string) (md : EntityMetadata) (primaryKeys : Entity) :
  metadataStorage entityClass = Some md ->
  fst (findOne entityClass primaryKeys)
  = [if EntityManager.isCompletePrimaryKey primaryKeys md
     then GetRow (pointRead md (map (cell primaryKeys) (primaryColumns md)))
     else GetRange
            (firstOfRange md
               (map (edge primaryKeys INF_MIN) (primaryColumns md))
               (map (edge primaryKeys INF_MAX) (primaryColumns md)))].
Proof.
  intros Hmd.
  destruct (EntityManager.isCompletePrimaryKey primaryKeys md) eqn:Hcomplete.
  - by rewrite (findOne_complete _ _ _ Hmd Hcomplete).
  - by rewrite (findOne_partial _ _ _ Hmd Hcomplete).
Qed.

(** X15.  Once [findOne] has sent its read: when the store rejects the
    read with an error that [isRowNotFoundError] accepts, or answers it
    without a row (no [row], a [row] without [primaryKey], an empty
    [rows]), [findOne] resolves to [null]; when the store rejects the
    read with any other error, [findOne] rejects with that error. *)
Theorem findOne_resolves_to_null_when_the_row_is_missing
    (entityClass : string) (primaryKeys : Entity) (read : Request) :
  fst (findOne entityClass primaryKeys) = [read] ->
  match read with
  | GetRow p =>
      match getRow client p with
      | Throw e =>
          snd (findOne entityClass primaryKeys)
          = if EntityManager.isRowNotFoundError e then Fulfilled None
            else Rejected (Thrown e)
      | Ok response =>
          row response = None
          \/ (exists r, row response = Some r /\ Tablestore.primaryKey r = None) ->
          snd (findOne entityClass primaryKeys) = Fulfilled None
      end
  | GetRange p =>
      match getRange client p with
      | Throw e =>
          snd (findOne entityClass primaryKeys)
          = if EntityManager.isRowNotFoundError e then Fulfilled None
            else Rejected (Thrown e)
      | Ok response =>
          rows response = [] ->
          snd (findOne entityClass primaryKeys) = Fulfilled None
      end
  | _ => False
  end.
Proof.
  destruct (metadataStorage entityClass) as [md|] eqn:Hmd.
  - destruct (EntityManager.isCompletePrimaryKey primaryKeys md) eqn:Hcomplete.
    + rewrite (findOne_complete _ _ _ Hmd Hcomplete). cbn.
      intros [= <-].
      destruct (getRow client _) as [response|e]; [|done].
      intros [Hrow | (r & Hrow & Hkey)]; rewrite Hrow; [done|].
      by rewrite Hkey.
    + rewrite (findOne_partial _ _ _ Hmd Hcomplete). cbn.
      intros [= <-].
      destruct (getRange client _) as [response|e]; [|done].
      by intros ->.
  - unfold EntityManagerOps.findOne, getEntityMetadata. rewrite Hmd. cbn.
    discriminate.
Qed.

(** X16.  When a primary column has no value in the key, [delete]
    sends nothing and [update] sends no write, only the reads of its
    special-column pass; both reject with the error that names the first
    such column. *)
Theorem incomplete_key_is_refused_before_any_write
    (entityClass : string) (md : EntityMetadata)
    (primaryKeys partialEntity : Entity) :
  metadataStorage entityClass = Some md ->
  EntityManager.isCompletePrimaryKey primaryKeys md = false ->
  exists column,
    find (fun column => negb (isBound (get primaryKeys (propertyName column))))
      (primaryColumns md) = Some column
    /\ delete entityClass primaryKeys
       = ([], Rejected (Thrown (Error (PrimaryKeyEmpty (propertyName column)))))
    /\ update entityClass primaryKeys partialEntity
       = (fst (processSpecialColumnsOnUpdate partialEntity md primaryKeys),
          Rejected (Thrown (Error (PrimaryKeyEmpty (propertyName column))))).
Proof.
  intros Hmd Hincomplete.
  destruct (KeyFacts.convertPrimaryKeys_incomplete conv _ _ Hincomplete)
    as (column & Hfirst & Hthrow).
  exists column. split; [exact Hfirst|].
  unfold EntityManagerOps.delete, EntityManagerOps.update.
  rewrite (metadata_known _ _ Hmd). cbn.
  destruct (processSpecialColumnsOnUpdate partialEntity md primaryKeys)
    as [reads partialEntity'].
  rewrite Hthrow. cbn. by rewrite !app_nil_r.
Qed.

(** X17.  With a complete key and an accepted write, [update] sends
    the reads of its special-column pass, then the [updateRow], then one
    [getRow] on the key it wrote, and nothing else; it resolves to the
    row read back, and rejects when that read finds no row. *)
Theorem update_reads_back_the_row_it_wrote
    (entityClass : string) (md : EntityMetadata)
    (primaryKeys partialEntity : Entity) :
  metadataStorage entityClass = Some md ->
  EntityManager.isCompletePrimaryKey primaryKeys md = true ->
  let key := map (cell primaryKeys) (primaryColumns md) in
  write client (UpdateRow (tableName md) key None) = Ok tt ->
  fst (update entityClass primaryKeys partialEntity)
  = fst (processSpecialColumnsOnUpdate partialEntity md primaryKeys)
      ++ [UpdateRow (tableName md) key None; GetRow (pointRead md key)]
  /\ (snd (findOne entityClass primaryKeys) = Fulfilled None ->
      snd (update entityClass primaryKeys partialEntity)
      = Rejected EntityMissingAfterUpdate)
  /\ (forall entity,
        snd (findOne entityClass primaryKeys) = Fulfilled (Some entity) ->
        snd (update entityClass primaryKeys partialEntity) = Fulfilled entity).
Proof.
  intros Hmd Hcomplete key Hwrite.
  assert (fst (findOne entityClass primaryKeys) = [GetRow (pointRead md key)])
    as Hread by (by rewrite (findOne_complete _ _ _ Hmd Hcomplete)).
  unfold EntityManagerOps.update.
  destruct (findOne entityClass primaryKeys) as [log settled].
  cbn in Hread. subst log.
  rewrite (metadata_known _ _ Hmd). cbn.
  destruct (processSpecialColumnsOnUpdate partialEntity md primaryKeys)
    as [reads partialEntity'].
  rewrite (KeyFacts.convertPrimaryKeys_complete conv _ _ Hcomplete). cbn.
  fold key. rewrite Hwrite. cbn.
  split; [|split].
  - by destruct settled as [[entity|]|r]; cbn.
  - by intros ->.
  - by intros entity ->.
Qed.

Lemma primaryKeyValues_fold (entity : Entity) cols acc name :
  get (fold_left
         (fun primaryKeyValues column =>
            let value := get entity (propertyName column) in
            if isBound value
            then <[propertyName column := value]> primaryKeyValues
            else primaryKeyValues)
         cols acc) name
  = if bool_decide (name ∈ map propertyName cols) && isBound (get entity name)
    then get entity name
    else get acc name.
Proof.
  revert acc. induction cols as [|column cols IH]; intros acc; [done|].
  cbn [fold_left map]. rewrite IH.
  destruct (decide (name = propertyName column)) as [->|Hne].
  - rewrite (bool_decide_eq_true_2 (_ ∈ _ :: _)) by left.
    destruct (isBound (get entity (propertyName column))) eqn:Hbound.
    + assert (get (<[propertyName column := get entity (propertyName column)]> acc)
                (propertyName column) = get entity (propertyName column)) as ->
        by (unfold get at 1; by rewrite lookup_insert_eq).
      by destruct (bool_decide _).
    + by rewrite !andb_false_r.
  - assert (bool_decide (name ∈ propertyName column :: map propertyName cols)
            = bool_decide (name ∈ map propertyName cols)) as ->.
    { apply bool_decide_ext. rewrite elem_of_cons.
      split; [by intros [?|?] | by right]. }
    destruct (bool_decide _ && _); [done|].
    destruct (isBound (get entity (propertyName column))); [|done].
    unfold get. by rewrite lookup_insert_ne.
Qed.

Lemma primaryKeyValues_get entity md column :
  column ∈ primaryColumns md ->
  isBound (get entity (propertyName column)) = true ->
  get (primaryKeyValues entity md) (propertyName column)
  = get entity (propertyName column).
Proof.
  intros Hin Hbound. unfold primaryKeyValues.
  rewrite primaryKeyValues_fold, Hbound.
  rewrite bool_decide_eq_true_2; [done|].
  apply list_elem_of_fmap. eauto.
Qed.

Lemma complete_forall primaryKeys md :
  EntityManager.isCompletePrimaryKey primaryKeys md = true
  <-> forall column, column ∈ primaryColumns md ->
        isBound (get primaryKeys (propertyName column)) = true.
Proof.
  unfold EntityManager.isCompletePrimaryKey. rewrite forallb_forall.
  split; intros H column Hin; apply H; by apply list_elem_of_In.
Qed.

Lemma primaryKeyValues_complete entity md :
  EntityManager.isCompletePrimaryKey entity md = true ->
  EntityManager.isCompletePrimaryKey (primaryKeyValues entity md) md = true
  /\ map (cell (primaryKeyValues entity md)) (primaryColumns md)
     = map (cell entity) (primaryColumns md).
Proof.
  intros Hcomplete. rewrite complete_forall in Hcomplete. split.
  - apply complete_forall. intros column Hin.
    rewrite primaryKeyValues_get by auto. auto.
  - apply map_ext_in. intros column Hin. apply list_elem_of_In in Hin.
    by rewrite primaryKeyValues_get by auto.
Qed.

Lemma convertEntityPrimaryKey_fold (entity : Entity) cols acc :
  fold_left
    (fun primaryKey column =>
       let value := get entity (propertyName column) in
       if isBound value
       then primaryKey ++ [(propertyName column, conv value column)]
       else primaryKey)
    cols acc
  = acc ++ map (cell entity)
             (List.filter
                (fun column => isBound (get entity (propertyName column))) cols).
Proof.
  revert acc. induction cols as [|column cols IH]; intros acc; simpl.
  - by rewrite app_nil_r.
  - destruct (isBound (get entity (propertyName column))); rewrite IH.
    + simpl. by rewrite <- app_assoc.
    + reflexivity.
Qed.

Lemma filter_complete (entity : Entity) md :
  EntityManager.isCompletePrimaryKey entity md = true ->
  List.filter (fun column => isBound (get entity (propertyName column)))
    (primaryColumns md)
  = primaryColumns md.
Proof.
  unfold EntityManager.isCompletePrimaryKey.
  induction (primaryColumns md) as [|column cols IH]; [done|]. cbn.
  destruct (isBound _); [|done]. cbn. intros H. by rewrite IH.
Qed.

Lemma findOne_one_read entityClass md primaryKeys :
  metadataStorage entityClass = Some md ->
  exists read, fst (findOne entityClass primaryKeys) = [read].
Proof.
  intros Hmd.
  destruct (EntityManager.isCompletePrimaryKey primaryKeys md) eqn:Hcomplete.
  - rewrite (findOne_complete _ _ _ Hmd Hcomplete). eauto.
  - rewrite (findOne_partial _ _ _ Hmd Hcomplete). eauto.
Qed.

(** X18.  [save] does not check the key: for a class the storage
    knows it first sends a [putRow] whose key holds the primary columns
    that have a value, whatever is missing.  A rejected put ends the
    call with that rejection; an accepted one is followed by exactly one
    read. *)
Theorem save_puts_before_any_check
    (entityClass : string) (md : EntityMetadata) (entity : Entity) :
  metadataStorage entityClass = Some md ->
  let entity' := processSpecialColumnsOnInsert entity md in
  let put :=
    PutRow (tableName md)
      (map (cell entity')
         (List.filter
            (fun column => isBound (get entity' (propertyName column)))
            (primaryColumns md)))
      None in
  match write client put with
  | Throw e => save entityClass entity = ([put], Rejected (Thrown e))
  | Ok _ => exists read, fst (save entityClass entity) = [put; read]
  end.
Proof.
  intros Hmd entity' put. unfold EntityManagerOps.save.
  destruct (findOne_one_read entityClass md (primaryKeyValues entity' md) Hmd)
    as [read Hread].
  rewrite (metadata_known _ _ Hmd).
  cbn [Async.bind Async.lift Async.settle app]. fold entity'.
  destruct (findOne entityClass (primaryKeyValues entity' md)) as [log settled].
  cbn in Hread. subst log.
  unfold Transaction.convertEntityPrimaryKey.
  rewrite convertEntityPrimaryKey_fold. cbn. fold put.
  destruct (write client put) as [[]|e]; cbn; [|done].
  exists read. by destruct settled as [[saved|]|r].
Qed.

(** X19.  When the entity has a value for every primary column and
    the put is accepted, [save] reads back with one [getRow] on the key
    it has just put, and resolves to the row found there, or to the
    entity it was given (after the special-column pass) when there is no
    row; it never resolves to [null]. *)
Theorem save_reads_back_the_key_it_put
    (entityClass : string) (md : EntityMetadata) (entity : Entity) :
  metadataStorage entityClass = Some md ->
  let entity' := processSpecialColumnsOnInsert entity md in
  let key := map (cell entity') (primaryColumns md) in
  EntityManager.isCompletePrimaryKey entity' md = true ->
  write client (PutRow (tableName md) key None) = Ok tt ->
  save entityClass entity
  = ([PutRow (tableName md) key None; GetRow (pointRead md key)],
     match getRow client (pointRead md key) with
     | Ok response =>
         match row response with
         | Some r =>
             match Tablestore.primaryKey r with
             | Some _ => Fulfilled (convertTablestoreToEntity r md)
             | None => Fulfilled entity'
             end
         | None => Fulfilled entity'
         end
     | Throw e =>
         if EntityManager.isRowNotFoundError e then Fulfilled entity'
         else Rejected (Thrown e)
     end).
Proof.
  intros Hmd entity' key Hcomplete Hwrite.
  destruct (primaryKeyValues_complete entity' md Hcomplete) as [Hcomplete' Hkey].
  pose proof (findOne_complete entityClass md _ Hmd Hcomplete') as Hfind.
  rewrite Hkey in Hfind. fold key in Hfind. cbn zeta in Hfind.
  unfold EntityManagerOps.save. rewrite (metadata_known _ _ Hmd).
  cbn [Async.bind Async.lift Async.settle app]. fold entity'.
  rewrite Hfind. clear Hfind.
  unfold Transaction.convertEntityPrimaryKey.
  rewrite convertEntityPrimaryKey_fold, (filter_complete _ _ Hcomplete). cbn.
  fold key. rewrite Hwrite. cbn.
  destruct (getRow client (pointRead md key)) as [response|e]; cbn.
  - destruct (row response) as [r|]; [|done].
    by destruct (Tablestore.primaryKey r).
  - by destruct (EntityManager.isRowNotFoundError e).
Qed.

End Collaborators.

(** [findOne] on the key [{category: "electronics"}] of [product]. *)
Lemma findOne_reads_once_witness :
  fst (EntityManagerOps.findOne Sample.emptyStore Cases.storage
         QueryBuilder.convertValueToTablestore Sample.decodeRow
         "Product" Cases.categoryOnly)
  = [GetRange
       {| getRange_tableName := "products";
          inclusiveStartPrimaryKey :=
            [("category", Plain (VString "electronics")); ("id", INF_MIN)];
          exclusiveEndPrimaryKey :=
            [("category", Plain (VString "electronics")); ("id", INF_MAX)];
          getRange_limit := NInt 1;
          getRange_direction := FORWARD;
          getRange_columnsToGet := None;
          getRange_columnFilter := None |}].
Proof.
  rewrite (findOne_reads_once_by_point_or_first_of_range
             Sample.emptyStore Cases.storage
             QueryBuilder.convertValueToTablestore Sample.decodeRow
             "Product" Sample.product Cases.categoryOnly);
    vm_compute; reflexivity.
Defined.

(** [findOne] of [aPhone] on a store that reports the row missing, on
    a store that is busy and on a store that answers without a row, and
    [findOne] of [categoryOnly] on a store that answers with no rows. *)
Lemma findOne_resolves_to_null_witness :
  snd (EntityManagerOps.findOne Cases.missingRowStore Cases.storage
         QueryBuilder.convertValueToTablestore Sample.decodeRow
         "Product" Cases.aPhone)
  = Fulfilled None
  /\ snd (EntityManagerOps.findOne Sample.failingStore Cases.storage
         QueryBuilder.convertValueToTablestore Sample.decodeRow
         "Product" Cases.aPhone)
     = Rejected (Thrown (StoreFailure "OTSServerBusy" "busy"))
  /\ snd (EntityManagerOps.findOne Sample.emptyStore Cases.storage
         QueryBuilder.convertValueToTablestore Sample.decodeRow
         "Product" Cases.aPhone)
     = Fulfilled None
  /\ snd (EntityManagerOps.findOne Sample.emptyStore Cases.storage
         QueryBuilder.convertValueToTablestore Sample.decodeRow
         "Product" Cases.categoryOnly)
     = Fulfilled None.
Proof.
  split; [|split; [|split]].
  - exact (findOne_resolves_to_null_when_the_row_is_missing
             Cases.missingRowStore Cases.storage
             QueryBuilder.convertValueToTablestore Sample.decodeRow
             "Product" Cases.aPhone _ eq_refl).
  - exact (findOne_resolves_to_null_when_the_row_is_missing
             Sample.failingStore Cases.storage
             QueryBuilder.convertValueToTablestore Sample.decodeRow
             "Product" Cases.aPhone _ eq_refl).
  - exact (findOne_resolves_to_null_when_the_row_is_missing
             Sample.emptyStore Cases.storage
             QueryBuilder.convertValueToTablestore Sample.decodeRow
             "Product" Cases.aPhone _ eq_refl (or_introl eq_refl)).
  - exact (findOne_resolves_to_null_when_the_row_is_missing
             Sample.emptyStore Cases.storage
             QueryBuilder.convertValueToTablestore Sample.decodeRow
             "Product" Cases.categoryOnly _ eq_refl eq_refl).
Defined.

(** [delete] and [update] on the key [{category: "electronics"}]. *)
Lemma incomplete_key_witness :
  exists column,
    find (fun column =>
            negb (isBound (get Cases.categoryOnly (propertyName column))))
      (primaryColumns Sample.product) = Some column
    /\ EntityManagerOps.delete Sample.emptyStore Cases.storage
         QueryBuilder.convertValueToTablestore "Product" Cases.categoryOnly
       = ([], Rejected (Thrown (Error (PrimaryKeyEmpty (propertyName column)))))
    /\ EntityManagerOps.update Sample.emptyStore Cases.storage
         QueryBuilder.convertValueToTablestore Sample.decodeRow
         (fun partialEntity _ _ => ([], partialEntity))
         "Product" Cases.categoryOnly ∅
       = ([], Rejected (Thrown (Error (PrimaryKeyEmpty (propertyName column))))).
Proof.
  apply (incomplete_key_is_refused_before_any_write
           Sample.emptyStore Cases.storage
           QueryBuilder.convertValueToTablestore Sample.decodeRow
           (fun partialEntity _ _ => ([], partialEntity))
           "Product" Sample.product Cases.categoryOnly ∅);
    vm_compute; reflexivity.
Defined.

(** An update of a row that the store then reports missing. *)
Lemma update_reads_back_witness :
  fst (EntityManagerOps.update Cases.missingRowStore Cases.storage
         QueryBuilder.convertValueToTablestore Sample.decodeRow
         (fun partialEntity _ _ => ([], partialEntity))
         "Product" Cases.aPhone ∅)
  = [UpdateRow "products"
       [("category", Plain (VString "electronics"));
        ("id", Plain (VString "001"))] None;
     GetRow (pointRead Sample.product
               [("category", Plain (VString "electronics"));
                ("id", Plain (VString "001"))])]
  /\ snd (EntityManagerOps.update Cases.missingRowStore Cases.storage
            QueryBuilder.convertValueToTablestore Sample.decodeRow
            (fun partialEntity _ _ => ([], partialEntity))
            "Product" Cases.aPhone ∅)
     = Rejected EntityMissingAfterUpdate.
Proof.
  destruct (update_reads_back_the_row_it_wrote
              Cases.missingRowStore Cases.storage
              QueryBuilder.convertValueToTablestore Sample.decodeRow
              (fun partialEntity _ _ => ([], partialEntity))
              "Product" Sample.product Cases.aPhone ∅)
    as (Hlog & Hmissing & _); try (vm_compute; reflexivity).
  split; [exact Hlog|]. apply Hmissing. vm_compute. reflexivity.
Defined.

(** Saving an entity whose [id] is [null]: the put goes out on the key
    [(category)]. *)
Lemma save_puts_witness :
  exists read,
    fst (EntityManagerOps.save Sample.emptyStore Cases.storage
           QueryBuilder.convertValueToTablestore Sample.decodeRow
           (fun entity _ => entity) "Product" Cases.unsaved)
    = [PutRow "products" [("category", Plain (VString "electronics"))] None;
       read].
Proof.
  pose proof (save_puts_before_any_check
                Sample.emptyStore Cases.storage
                QueryBuilder.convertValueToTablestore Sample.decodeRow
                (fun entity _ => entity) "Product" Sample.product Cases.unsaved
                eq_refl) as H.
  exact H.
Defined.

(** Saving [aPhone] on a store that holds its row. *)
Lemma save_reads_back_witness :
  EntityManagerOps.save Sample.fullStore Cases.storage
    QueryBuilder.convertValueToTablestore Sample.decodeRow
    (fun entity _ => entity) "Product" Cases.aPhone
  = ([PutRow "products"
        [("category", Plain (VString "electronics"));
         ("id", Plain (VString "001"))] None;
      GetRow (pointRead Sample.product
                [("category", Plain (VString "electronics"));
                 ("id", Plain (VString "001"))])],
     Fulfilled (Sample.decodeRow Sample.aRow Sample.product)).
Proof.
  rewrite (save_reads_back_the_key_it_put
             Sample.fullStore Cases.storage
             QueryBuilder.convertValueToTablestore Sample.decodeRow
             (fun entity _ => entity) "Product" Sample.product Cases.aPhone);
    vm_compute; reflexivity.
Defined.

End ManagerFacts.

(** ** Cursors *)

Module CursorFacts.

Import Node PaginationUtils.

Lemma decodeCursor_encoded (k : Json) :
  representable k = true ->
  decodeCursor (base64Encode (utf8Encode (stringify k))) = Some (Ok k).
Proof.
  intros Hrep.
  pose proof (NodeFacts.stringify_wellFormed k Hrep) as Hwf.
  unfold decodeCursor.
  rewrite NodeFacts.bufferFromBase64_encode
    by (by apply NodeFacts.utf8Encode_bytes).
  cbn zeta. rewrite NodeFacts.utf8_roundtrip by exact Hwf.
  by rewrite NodeFacts.parse_stringify.
Qed.

(** X24.  Two keys of the modelled JSON values that differ have
    different cursors: a cursor names one position. *)
Theorem distinct_keys_have_distinct_cursors (k1 k2 : Json) :
  representable k1 = true ->
  representable k2 = true ->
  k1 <> k2 ->
  encodeCursor k1 <> encodeCursor k2.
Proof.
  intros Hrep1 Hrep2 Hdistinct Hsame. unfold encodeCursor in Hsame.
  injection Hsame as Hsame.
  pose proof (decodeCursor_encoded k1 Hrep1) as H1.
  pose proof (decodeCursor_encoded k2 Hrep2) as H2.
  rewrite Hsame in H1. congruence.
Qed.

Lemma distinct_cursors_witness :
  encodeCursor Sample.lastSeen <> encodeCursor (JObject []).
Proof.
  apply (distinct_keys_have_distinct_cursors Sample.lastSeen (JObject []));
    [vm_compute; reflexivity | vm_compute; reflexivity | discriminate].
Defined.

End CursorFacts.

(** ** The repository *)

Module RepositoryFacts.

Import Async QueryBuilder Repository.

Lemma extractPrimaryKeys_fold (entity : Entity) cols acc name :
  get (fold_left
         (fun primaryKeys column =>
            let value := get entity (propertyName column) in
            if negb (strictEq value VUndefined)
            then <[propertyName column := value]> primaryKeys
            else primaryKeys)
         cols acc) name
  = if bool_decide (name ∈ map propertyName cols)
       && negb (strictEq (get entity name) VUndefined)
    then get entity name
    else get acc name.
Proof.
  revert acc. induction cols as [|column cols IH]; intros acc; [done|].
  cbn [fold_left map]. rewrite IH.
  destruct (decide (name = propertyName column)) as [->|Hne].
  - rewrite (bool_decide_eq_true_2 (_ ∈ _ :: _)) by left.
    destruct (strictEq (get entity (propertyName column)) VUndefined) eqn:Hundef;
      cbn [negb].
    + by rewrite !andb_false_r.
    + assert (get (<[propertyName column := get entity (propertyName column)]> acc)
                (propertyName column) = get entity (propertyName column)) as ->
        by (unfold get at 1; by rewrite lookup_insert_eq).
      by destruct (bool_decide _).
  - assert (bool_decide (name ∈ propertyName column :: map propertyName cols)
            = bool_decide (name ∈ map propertyName cols)) as ->.
    { apply bool_decide_ext. rewrite elem_of_cons.
      split; [by intros [?|?] | by right]. }
    destruct (bool_decide _ && _); [done|].
    destruct (negb (strictEq (get entity (propertyName column)) VUndefined));
      [|done].
    unfold get. by rewrite lookup_insert_ne.
Qed.

(** The key [extractPrimaryKeys] builds reads, at every primary column,
    as the entity does. *)
Lemma extractPrimaryKeys_get md (entity : Entity) column :
  column ∈ primaryColumns md ->
  get (extractPrimaryKeys md entity) (propertyName column)
  = get entity (propertyName column).
Proof.
  intros Hin. unfold extractPrimaryKeys. rewrite extractPrimaryKeys_fold.
  rewrite bool_decide_eq_true_2 by (apply list_elem_of_fmap; eauto).
  cbn [andb].
  by destruct (get entity (propertyName column)).
Qed.

Lemma convertPrimaryKeysLoop_ext conv cols (k1 k2 : gmap string JsValue)
    allowPartial acc :
  (forall column, column ∈ cols ->
     get k1 (propertyName column) = get k2 (propertyName column)) ->
  EntityManager.convertPrimaryKeysLoop conv cols k1 allowPartial acc
  = EntityManager.convertPrimaryKeysLoop conv cols k2 allowPartial acc.
Proof.
  revert acc. induction cols as [|column cols IH]; intros acc Hsame; [done|].
  cbn. rewrite (Hsame column) by left.
  destruct (isBound (get k2 (propertyName column))); [|done].
  apply IH. intros c Hin. apply Hsame. by right.
Qed.

Section Collaborators.

Variable client : Client.
Variable metadataStorage : string -> option EntityMetadata.
Variable conv : JsValue -> ColumnMetadata -> CellValue.
Variable convertTablestoreToEntity : Row -> EntityMetadata -> Entity.
Variable cursorOfKey : list (string * CellValue) -> Result (list Z).
Variable entityClass : string.
Variable md : EntityMetadata.

Abbreviation find := (Repository.find client convertTablestoreToEntity md).
Abbreviation count := (Repository.count client convertTablestoreToEntity md).
Abbreviation remove := (Repository.remove client metadataStorage conv entityClass md).
Abbreviation removeMany :=
  (Repository.removeMany client metadataStorage conv entityClass md).
Abbreviation deleteBy :=
  (Repository.deleteBy client metadataStorage conv convertTablestoreToEntity
     entityClass md).

Lemma findBuilder_fields options :
  metadata (findBuilder md options) = md
  /\ _orderBy (findBuilder md options) = []
  /\ _limit (findBuilder md options)
     = match options ≫= find_take with
       | Some n => if truthyNumber n then Some n else None
       | None => None
       end.
Proof.
  unfold findBuilder, createQueryBuilder.
  destruct (options ≫= find_where), (options ≫= find_take) as [n|],
    (options ≫= find_startAfter), (options ≫= find_endBefore),
    (options ≫= find_select); cbn;
    try destruct (truthyNumber n); done.
Qed.

(** X20.  [find] sends exactly one request.  It never reads the
    [order] option: the request is a [getRow], or a forward [getRange]
    whose limit is [take] when that is a truthy number and 100
    otherwise. *)
Theorem find_scans_forward_whatever_the_order (options : option FindOptions) :
  exists req,
    fst (find options) = [req]
    /\ match req with
       | GetRow _ => isExactPrimaryKeyQuery (findBuilder md options) = true
       | GetRange p =>
           getRange_direction p = FORWARD
           /\ getRange_limit p
              = match options ≫= find_take with
                | Some n => if truthyNumber n then n else NInt 100
                | None => NInt 100
                end
       | _ => False
       end.
Proof.
  unfold Repository.find, getMany.
  destruct (findBuilder_fields options) as (_ & Horder & Hlimit).
  destruct (isExactPrimaryKeyQuery (findBuilder md options)) eqn:Hexact.
  - unfold executeQuery. rewrite Hexact. cbn.
    eexists. split; [reflexivity|]. done.
  - rewrite QueryBuilderFacts.executeQuery_range by assumption. cbn.
    eexists. split; [reflexivity|].
    destruct (QueryBuilderFacts.rangeBuilder_fields (findBuilder md options))
      as (_ & Horder' & Hlimit' & _).
    assert (getDirection (rangeBuilder (findBuilder md options)) = FORWARD)
      as Hforward.
    { unfold getDirection, firstIsDesc. by rewrite Horder', Horder. }
    unfold getRangeParams. rewrite Hforward, Hlimit', Hlimit. cbn.
    split; [reflexivity|].
    destruct (options ≫= find_take) as [n|]; [|done].
    by destruct (truthyNumber n) eqn:Htruthy; [rewrite Htruthy|].
Qed.

Lemma find_log options :
  exists read, fst (find options) = [read] /\ Script.isRead read = true.
Proof.
  unfold Repository.find, getMany.
  destruct (isExactPrimaryKeyQuery (findBuilder md options)) eqn:Hexact.
  - unfold executeQuery. rewrite Hexact. cbn. eauto.
  - rewrite QueryBuilderFacts.executeQuery_range by assumption. cbn. eauto.
Qed.

(** What [find] returns when [take] is not given. *)
Lemma find_page options entities :
  (forall p response z,
     getRange client p = Ok response -> getRange_limit p = NInt z -> 0 <= z ->
     Z.of_nat (length (rows response)) <= z) ->
  options ≫= find_take = None ->
  snd (find options) = Fulfilled entities ->
  (length entities <= 100)%nat.
Proof.
  intros Hstore Htake. unfold Repository.find, getMany.
  assert (_limit (findBuilder md options) = None) as Hlimit.
  { destruct (findBuilder_fields options) as (_ & _ & ->). by rewrite Htake. }
  destruct (isExactPrimaryKeyQuery (findBuilder md options)) eqn:Hexact.
  - unfold executeQuery. rewrite Hexact. cbn.
    destruct (getRow client _) as [response|e]; cbn.
    + destruct (row response) as [r|]; [|cbn; intros [= <-]; cbn; lia].
      destruct (Tablestore.primaryKey r); cbn; intros [= <-]; cbn; lia.
    + destruct (EntityManager.isRowNotFoundError e); cbn; [|done].
      intros [= <-]. cbn. lia.
  - rewrite QueryBuilderFacts.executeQuery_range by assumption. cbn.
    destruct (getRange client _) as [response|e] eqn:Hread; cbn; [|done].
    intros [= <-]. rewrite length_map.
    assert (getRange_limit (getRangeParams (rangeBuilder (findBuilder md options)))
            = NInt 100) as H100.
    { unfold getRangeParams.
      destruct (QueryBuilderFacts.rangeBuilder_fields (findBuilder md options))
        as (_ & _ & -> & _).
      rewrite Hlimit. by destruct (getDirection _). }
    specialize (Hstore _ _ _ Hread H100). lia.
Qed.

(** X21.  [count] counts the entities of one [find] without a limit of
    its own: on a store that returns no more rows than a request allows,
    the count is at most 100, however many rows match. *)
Theorem count_stops_at_the_default_limit
    (where_ : option (gmap string JsValue)) :
  (forall p response z,
     getRange client p = Ok response -> getRange_limit p = NInt z -> 0 <= z ->
     Z.of_nat (length (rows response)) <= z) ->
  match snd (count where_) with
  | Fulfilled n => (n <= 100)%nat
  | Rejected _ => True
  end.
Proof.
  intros Hstore. unfold Repository.count.
  set (options := Some _).
  pose proof (find_page options) as Hpage.
  destruct (find options) as [log [entities|r]]; cbn; [|done].
  by apply Hpage.
Qed.

(** X22.  [remove(entity)] is [delete] with the entity itself as the
    key: the object [extractPrimaryKeys] builds holds, for every primary
    column, what the entity holds, so the same request is sent, or the
    same missing column refused. *)
Theorem remove_is_delete_by_the_entity (entity : Entity) :
  metadataStorage entityClass = Some md ->
  remove entity
  = EntityManagerOps.delete client metadataStorage conv entityClass entity.
Proof.
  intros Hmd. unfold Repository.remove, Repository.delete, EntityManagerOps.delete.
  unfold EntityManagerOps.getEntityMetadata. rewrite Hmd. cbn.
  unfold EntityManager.convertPrimaryKeysToTablestore.
  rewrite (convertPrimaryKeysLoop_ext conv (primaryColumns md)
             (extractPrimaryKeys md entity) entity); [done|].
  intros column Hin. by apply extractPrimaryKeys_get.
Qed.

Lemma delete_log primaryKeys :
  fst (EntityManagerOps.delete client metadataStorage conv entityClass primaryKeys)
  = []
  \/ exists table key,
       fst (EntityManagerOps.delete client metadataStorage conv entityClass
              primaryKeys)
       = [DeleteRow table key None].
Proof.
  unfold EntityManagerOps.delete, EntityManagerOps.getEntityMetadata.
  destruct (metadataStorage entityClass) as [md'|]; cbn; [|by left].
  destruct (EntityManager.convertPrimaryKeysToTablestore conv primaryKeys md' false);
    cbn; [|by left].
  right. do 2 eexists. reflexivity.
Qed.

Lemma removeMany_log entities :
  Forall (fun r => exists table key, r = DeleteRow table key None)
    (fst (removeMany entities))
  /\ (length (fst (removeMany entities)) <= length entities)%nat.
Proof.
  induction entities as [|entity entities [IHall IHlen]].
  - split; [constructor | cbn; lia].
  - cbn [Repository.removeMany]. unfold Repository.remove, Repository.delete.
    pose proof (delete_log (extractPrimaryKeys md entity)) as Hlog.
    destruct (EntityManagerOps.delete client metadataStorage conv entityClass
                (extractPrimaryKeys md entity)) as [log settled].
    cbn [fst] in Hlog. unfold Async.bind.
    destruct (removeMany entities) as [log' settled'].
    cbn [fst length] in *.
    destruct Hlog as [-> | (table & key & ->)], settled as [[]|r]; cbn.
    + split; [done | lia].
    + split; [constructor | lia].
    + split; [constructor; eauto | lia].
    + split; [repeat constructor; eauto | lia].
Qed.

(** X23.  [deleteBy] deletes what one [find] returned: after its one
    read it sends only [deleteRow] requests, one per entity at most, so
    on a store that returns no more rows than a request allows it
    deletes at most 100 rows, however many match. *)
Theorem deleteBy_deletes_at_most_one_page (where_ : gmap string JsValue) :
  (forall p response z,
     getRange client p = Ok response -> getRange_limit p = NInt z -> 0 <= z ->
     Z.of_nat (length (rows response)) <= z) ->
  exists read deletes,
    fst (deleteBy where_) = read :: deletes
    /\ Script.isRead read = true
    /\ Forall (fun r => exists table key, r = DeleteRow table key None) deletes
    /\ (length deletes <= 100)%nat.
Proof.
  intros Hstore. unfold Repository.deleteBy, Repository.findBy.
  set (options := Some _).
  pose proof (find_page options) as Hpage.
  destruct (find_log options) as (read & Hlog & Hread).
  destruct (find options) as [log [entities|r]]; cbn in Hlog; subst log.
  - unfold Async.bind.
    destruct (removeMany_log entities) as [Hdeletes Hlen].
    destruct (removeMany entities) as [deletes settled]. cbn in *.
    exists read, deletes. repeat split; try done.
    specialize (Hpage entities Hstore eq_refl eq_refl). lia.
  - exists read, []. cbn. repeat split; try done; lia.
Qed.

Section Batch.

Variable processSpecialColumnsOnInsert : Entity -> EntityMetadata -> Entity.

Abbreviation save :=
  (Repository.save client metadataStorage conv convertTablestoreToEntity
     processSpecialColumnsOnInsert entityClass).
Abbreviation saveMany :=
  (Repository.saveMany client metadataStorage conv convertTablestoreToEntity
     processSpecialColumnsOnInsert entityClass).

(** X30.  [saveMany] saves the entities in order and stops at the
    first save that is rejected: it rejects with that rejection, the
    entities after it are not sent, and nothing is sent to undo the saves
    already made. *)
Theorem saveMany_stops_at_the_first_rejection
    (saved : list Entity) (entity : Entity) (rest : list Entity)
    (log : list Request) (r : Rejection) :
  Forall (fun e => exists result, snd (save e) = Fulfilled result) saved ->
  save entity = (log, Rejected r) ->
  saveMany (saved ++ entity :: rest)
  = (flat_map (fun e => fst (save e)) saved ++ log, Rejected r).
Proof.
  intros Hsaved Hrejected.
  induction Hsaved as [|e saved [result He] _ IH]; cbn [app flat_map].
  - cbn [Repository.saveMany]. rewrite Hrejected. reflexivity.
  - cbn [Repository.saveMany]. rewrite IH.
    destruct (save e) as [log0 settled]. cbn in He. subst settled.
    cbn. by rewrite app_assoc.
Qed.

End Batch.

Abbreviation page :=
  (Repository.page client convertTablestoreToEntity cursorOfKey md).
Abbreviation runPage :=
  (Repository.runPage client convertTablestoreToEntity cursorOfKey).

Lemma runPage_log qb :
  fst (runPage qb) = fst (snd (executeQuery client convertTablestoreToEntity qb)).
Proof.
  unfold Repository.runPage, getRawAndEntities.
  destruct (executeQuery client convertTablestoreToEntity qb)
    as [qb' [log [result|e]]]; cbn; [|done].
  destruct (result_nextStartPrimaryKey result) as [key|]; cbn.
  - destruct (cursorOfKey key); cbn; by rewrite app_nil_r.
  - by rewrite app_nil_r.
Qed.

Lemma pageBuilder_fields options condition (object : gmap string JsValue) :
  let qb := pageBuilder md options condition (Some object) in
  metadata qb = md
  /\ _where qb = _where (given (page_where options) where_ (create md))
  /\ _limit qb = Some (page_limit options)
  /\ _columnCondition qb = condition
  /\ _startPrimaryKey qb
     = Some (autoCompletePartialPrimaryKey md object true ASC).
Proof.
  unfold pageBuilder, createQueryBuilder.
  destruct (page_where options), condition, (page_order options) as [[]|];
    cbn; unfold orderBy; cbn; destruct (primaryColumns md); done.
Qed.

Lemma toObject_truthy v object : toObject v = Some object -> truthy v = true.
Proof. by destruct v. Qed.

(** X25.  A page asked for with the cursor of a key resumes at that
    key: on the range path the one request sent is a [getRange] whose
    start key is the completion of the decoded key, with the value of
    the cursor in every primary column it names and [INF_MIN] in the
    others whatever the order of the page, whose limit is the page's
    (100 when that is falsy) and whose filter is the page's. *)
Theorem page_resumes_at_the_key_of_its_cursor
    (options : CursorPaginationOptions) (k : Node.Json) (cursor : list Z)
    (object : gmap string JsValue) (condition : option ColumnCondition) :
  Node.representable k = true ->
  PaginationUtils.encodeCursor k = Ok cursor ->
  page_cursor options = Some cursor ->
  toObject k = Some object ->
  page_filter options = Ok <$> condition ->
  isExactPrimaryKeyQuery (given (page_where options) where_ (create md)) = false ->
  exists io params,
    page options = Some io
    /\ fst io = [GetRange params]
    /\ inclusiveStartPrimaryKey params
       = autoCompletePartialPrimaryKey md object true ASC
    /\ getRange_limit params
       = (if truthyNumber (page_limit options) then page_limit options
          else NInt 100)
    /\ getRange_columnFilter params = condition.
Proof.
  intros Hrep Hcursor Hoption Hobject Hfilter Hexact.
  injection Hcursor as <-.
  pose proof (CursorFacts.decodeCursor_encoded k Hrep) as Hdecoded.
  unfold Repository.page. rewrite Hoption.
  destruct (Node.base64Encode _) as [|c rest] eqn:Hencoded;
    [vm_compute in Hdecoded; discriminate|].
  cbv beta iota zeta.
  rewrite Hdecoded, Hfilter, (toObject_truthy _ _ Hobject), Hobject.
  set (qb := pageBuilder md options condition (Some object)).
  destruct (pageBuilder_fields options condition object)
    as (Hmd & Hwhere & Hlimit & Hcondition & Hstart).
  fold qb in Hmd, Hwhere, Hlimit, Hcondition, Hstart.
  assert (isExactPrimaryKeyQuery qb = false) as Hexact'.
  { unfold isExactPrimaryKeyQuery in *. rewrite Hmd, Hwhere.
    by destruct (page_where options). }
  exists (runPage qb), (getRangeParams (rangeBuilder qb)).
  split; [by destruct condition|].
  rewrite runPage_log, QueryBuilderFacts.executeQuery_range by assumption.
  split; [reflexivity|].
  split; [by apply PlannerFacts.getRangeParams_start, PlannerFacts.rangeBuilder_start|].
  unfold getRangeParams.
  destruct (QueryBuilderFacts.rangeBuilder_fields qb)
    as (_ & _ & -> & _ & ->).
  rewrite Hlimit, Hcondition. by destruct (getDirection _).
Qed.

End Collaborators.

(** Counting the rows of [product] on the store of 150 rows. *)
Lemma count_witness :
  match snd (Repository.count Sample.fullStore Sample.decodeRow
               Sample.product None) with
  | Fulfilled n => (n <= 100)%nat
  | Rejected _ => True
  end.
Proof.
  apply (count_stops_at_the_default_limit Sample.fullStore Sample.decodeRow
           Sample.product None).
  intros p response z Hresp Hz Hpos. cbn in Hresp. injection Hresp as <-.
  cbn. rewrite Hz, length_firstn. lia.
Defined.

(** Removing an entity whose [id] is [null]. *)
Lemma remove_witness :
  Repository.remove Sample.emptyStore Cases.storage
    QueryBuilder.convertValueToTablestore "Product" Sample.product Cases.unsaved
  = ([], Rejected (Thrown (Error (PrimaryKeyEmpty "id")))).
Proof.
  rewrite (remove_is_delete_by_the_entity Sample.emptyStore Cases.storage
             QueryBuilder.convertValueToTablestore "Product" Sample.product
             Cases.unsaved eq_refl).
  vm_compute. reflexivity.
Defined.

(** [deleteBy({category: "electronics"})] on the store of 150 rows. *)
Lemma deleteBy_witness :
  exists read deletes,
    fst (Repository.deleteBy Sample.fullStore Cases.storage
           QueryBuilder.convertValueToTablestore Sample.decodeRow
           "Product" Sample.product Cases.categoryOnly)
    = read :: deletes
    /\ Script.isRead read = true
    /\ Forall (fun r => exists table key, r = DeleteRow table key None) deletes
    /\ (length deletes <= 100)%nat.
Proof.
  apply (deleteBy_deletes_at_most_one_page Sample.fullStore Cases.storage
           QueryBuilder.convertValueToTablestore Sample.decodeRow
           "Product" Sample.product Cases.categoryOnly).
  intros p response z Hresp Hz Hpos. cbn in Hresp. injection Hresp as <-.
  cbn. rewrite Hz, length_firstn. lia.
Defined.

(** The second page, newest first, of the products of one category,
    asked for with the cursor of [Sample.lastSeen]. *)
Lemma page_resumes_witness :
  exists io params,
    Repository.page Sample.emptyStore Sample.decodeRow
      (fun _ => Ok []) Sample.product Cases.secondPage = Some io
    /\ fst io = [GetRange params]
    /\ inclusiveStartPrimaryKey params
       = [("category", Plain (VString "electronics"));
          ("id", Plain (VString "003"))]
    /\ getRange_limit params = NInt 2
    /\ getRange_columnFilter params = None.
Proof.
  destruct (page_resumes_at_the_key_of_its_cursor
              Sample.emptyStore Sample.decodeRow (fun _ => Ok []) Sample.product
              Cases.secondPage Sample.lastSeen
              (Node.base64Encode (Node.utf8Encode (Node.stringify Sample.lastSeen)))
              {[ "category" := VString "electronics"; "id" := VString "003";
                 "rank" := VNumber (NInt (-7)) ]}
              None)
    as (io & params & Hpage & Hlog & Hstart & Hlimit & Hfilter);
    try (vm_compute; reflexivity).
  exists io, params. split; [exact Hpage|]. split; [exact Hlog|].
  split; [|split; [exact Hlimit | exact Hfilter]].
  rewrite Hstart. vm_compute. reflexivity.
Defined.

(** Saving [aPhone], then an entity without [id], then [aBook], on a
    store that refuses a key that is not complete: the third save is
    never made. *)
Lemma saveMany_witness :
  Repository.saveMany Cases.strictStore Cases.storage
    QueryBuilder.convertValueToTablestore Sample.decodeRow
    (fun entity _ => entity) "Product" [Cases.aPhone; Cases.unsaved; Sample.aBook]
  = ([PutRow "products"
        [("category", Plain (VString "electronics"));
         ("id", Plain (VString "001"))] None;
      GetRow (EntityManagerOps.pointRead Sample.product
                [("category", Plain (VString "electronics"));
                 ("id", Plain (VString "001"))]);
      PutRow "products" [("category", Plain (VString "electronics"))] None],
     Rejected (Thrown (StoreFailure "OTSParameterInvalid" "key"))).
Proof.
  etrans.
  - apply (saveMany_stops_at_the_first_rejection Cases.strictStore Cases.storage
             QueryBuilder.convertValueToTablestore Sample.decodeRow "Product"
             (fun entity _ => entity)
             [Cases.aPhone] Cases.unsaved [Sample.aBook]
             [PutRow "products" [("category", Plain (VString "electronics"))] None]
             (Thrown (StoreFailure "OTSParameterInvalid" "key"))).
    + constructor; [|constructor]. eexists. vm_compute. reflexivity.
    + vm_compute. reflexivity.
  - vm_compute. reflexivity.
Defined.

End RepositoryFacts.

(** ** Transactions run by the manager *)

Module ManagerRunFacts.

Import Transaction TransactionManager.

Section Manager.

Variable client : Client.
Variable startLocalTransaction :
  string -> list (string * JsValue) -> Result string.

Abbreviation runInTransaction :=
  (@TransactionManager.runInTransaction client startLocalTransaction).

(** X26.  A callback that leaves the transaction ACTIVE, with the
    deadline not passed when [commit] looks at the clock.  If the
    callback returned, the commit request follows its requests: accepted,
    the transaction is COMMITTED and the result is the callback's;
    rejected, the transaction is ABORTED, the rejection is thrown, and no
    abort request is sent.  If the callback threw, the abort request
    follows its requests and the transaction is ABORTED; the error thrown
    is the callback's when the abort is accepted, and the rejection of
    the abort otherwise. *)
Theorem runInTransaction_commits_or_aborts {A}
    (now committing : Z) (tableName : string)
    (partitionKey : list (string * JsValue)) (callback : M A)
    (options : option TransactionOptions)
    (id : string) (tx1 : Transaction.t) (log : list Request) (r : Result A) :
  startLocalTransaction tableName partitionKey = Ok id ->
  callback (new now tableName partitionKey id options) = (tx1, (log, r)) ->
  status tx1 = ACTIVE ->
  committing - startTime tx1 <= timeout tx1 ->
  runInTransaction now tableName partitionKey callback committing options
  = match r with
    | Ok a =>
        match write client (CommitTransaction (transactionId tx1)) with
        | Ok _ =>
            (Some (withStatus COMMITTED tx1),
             (StartLocalTransaction tableName partitionKey
                :: map Within (log ++ [CommitTransaction (transactionId tx1)]),
              Ok a))
        | Throw e =>
            (Some (withStatus ABORTED tx1),
             (StartLocalTransaction tableName partitionKey
                :: map Within (log ++ [CommitTransaction (transactionId tx1)]),
              Throw e))
        end
    | Throw e =>
        (Some (withStatus ABORTED tx1),
         (StartLocalTransaction tableName partitionKey
            :: map Within (log ++ [AbortTransaction (transactionId tx1)]),
          match write client (AbortTransaction (transactionId tx1)) with
          | Ok _ => Throw e
          | Throw e' => Throw e'
          end))
    end.
Proof.
  intros Hstart Hcallback Hactive Hlive.
  unfold TransactionManager.runInTransaction, startTransaction.
  rewrite Hstart. cbn [Js.bind].
  unfold tryCatch, bindM at 1. rewrite Hcallback.
  destruct r as [a|e].
  - unfold bindM at 1, commit.
    rewrite (TransactionFacts.bindM_ok _ _ tx1 tx1 tt)
      by (by apply TransactionFacts.ensureActive_live).
    unfold tryCatch, bindM, send, setStatus, throw, ret, rollback.
    destruct (write client (CommitTransaction (transactionId tx1))) as [[]|e];
      cbn; rewrite ?(bool_decide_eq_false_2 (ABORTED = ACTIVE)) by done;
      cbn; by rewrite ?app_nil_r.
  - unfold bindM, rollback, tryFinally, send, throw. rewrite Hactive. cbn.
    destruct (write client (AbortTransaction (transactionId tx1))) as [[]|e'];
      cbn; by rewrite ?app_nil_r.
Qed.

(** X27.  A callback that returns on an ACTIVE transaction after the
    deadline: [commit] marks the transaction TIMEOUT and throws, the
    rollback that follows does nothing, so neither a commit nor an abort
    request is sent and the result of the callback is lost. *)
Theorem late_callback_sends_no_commit_and_no_abort {A}
    (now committing : Z) (tableName : string)
    (partitionKey : list (string * JsValue)) (callback : M A)
    (options : option TransactionOptions)
    (id : string) (tx1 : Transaction.t) (log : list Request) (a : A) :
  startLocalTransaction tableName partitionKey = Ok id ->
  callback (new now tableName partitionKey id options) = (tx1, (log, Ok a)) ->
  status tx1 = ACTIVE ->
  committing - startTime tx1 > timeout tx1 ->
  runInTransaction now tableName partitionKey callback committing options
  = (Some (withStatus TIMEOUT tx1),
     (StartLocalTransaction tableName partitionKey :: map Within log,
      Throw (Error TransactionTimedOut))).
Proof.
  intros Hstart Hcallback Hactive Hlate.
  unfold TransactionManager.runInTransaction, startTransaction.
  rewrite Hstart. cbn [Js.bind].
  unfold tryCatch, bindM at 1. rewrite Hcallback.
  unfold bindM at 1, commit.
  rewrite (TransactionFacts.bindM_throw _ _ tx1 (withStatus TIMEOUT tx1) []
             (Error TransactionTimedOut))
    by (by apply TransactionFacts.ensureActive_expired).
  unfold bindM, rollback, throw. cbn.
  rewrite (bool_decide_eq_false_2 (TIMEOUT = ACTIVE)) by done.
  cbn. by rewrite !app_nil_r.
Qed.

End Manager.

(** A callback that saves one row, on a store that rejects every
    call: the save is rejected, and so is the abort. *)
Lemma runInTransaction_witness :
  TransactionManager.runInTransaction Sample.failingStore
    (fun _ _ => Ok "tx-1") 1000 "products"
    [("category", VString "electronics")]
    (Transaction.save Sample.failingStore Sample.registry
       QueryBuilder.convertValueToTablestore (fun entity _ => entity)
       2000 "Product" Cases.aPhone)
    3000 None
  = (Some (withStatus ABORTED Sample.electronicsTx),
     ([StartLocalTransaction "products" [("category", VString "electronics")];
       Within (PutRow "products"
                 [("category", Plain (VString "electronics"));
                  ("id", Plain (VString "001"))] (Some "tx-1"));
       Within (AbortTransaction "tx-1")],
      Throw (StoreFailure "OTSServerBusy" "busy"))).
Proof.
  rewrite (runInTransaction_commits_or_aborts Sample.failingStore
             (fun _ _ => Ok "tx-1") 1000 3000 "products"
             [("category", VString "electronics")]
             (Transaction.save Sample.failingStore Sample.registry
                QueryBuilder.convertValueToTablestore (fun entity _ => entity)
                2000 "Product" Cases.aPhone)
             None "tx-1" Sample.electronicsTx
             [PutRow "products"
                [("category", Plain (VString "electronics"));
                 ("id", Plain (VString "001"))] (Some "tx-1")]
             (Throw (StoreFailure "OTSServerBusy" "busy")));
    try reflexivity.
  vm_compute. discriminate.
Defined.

(** A callback that saves one row and returns 70 seconds after the
    transaction was started. *)
Lemma late_callback_witness :
  TransactionManager.runInTransaction Sample.emptyStore
    (fun _ _ => Ok "tx-1") 1000 "products"
    [("category", VString "electronics")]
    (Transaction.save Sample.emptyStore Sample.registry
       QueryBuilder.convertValueToTablestore (fun entity _ => entity)
       2000 "Product" Cases.aPhone)
    71000 None
  = (Some (withStatus TIMEOUT Sample.electronicsTx),
     ([StartLocalTransaction "products" [("category", VString "electronics")];
       Within (PutRow "products"
                 [("category", Plain (VString "electronics"));
                  ("id", Plain (VString "001"))] (Some "tx-1"))],
      Throw (Error TransactionTimedOut))).
Proof.
  rewrite (late_callback_sends_no_commit_and_no_abort Sample.emptyStore
             (fun _ _ => Ok "tx-1") 1000 71000 "products"
             [("category", VString "electronics")]
             (Transaction.save Sample.emptyStore Sample.registry
                QueryBuilder.convertValueToTablestore (fun entity _ => entity)
                2000 "Product" Cases.aPhone)
             None "tx-1" Sample.electronicsTx
             [PutRow "products"
                [("category", Plain (VString "electronics"));
                 ("id", Plain (VString "001"))] (Some "tx-1")]
             Cases.aPhone);
    reflexivity.
Defined.

End ManagerRunFacts.

(** ** The schema the decorators register *)

Module SchemaFacts.

Import MetadataStorage.

Lemma findIndex_Some name cols i :
  findIndex name cols = Some i ->
  exists col, cols !! i = Some col /\ propertyName col = name.
Proof.
  revert i. induction cols as [|col cols IH]; intros i; cbn; [done|].
  case_bool_decide as Hname.
  - intros [= <-]. eauto.
  - destruct (findIndex name cols) as [j|]; cbn; [|done].
    intros [= <-]. destruct (IH j eq_refl) as (c & Hc & Hn). eauto.
Qed.

Lemma findIndex_None name cols :
  findIndex name cols = None -> name ∉ map propertyName cols.
Proof.
  induction cols as [|col cols IH]; cbn; [intros _; apply not_elem_of_nil|].
  case_bool_decide as Hname; [done|].
  destruct (findIndex name cols); cbn; [done|]. intros _.
  apply not_elem_of_cons. split; [congruence | by apply IH].
Qed.

Lemma names_insert (cols : list ColumnMetadata) i old new :
  cols !! i = Some old ->
  propertyName new = propertyName old ->
  map propertyName (<[i := new]> cols) = map propertyName cols.
Proof.
  revert i. induction cols as [|col cols IH]; intros [|i]; cbn; try done.
  - intros [= ->] ->. done.
  - intros Hi Hn. f_equal. by apply IH.
Qed.

Lemma elem_of_insert {A} (l : list A) i x y :
  x ∈ <[i := y]> l -> x = y \/ x ∈ l.
Proof.
  revert i. induction l as [|a l IH]; intros [|i]; cbn; try (by right).
  - rewrite !elem_of_cons. intros [->|H]; auto.
  - rewrite !elem_of_cons. intros [->|H]; auto.
    destruct (IH i H); auto.
Qed.

Lemma elem_of_insert_other {A} (l : list A) i x y z :
  x ∈ l -> l !! i = Some y -> x <> y -> x ∈ <[i := z]> l.
Proof.
  revert i. induction l as [|a l IH]; intros [|i]; cbn; try done.
  - rewrite !elem_of_cons. intros [->|H] [= ->] Hne; [done | auto].
  - rewrite !elem_of_cons. intros [->|H] Hi Hne; [auto|].
    right. by eapply IH.
Qed.

Lemma elem_of_insert_new {A} (l : list A) i y z :
  l !! i = Some y -> z ∈ <[i := z]> l.
Proof.
  revert i. induction l as [|a l IH]; intros [|i]; cbn; try done.
  - intros _. left.
  - intros Hi. right. by eapply IH.
Qed.

Lemma same_name_same_column (cols : list ColumnMetadata) c1 c2 :
  NoDup (map propertyName cols) ->
  c1 ∈ cols -> c2 ∈ cols -> propertyName c1 = propertyName c2 -> c1 = c2.
Proof.
  induction cols as [|col cols IH]; cbn; [by intros _ ?%elem_of_nil|].
  rewrite NoDup_cons. intros [Hfresh Hnodup].
  rewrite !elem_of_cons. intros [->|H1] [->|H2] Hname; auto.
  - exfalso. apply Hfresh. rewrite Hname. apply list_elem_of_fmap. eauto.
  - exfalso. apply Hfresh. rewrite <- Hname. apply list_elem_of_fmap. eauto.
Qed.

Lemma finalColumn_name column cols :
  propertyName (finalColumn column cols) = input_propertyName column.
Proof. unfold finalColumn. by destruct (_ ≫= _). Qed.

Lemma push_NoDup (names : list string) name :
  NoDup names -> name ∉ names -> NoDup (names ++ [name]).
Proof.
  intros Hnames Hfresh. apply NoDup_app. repeat split; [done| |].
  - intros x Hx ?%list_elem_of_singleton. by subst.
  - apply NoDup_singleton.
Qed.

(** [putColumn] keeps the names there and their order. *)
Lemma putColumn_names final cols :
  map propertyName (putColumn final cols)
  = if bool_decide (propertyName final ∈ map propertyName cols)
    then map propertyName cols
    else map propertyName cols ++ [propertyName final].
Proof.
  unfold putColumn.
  destruct (findIndex (propertyName final) cols) as [i|] eqn:Hi.
  - destruct (findIndex_Some _ _ _ Hi) as (old & Hold & Hname).
    rewrite (names_insert _ _ old) by done.
    rewrite bool_decide_eq_true_2; [done|].
    rewrite <- Hname. apply list_elem_of_fmap.
    exists old. split; [done | by eapply list_elem_of_lookup_2].
  - rewrite bool_decide_eq_false_2 by (by apply findIndex_None).
    by rewrite map_app.
Qed.

Lemma putColumn_NoDup final cols :
  NoDup (map propertyName cols) ->
  NoDup (map propertyName (putColumn final cols)).
Proof.
  intros Hcols. rewrite putColumn_names.
  case_bool_decide; [done|]. by apply push_NoDup.
Qed.

Lemma putColumn_prefix final cols :
  map propertyName cols `prefix_of` map propertyName (putColumn final cols).
Proof.
  rewrite putColumn_names. case_bool_decide; [done|]. by apply prefix_app_r.
Qed.

Lemma putColumn_new final cols : final ∈ putColumn final cols.
Proof.
  unfold putColumn.
  destruct (findIndex (propertyName final) cols) as [i|] eqn:Hi.
  - destruct (findIndex_Some _ _ _ Hi) as (old & Hold & _).
    by eapply elem_of_insert_new.
  - apply elem_of_app. right. by left.
Qed.

Lemma putColumn_elem final cols c :
  c ∈ putColumn final cols -> c = final \/ c ∈ cols.
Proof.
  unfold putColumn.
  destruct (findIndex (propertyName final) cols) as [i|].
  - apply elem_of_insert.
  - intros [H|H]%elem_of_app; [auto|].
    apply list_elem_of_singleton in H as ->. auto.
Qed.

(** A column of another name stays. *)
Lemma putColumn_other final cols c :
  c ∈ cols -> propertyName c <> propertyName final -> c ∈ putColumn final cols.
Proof.
  intros Hc Hname. unfold putColumn.
  destruct (findIndex (propertyName final) cols) as [i|] eqn:Hi.
  - destruct (findIndex_Some _ _ _ Hi) as (old & Hold & Hold_name).
    eapply elem_of_insert_other; [done | exact Hold |]. intros ->. congruence.
  - apply elem_of_app. by left.
Qed.

(** A well-formed schema: no two columns, and no two primary columns,
    share a name; a primary column is marked primary and bears the name
    of a column; a column marked primary is a primary column. *)
Abbreviation wellFormed md :=
  (NoDup (map propertyName (columns md))
   /\ NoDup (map propertyName (primaryColumns md))
   /\ (forall c, c ∈ primaryColumns md ->
         isPrimary c = true
         /\ propertyName c ∈ map propertyName (columns md))
   /\ (forall c, c ∈ columns md -> isPrimary c = true ->
         c ∈ primaryColumns md)).

Lemma put_wellFormed table final cols prims :
  wellFormed {| tableName := table; columns := cols; primaryColumns := prims |} ->
  wellFormed {| tableName := table;
                columns := putColumn final cols;
                primaryColumns := putPrimaryColumn final prims |}.
Proof.
  cbn. intros (Hcols & Hprims & Hsub & Hall).
  assert (forall c, c ∈ cols ->
            propertyName c ∈ map propertyName (putColumn final cols)) as Hkept.
  { intros c Hc. rewrite putColumn_names.
    assert (propertyName c ∈ map propertyName cols)
      by (apply list_elem_of_fmap; eauto).
    case_bool_decide; [done|]. apply elem_of_app. by left. }
  assert (forall name, name ∈ map propertyName cols ->
            name ∈ map propertyName (putColumn final cols)) as Hnames.
  { intros name (c & -> & Hc)%list_elem_of_fmap. by apply Hkept. }
  assert (propertyName final ∈ map propertyName (putColumn final cols)) as Hnew.
  { apply list_elem_of_fmap. exists final. split; [done | apply putColumn_new]. }
  split; [by apply putColumn_NoDup|].
  unfold putPrimaryColumn. destruct (isPrimary final) eqn:Hprimary.
  - split; [by apply putColumn_NoDup|]. split.
    + intros c [->|Hc]%putColumn_elem; [done|].
      destruct (Hsub c Hc) as [Hp Hn]. auto.
    + intros c Hc Hcp.
      destruct (decide (propertyName c = propertyName final)) as [Hsame|Hother].
      * assert (c = final) as ->.
        { eapply (same_name_same_column (putColumn final cols));
            [by apply putColumn_NoDup | done | apply putColumn_new | done]. }
        apply putColumn_new.
      * apply putColumn_elem in Hc as [->|Hc]; [done|].
        apply putColumn_other; auto.
  - split; [done|]. split.
    + intros c Hc. destruct (Hsub c Hc) as [Hp Hn]. auto.
    + intros c [->|Hc]%putColumn_elem Hcp; [congruence | auto].
Qed.

Section Storage.

Variable toLowerCase : string -> string.

Abbreviation decorate := (MetadataStorage.decorate toLowerCase).
Abbreviation decorated := (MetadataStorage.decorated toLowerCase).

Lemma empty_wellFormed table :
  wellFormed {| tableName := table; columns := []; primaryColumns := [] |}.
Proof.
  cbn. split; [apply NoDup_nil_2|]. split; [apply NoDup_nil_2|].
  split; intros c Hc; by apply elem_of_nil in Hc.
Qed.

Lemma decorate_wellFormed d entities :
  (forall target md, entities !! target = Some md -> wellFormed md) ->
  forall target md, decorate d entities !! target = Some md -> wellFormed md.
Proof.
  intros Hall target md.
  assert (forall target' (column : ColumnInput),
            MetadataStorage.addColumnMetadata toLowerCase target' column entities
              !! target = Some md ->
            wellFormed md) as Hcolumn.
  { intros target' column. unfold MetadataStorage.addColumnMetadata.
    destruct (decide (target' = target)) as [->|Hne].
    - rewrite lookup_insert_eq. intros [= <-].
      apply put_wellFormed. unfold entityMetadataOf.
      destruct (entities !! target) as [md0|] eqn:Hmd0.
      + destruct md0. by apply (Hall target).
      + apply empty_wellFormed.
    - rewrite lookup_insert_ne by done. apply Hall. }
  destruct d as [target' table|target' name|target' name|target' column];
    cbn [MetadataStorage.decorate]; try apply Hcolumn.
  unfold addEntityMetadata.
  destruct (entities !! target') as [existing|] eqn:Hexisting.
  - destruct (decide (target' = target)) as [->|Hne].
    + rewrite lookup_insert_eq. intros [= <-]. cbn.
      exact (Hall target existing Hexisting).
    + rewrite lookup_insert_ne by done. apply Hall.
  - destruct (decide (target' = target)) as [->|Hne].
    + rewrite lookup_insert_eq. intros [= <-]. apply empty_wellFormed.
    + rewrite lookup_insert_ne by done. apply Hall.
Qed.

Lemma fold_decorate_wellFormed ds entities :
  (forall target md, entities !! target = Some md -> wellFormed md) ->
  forall target md,
    fold_left (fun entities d => decorate d entities) ds entities !! target
    = Some md ->
    wellFormed md.
Proof.
  revert entities. induction ds as [|d ds IH]; intros entities Hall; [done|].
  cbn. apply IH. by apply decorate_wellFormed.
Qed.

(** X28.  Whatever decorators have run, in whatever order, the schema
    registered for a class is well formed: no two of its columns, and no
    two of its primary columns, share a name; each primary column is
    marked primary and bears the name of a column; and each column
    marked primary is among the primary columns. *)
Theorem registered_schema_is_well_formed
    (ds : list Decorator) (target : string) (md : EntityMetadata) :
  decorated ds !! target = Some md ->
  NoDup (map propertyName (columns md))
  /\ NoDup (map propertyName (primaryColumns md))
  /\ (forall c, c ∈ primaryColumns md ->
        isPrimary c = true
        /\ propertyName c ∈ map propertyName (columns md))
  /\ (forall c, c ∈ columns md -> isPrimary c = true ->
        c ∈ primaryColumns md).
Proof.
  unfold MetadataStorage.decorated. apply fold_decorate_wellFormed.
  intros target' md'. by rewrite lookup_empty.
Qed.

Lemma decorate_keeps_key d entities target md :
  entities !! target = Some md ->
  exists md',
    decorate d entities !! target = Some md'
    /\ map propertyName (primaryColumns md)
         `prefix_of` map propertyName (primaryColumns md').
Proof.
  intros Hmd.
  assert (forall target' (column : ColumnInput),
            exists md',
              MetadataStorage.addColumnMetadata toLowerCase target' column entities
                !! target = Some md'
              /\ map propertyName (primaryColumns md)
                   `prefix_of` map propertyName (primaryColumns md')) as Hcolumn.
  { intros target' column. unfold MetadataStorage.addColumnMetadata.
    destruct (decide (target' = target)) as [->|Hne].
    - rewrite lookup_insert_eq. eexists. split; [reflexivity|].
      unfold entityMetadataOf. rewrite Hmd. cbn.
      unfold putPrimaryColumn. destruct (isPrimary _); [|done].
      apply putColumn_prefix.
    - rewrite lookup_insert_ne by done. eauto. }
  destruct d as [target' table|target' name|target' name|target' column];
    cbn [MetadataStorage.decorate]; try apply Hcolumn.
  unfold addEntityMetadata.
  destruct (decide (target' = target)) as [->|Hne].
  - rewrite Hmd, lookup_insert_eq. eauto.
  - destruct (entities !! target'); rewrite lookup_insert_ne by done; eauto.
Qed.

(** X29.  The primary key of a class only grows at its end: the
    decorators that run later leave the primary columns registered so
    far in their places, also when one of them registers such a column
    again as a plain column. *)
Theorem primary_key_only_grows_at_its_end
    (before after : list Decorator) (target : string) (md : EntityMetadata) :
  decorated before !! target = Some md ->
  exists md',
    decorated (before ++ after) !! target = Some md'
    /\ map propertyName (primaryColumns md)
         `prefix_of` map propertyName (primaryColumns md').
Proof.
  unfold MetadataStorage.decorated. rewrite fold_left_app.
  generalize (fold_left (fun entities d => decorate d entities) before ∅).
  intros entities. revert entities md.
  induction after as [|d after IH]; intros entities md Hmd; cbn.
  - eauto.
  - destruct (decorate_keeps_key d entities target md Hmd) as (md1 & Hmd1 & Hpre1).
    destruct (IH _ _ Hmd1) as (md' & Hmd' & Hpre').
    exists md'. split; [done|]. by etrans.
Qed.

End Storage.

(** The decorators of [Product] register the schema [Sample.product]. *)
Lemma registered_schema_witness :
  NoDup (map propertyName (columns Sample.product))
  /\ NoDup (map propertyName (primaryColumns Sample.product))
  /\ (forall c, c ∈ primaryColumns Sample.product ->
        isPrimary c = true
        /\ propertyName c ∈ map propertyName (columns Sample.product))
  /\ (forall c, c ∈ columns Sample.product -> isPrimary c = true ->
        c ∈ primaryColumns Sample.product).
Proof.
  apply (registered_schema_is_well_formed Cases.toLowerCase
           Cases.productDecorators "Product" Sample.product).
  vm_compute. reflexivity.
Defined.

(** [id] registered again, as a plain column, after the decorators of
    [Product]: the key is still [(category, id)]. *)
Lemma primary_key_witness :
  exists md',
    MetadataStorage.decorated Cases.toLowerCase
      (Cases.productDecorators ++ [Column "Product" "id"]) !! "Product"
    = Some md'
    /\ map propertyName (primaryColumns Sample.product)
         `prefix_of` map propertyName (primaryColumns md').
Proof.
  apply (primary_key_only_grows_at_its_end Cases.toLowerCase
           Cases.productDecorators [Column "Product" "id"]
           "Product" Sample.product).
  vm_compute. reflexivity.
Defined.

End SchemaFacts.
